(** * Endurance racing tracker: race lifecycle monitor and ingestion pipeline

    A shallow embedding of [backend/schedule.py], [backend/ingest.py],
    [backend/race_monitor.py] and [backend/export.py], with the race
    table of [backend/database.py].

    Conventions of the embedding.
    - A [datetime] is the number of microseconds since 0001-01-01T00:00 UTC
      (Python's proleptic ordinal, at Python's resolution), a [Z].
    - A Python [float] of the parsers is a binary64 value: a finite one
      is given by the rational ([Q]) it equals, and conversions and sums
      round to the nearest such value, ties to even, with overflow to
      infinity. Floats that are only compared (the time difference of the
      monitor, the lap times of the export) are the rationals they equal.
    - A scraped text is a Python [str], the list of its code points;
      names, selectors and time stamps, which the code only passes on
      and compares, are [string]s.
    - A Python exception is a value of [exn]; code that may raise lives in
      the [result] monad, and [try ... except Exception] is [try_except]. *)

From Stdlib Require Import ZArith QArith Qabs Qpower Qround String Ascii List Bool.
From Stdlib Require Import Lia Lqa.
From Stdlib Require Import DecimalString Permutation Sorted.
Import ListNotations.
Local Open Scope string_scope.
Local Open Scope Z_scope.

Set Implicit Arguments.

(* ===================================================================== *)
(** ** Exceptions *)
(* ===================================================================== *)

Inductive exn : Type :=
  | TypeError (msg : string)
  | ValueError (msg : string)
  | AttributeError (msg : string)
  | IndexError (msg : string)
  | TimeoutError
  | OtherException (msg : string).

Inductive result (A : Type) : Type :=
  | Ok (a : A)
  | Raise (e : exn).
Arguments Ok {A} a.
Arguments Raise {A} e.

Definition rbind {A B} (r : result A) (k : A -> result B) : result B :=
  match r with
  | Ok a => k a
  | Raise e => Raise e
  end.

Declare Scope py_scope.
Delimit Scope py_scope with py.
Notation "x <- c ;; k" := (rbind c (fun x => k))
  (at level 61, c at next level, right associativity) : py_scope.

(** [try: body except: handler] where the handler ignores the exception
    value and yields [dflt]. *)
Definition try_except {A} (body : result A) (dflt : A) : A :=
  match body with
  | Ok a => a
  | Raise _ => dflt
  end.

Definition raises {A} (r : result A) : bool :=
  match r with Ok _ => false | Raise _ => true end.

(* ===================================================================== *)
(** ** Python string primitives used by the scrapers *)
(* ===================================================================== *)

Module PyStr.
Local Open Scope list_scope.

(** A Python [str] is the list of its code points. *)
Abbreviation pystr := (list Z) (only parsing).

(** The [str] an ASCII literal of the source denotes. *)
Definition u (s : string) : pystr :=
  map (fun c => Z.of_nat (nat_of_ascii c)) (list_ascii_of_string s).

(** The code point of an ASCII character. *)
Definition chr (c : ascii) : Z := Z.of_nat (nat_of_ascii c).

Definition is_empty (s : pystr) : bool :=
  match s with [] => true | _ => false end.

(** [a == b] *)
Fixpoint str_eqb (a b : pystr) : bool :=
  match a, b with
  | [], [] => true
  | x :: a', y :: b' => (x =? y) && str_eqb a' b'
  | _, _ => false
  end.

(** *** The character tables

    [str.isspace] for one character: the 29 code points of bidirectional
    type WS, B or S, or of category Zs. *)
Definition is_space (c : Z) : bool :=
  ((9 <=? c) && (c <=? 13)) || ((28 <=? c) && (c <=? 32))
  || (c =? 133) || (c =? 160) || (c =? 5760)
  || ((8192 <=? c) && (c <=? 8202))
  || (c =? 8232) || (c =? 8233) || (c =? 8239) || (c =? 8287)
  || (c =? 12288).

(** [Py_ISSPACE], the white space of the C parsers behind [int] and
    [float]: TAB to CR and SPACE. *)
Definition c_space (c : Z) : bool :=
  ((9 <=? c) && (c <=? 13)) || (c =? 32).

Definition is_digit (c : Z) : bool := (48 <=? c) && (c <=? 57).

Definition digit_val (c : Z) : Z := c - 48.

(** The code points of the characters with decimal value zero (category
    Nd, Unicode 14.0.0 as in CPython 3.11); the nine that follow each
    have the values one to nine. *)
Definition decimal_zeros : list Z :=
  [
   48; 1632; 1776; 1984; 2406; 2534; 2662; 2790;
   2918; 3046; 3174; 3302; 3430; 3558; 3664; 3792;
   3872; 4160; 4240; 6112; 6160; 6470; 6608; 6784;
   6800; 6992; 7088; 7232; 7248; 42528; 43216; 43264;
   43472; 43504; 43600; 44016; 65296; 66720; 68912; 69734;
   69872; 69942; 70096; 70384; 70736; 70864; 71248; 71360;
   71472; 71904; 72016; 72784; 73040; 73120; 92768; 92864;
   93008; 120782; 120792; 120802; 120812; 120822; 123200; 123632;
   125264; 130032
  ].

(** [Py_UNICODE_TODECIMAL] *)
Definition decimal (c : Z) : option Z :=
  match find (fun z => (z <=? c) && (c <=? z + 9)) decimal_zeros with
  | Some z => Some (c - z)
  | None => None
  end.

(** What [int] and [float] do to a [str] before they parse it
    ([_PyUnicode_TransformDecimalAndSpaceToASCII]): an ASCII character is
    kept, any other white space becomes a blank, any other decimal digit
    its ASCII digit, and anything else a question mark. *)
Definition to_ascii (c : Z) : Z :=
  if c <? 128 then c
  else if is_space c then 32
  else match decimal c with
       | Some d => 48 + d
       | None => 63
       end.

(** The characters [str.upper] changes (Unicode 14.0.0): runs
    [(first, last, stride, delta)] of characters with a one-character
    upper case at distance [delta], and the characters whose upper case
    has several characters. *)
Definition upper_runs : list (Z * Z * Z * Z) :=
  [
   (97, 122, 1, (-32)); (181, 181, 1, 743); (224, 246, 1, (-32));
   (248, 254, 1, (-32)); (255, 255, 1, 121); (257, 303, 2, (-1));
   (305, 305, 1, (-232)); (307, 311, 2, (-1)); (314, 328, 2, (-1));
   (331, 375, 2, (-1)); (378, 382, 2, (-1)); (383, 383, 1, (-300));
   (384, 384, 1, 195); (387, 389, 2, (-1)); (392, 392, 1, (-1));
   (396, 396, 1, (-1)); (402, 402, 1, (-1)); (405, 405, 1, 97);
   (409, 409, 1, (-1)); (410, 410, 1, 163); (414, 414, 1, 130);
   (417, 421, 2, (-1)); (424, 424, 1, (-1)); (429, 429, 1, (-1));
   (432, 432, 1, (-1)); (436, 438, 2, (-1)); (441, 441, 1, (-1));
   (445, 445, 1, (-1)); (447, 447, 1, 56); (453, 453, 1, (-1));
   (454, 454, 1, (-2)); (456, 456, 1, (-1)); (457, 457, 1, (-2));
   (459, 459, 1, (-1)); (460, 460, 1, (-2)); (462, 476, 2, (-1));
   (477, 477, 1, (-79)); (479, 495, 2, (-1)); (498, 498, 1, (-1));
   (499, 499, 1, (-2)); (501, 501, 1, (-1)); (505, 543, 2, (-1));
   (547, 563, 2, (-1)); (572, 572, 1, (-1)); (575, 576, 1, 10815);
   (578, 578, 1, (-1)); (583, 591, 2, (-1)); (592, 592, 1, 10783);
   (593, 593, 1, 10780); (594, 594, 1, 10782); (595, 595, 1, (-210));
   (596, 596, 1, (-206)); (598, 599, 1, (-205)); (601, 601, 1, (-202));
   (603, 603, 1, (-203)); (604, 604, 1, 42319); (608, 608, 1, (-205));
   (609, 609, 1, 42315); (611, 611, 1, (-207)); (613, 613, 1, 42280);
   (614, 614, 1, 42308); (616, 616, 1, (-209)); (617, 617, 1, (-211));
   (618, 618, 1, 42308); (619, 619, 1, 10743); (620, 620, 1, 42305);
   (623, 623, 1, (-211)); (625, 625, 1, 10749); (626, 626, 1, (-213));
   (629, 629, 1, (-214)); (637, 637, 1, 10727); (640, 640, 1, (-218));
   (642, 642, 1, 42307); (643, 643, 1, (-218)); (647, 647, 1, 42282);
   (648, 648, 1, (-218)); (649, 649, 1, (-69)); (650, 651, 1, (-217));
   (652, 652, 1, (-71)); (658, 658, 1, (-219)); (669, 669, 1, 42261);
   (670, 670, 1, 42258); (837, 837, 1, 84); (881, 883, 2, (-1));
   (887, 887, 1, (-1)); (891, 893, 1, 130); (940, 940, 1, (-38));
   (941, 943, 1, (-37)); (945, 961, 1, (-32)); (962, 962, 1, (-31));
   (963, 971, 1, (-32)); (972, 972, 1, (-64)); (973, 974, 1, (-63));
   (976, 976, 1, (-62)); (977, 977, 1, (-57)); (981, 981, 1, (-47));
   (982, 982, 1, (-54)); (983, 983, 1, (-8)); (985, 1007, 2, (-1));
   (1008, 1008, 1, (-86)); (1009, 1009, 1, (-80)); (1010, 1010, 1, 7);
   (1011, 1011, 1, (-116)); (1013, 1013, 1, (-96)); (1016, 1016, 1, (-1));
   (1019, 1019, 1, (-1)); (1072, 1103, 1, (-32)); (1104, 1119, 1, (-80));
   (1121, 1153, 2, (-1)); (1163, 1215, 2, (-1)); (1218, 1230, 2, (-1));
   (1231, 1231, 1, (-15)); (1233, 1327, 2, (-1)); (1377, 1414, 1, (-48));
   (4304, 4346, 1, 3008); (4349, 4351, 1, 3008); (5112, 5117, 1, (-8));
   (7296, 7296, 1, (-6254)); (7297, 7297, 1, (-6253)); (7298, 7298, 1, (-6244));
   (7299, 7300, 1, (-6242)); (7301, 7301, 1, (-6243)); (7302, 7302, 1, (-6236));
   (7303, 7303, 1, (-6181)); (7304, 7304, 1, 35266); (7545, 7545, 1, 35332);
   (7549, 7549, 1, 3814); (7566, 7566, 1, 35384); (7681, 7829, 2, (-1));
   (7835, 7835, 1, (-59)); (7841, 7935, 2, (-1)); (7936, 7943, 1, 8);
   (7952, 7957, 1, 8); (7968, 7975, 1, 8); (7984, 7991, 1, 8);
   (8000, 8005, 1, 8); (8017, 8023, 2, 8); (8032, 8039, 1, 8);
   (8048, 8049, 1, 74); (8050, 8053, 1, 86); (8054, 8055, 1, 100);
   (8056, 8057, 1, 128); (8058, 8059, 1, 112); (8060, 8061, 1, 126);
   (8112, 8113, 1, 8); (8126, 8126, 1, (-7205)); (8144, 8145, 1, 8);
   (8160, 8161, 1, 8); (8165, 8165, 1, 7); (8526, 8526, 1, (-28));
   (8560, 8575, 1, (-16)); (8580, 8580, 1, (-1)); (9424, 9449, 1, (-26));
   (11312, 11359, 1, (-48)); (11361, 11361, 1, (-1)); (11365, 11365, 1, (-10795));
   (11366, 11366, 1, (-10792)); (11368, 11372, 2, (-1)); (11379, 11379, 1, (-1));
   (11382, 11382, 1, (-1)); (11393, 11491, 2, (-1)); (11500, 11502, 2, (-1));
   (11507, 11507, 1, (-1)); (11520, 11557, 1, (-7264)); (11559, 11559, 1, (-7264));
   (11565, 11565, 1, (-7264)); (42561, 42605, 2, (-1)); (42625, 42651, 2, (-1));
   (42787, 42799, 2, (-1)); (42803, 42863, 2, (-1)); (42874, 42876, 2, (-1));
   (42879, 42887, 2, (-1)); (42892, 42892, 1, (-1)); (42897, 42899, 2, (-1));
   (42900, 42900, 1, 48); (42903, 42921, 2, (-1)); (42933, 42947, 2, (-1));
   (42952, 42954, 2, (-1)); (42961, 42961, 1, (-1)); (42967, 42969, 2, (-1));
   (42998, 42998, 1, (-1)); (43859, 43859, 1, (-928)); (43888, 43967, 1, (-38864));
   (65345, 65370, 1, (-32)); (66600, 66639, 1, (-40)); (66776, 66811, 1, (-40));
   (66967, 66977, 1, (-39)); (66979, 66993, 1, (-39)); (66995, 67001, 1, (-39));
   (67003, 67004, 1, (-39)); (68800, 68850, 1, (-64)); (71872, 71903, 1, (-32));
   (93792, 93823, 1, (-32)); (125218, 125251, 1, (-34))
  ].

Definition upper_special : list (Z * list Z) :=
  [
   (223, [83; 83]); (329, [700; 78]); (496, [74; 780]);
   (912, [921; 776; 769]); (944, [933; 776; 769]); (1415, [1333; 1362]);
   (7830, [72; 817]); (7831, [84; 776]); (7832, [87; 778]);
   (7833, [89; 778]); (7834, [65; 702]); (8016, [933; 787]);
   (8018, [933; 787; 768]); (8020, [933; 787; 769]); (8022, [933; 787; 834]);
   (8064, [7944; 921]); (8065, [7945; 921]); (8066, [7946; 921]);
   (8067, [7947; 921]); (8068, [7948; 921]); (8069, [7949; 921]);
   (8070, [7950; 921]); (8071, [7951; 921]); (8072, [7944; 921]);
   (8073, [7945; 921]); (8074, [7946; 921]); (8075, [7947; 921]);
   (8076, [7948; 921]); (8077, [7949; 921]); (8078, [7950; 921]);
   (8079, [7951; 921]); (8080, [7976; 921]); (8081, [7977; 921]);
   (8082, [7978; 921]); (8083, [7979; 921]); (8084, [7980; 921]);
   (8085, [7981; 921]); (8086, [7982; 921]); (8087, [7983; 921]);
   (8088, [7976; 921]); (8089, [7977; 921]); (8090, [7978; 921]);
   (8091, [7979; 921]); (8092, [7980; 921]); (8093, [7981; 921]);
   (8094, [7982; 921]); (8095, [7983; 921]); (8096, [8040; 921]);
   (8097, [8041; 921]); (8098, [8042; 921]); (8099, [8043; 921]);
   (8100, [8044; 921]); (8101, [8045; 921]); (8102, [8046; 921]);
   (8103, [8047; 921]); (8104, [8040; 921]); (8105, [8041; 921]);
   (8106, [8042; 921]); (8107, [8043; 921]); (8108, [8044; 921]);
   (8109, [8045; 921]); (8110, [8046; 921]); (8111, [8047; 921]);
   (8114, [8122; 921]); (8115, [913; 921]); (8116, [902; 921]);
   (8118, [913; 834]); (8119, [913; 834; 921]); (8124, [913; 921]);
   (8130, [8138; 921]); (8131, [919; 921]); (8132, [905; 921]);
   (8134, [919; 834]); (8135, [919; 834; 921]); (8140, [919; 921]);
   (8146, [921; 776; 768]); (8147, [921; 776; 769]); (8150, [921; 834]);
   (8151, [921; 776; 834]); (8162, [933; 776; 768]); (8163, [933; 776; 769]);
   (8164, [929; 787]); (8166, [933; 834]); (8167, [933; 776; 834]);
   (8178, [8186; 921]); (8179, [937; 921]); (8180, [911; 921]);
   (8182, [937; 834]); (8183, [937; 834; 921]); (8188, [937; 921]);
   (64256, [70; 70]); (64257, [70; 73]); (64258, [70; 76]);
   (64259, [70; 70; 73]); (64260, [70; 70; 76]); (64261, [83; 84]);
   (64262, [83; 84]); (64275, [1348; 1350]); (64276, [1348; 1333]);
   (64277, [1348; 1339]); (64278, [1358; 1350]); (64279, [1348; 1341])
  ].

Definition upper_char (c : Z) : pystr :=
  match find (fun p => fst p =? c) upper_special with
  | Some p => snd p
  | None =>
      match find (fun r => let '(lo, hi, stride, _) := r in
                           (lo <=? c) && (c <=? hi)
                           && ((c - lo) mod stride =? 0))
              upper_runs with
      | Some (_, _, _, delta) => [c + delta]
      | None => [c]
      end
  end.

(** [s.upper()] *)
Definition upper (s : pystr) : pystr := flat_map upper_char s.

(** *** Stripping, searching, splitting *)

Fixpoint lstrip_by (space : Z -> bool) (s : pystr) : pystr :=
  match s with
  | [] => []
  | c :: r => if space c then lstrip_by space r else s
  end.

Fixpoint rstrip_by (space : Z -> bool) (s : pystr) : pystr :=
  match s with
  | [] => []
  | c :: r =>
      let r' := rstrip_by space r in
      if space c && is_empty r' then [] else c :: r'
  end.

(** [s.strip()] *)
Definition strip (s : pystr) : pystr :=
  rstrip_by is_space (lstrip_by is_space s).

(** The white space the C parsers skip at both ends. *)
Definition strip_c (s : pystr) : pystr :=
  rstrip_by c_space (lstrip_by c_space s).

Fixpoint prefix (pat s : pystr) : bool :=
  match pat, s with
  | [], _ => true
  | x :: pat', y :: s' => (x =? y) && prefix pat' s'
  | _ :: _, [] => false
  end.

(** [pat in s] *)
Fixpoint contains (pat s : pystr) : bool :=
  prefix pat s ||
  match s with
  | [] => false
  | _ :: r => contains pat r
  end.

(** [s.replace(c, '')] for a one-character [c]. *)
Fixpoint remove_char (x : Z) (s : pystr) : pystr :=
  match s with
  | [] => []
  | c :: r => if c =? x then remove_char x r else c :: remove_char x r
  end.

(** [s.split(sep)] for a one-character [sep]: never the empty list. *)
Fixpoint split (sep : Z) (s : pystr) : list pystr :=
  match s with
  | [] => [[]]
  | c :: r =>
      if c =? sep then [] :: split sep r
      else match split sep r with
           | h :: t => (c :: h) :: t
           | [] => [[c]]
           end
  end.

(** [s.split()]: the maximal runs of characters that are not white
    space. *)
Fixpoint words_from (cur : option pystr) (s : pystr) : list pystr :=
  match s with
  | [] => match cur with Some w => [w] | None => [] end
  | c :: r =>
      if is_space c then
        match cur with
        | Some w => w :: words_from None r
        | None => words_from None r
        end
      else
        words_from
          (Some (match cur with
                 | Some w => w ++ [c]
                 | None => [c]
                 end)) r
  end.

Definition split_ws (s : pystr) : list pystr := words_from None s.

(** [l[i]] *)
Definition index {A} (l : list A) (i : nat) : result A :=
  match nth_error l i with
  | Some a => Ok a
  | None => Raise (IndexError "list index out of range")
  end.

(** *** Numeric literals

    A digit part is [digit (["_"] digit)*]; [digit_run] reads the longest
    one and returns its digits and the rest of the string. *)
Fixpoint digit_run (s : pystr) : list Z * pystr :=
  match s with
  | [] => ([], [])
  | c :: r =>
      if is_digit c then
        let '(ds, rest) := digit_run r in (digit_val c :: ds, rest)
      else if c =? 95 then
        match r with
        | c' :: _ => if is_digit c' then digit_run r else ([], s)
        | [] => ([], s)
        end
      else ([], s)
  end.

Definition digitpart (s : pystr) : option (list Z * pystr) :=
  match s with
  | c :: _ => if is_digit c then Some (digit_run s) else None
  | [] => None
  end.

Definition digits_value (ds : list Z) : Z :=
  fold_left (fun a d => 10 * a + d) ds 0.

(** An optional sign: [(negative?, rest)]. *)
Definition sign (s : pystr) : bool * pystr :=
  match s with
  | c :: r =>
      if c =? 45 then (true, r)
      else if c =? 43 then (false, r)
      else (false, s)
  | [] => (false, s)
  end.

Definition apply_sign (neg : bool) (z : Z) : Z := if neg then - z else z.

(** [sys.get_int_max_str_digits()], CPython's default. *)
Definition int_max_str_digits : Z := 4300.

(** [int(s)] in base 10: white space at both ends, a sign, a digit part
    of at most [int_max_str_digits] digits. *)
Definition parse_int (s : pystr) : option Z :=
  let '(neg, body) := sign (strip_c (map to_ascii s)) in
  match digitpart body with
  | Some (ds, []) =>
      if int_max_str_digits <? Z.of_nat (List.length ds) then None
      else Some (apply_sign neg (digits_value ds))
  | _ => None
  end.

Definition py_int (s : pystr) : result Z :=
  match parse_int s with
  | Some z => Ok z
  | None => Raise (ValueError "invalid literal for int() with base 10")
  end.

(** *** Floats

    A [float] is an IEEE 754 binary64 value: a finite value is given by
    the rational it equals exactly ([Finite 0] is [0.0]), and [-0.0],
    the infinities and the one NaN Python shows are values of their
    own. *)
Inductive pyfloat : Type :=
  | Finite (q : Q)
  | NegZero
  | Inf (neg : bool)
  | NaN.

(** What a parser returns where the source returns an [int] on one path
    and a [float] on another. *)
Inductive pynum : Type :=
  | PyInt (z : Z)
  | PyFloat (f : pyfloat).

Definition two_pow (e : Z) : Q := Qpower (inject_Z 2) e.

(** The integer nearest to [q], the even one of two that are equally
    near. *)
Definition round_half_even (q : Q) : Z :=
  let f := Qfloor q in
  match Qcompare (q - inject_Z f) (1 # 2) with
  | Lt => f
  | Gt => f + 1
  | Eq => if Z.even f then f else f + 1
  end.

(** [floor (log2 q)] for a positive [q]. *)
Definition floor_log2 (q : Q) : Z :=
  let k := Z.log2 (Qnum q) - Z.log2 (Zpos (Qden q)) in
  if Qle_bool (two_pow k) q then k else k - 1.

(** The binary64 value nearest to the magnitude [q >= 0], with the sign
    [neg]: 53 significant bits, exponents down to [-1074] (gradual
    underflow), ties to even, and infinity from [2^1024] on. *)
Definition to_double (neg : bool) (q : Q) : pyfloat :=
  if Qle_bool q 0 then (if neg then NegZero else Finite 0)
  else
    let e := Z.max (floor_log2 q - 52) (-1074) in
    let m := round_half_even (q / two_pow e) in
    let v := Qred (inject_Z m * two_pow e) in
    if Qle_bool (two_pow 1024) v then Inf neg
    else if m =? 0 then (if neg then NegZero else Finite 0)
    else Finite (if neg then - v else v)%Q.

(** The binary64 value nearest to any rational. *)
Definition round_double (q : Q) : pyfloat :=
  if Qle_bool 0 q then to_double false q else to_double true (- q).

(** An exponent [(e|E) [sign] digitpart], or nothing. *)
Definition exponent (s : pystr) : option (Z * pystr) :=
  match s with
  | c :: r =>
      if (c =? 101) || (c =? 69) then
        let '(neg, body) := sign r in
        match digitpart body with
        | Some (ds, rest) => Some (apply_sign neg (digits_value ds), rest)
        | None => None
        end
      else Some (0, s)
  | [] => Some (0, s)
  end.

(** [i.f * 10^e] for integer digits [i], fraction digits [f]. *)
Definition decimal_value (ids fds : list Z) (e : Z) : Q :=
  (inject_Z (digits_value (ids ++ fds))
   * Qpower (inject_Z 10) (e - Z.of_nat (List.length fds)))%Q.

(** The unsigned finite literal:
    [digitpart ["." [digitpart]] [exponent] | "." digitpart [exponent]]. *)
Definition float_body (s : pystr) : option Q :=
  let '(ids, r1) := match digitpart s with
                    | Some p => p
                    | None => ([], s)
                    end in
  let '(fds, r2) :=
    match r1 with
    | c :: r =>
        if c =? 46 then
          match digitpart r with Some p => p | None => ([], r) end
        else ([], r1)
    | [] => ([], r1)
    end in
  match ids, fds with
  | [], [] => None
  | _, _ =>
      match exponent r2 with
      | Some (e, []) => Some (decimal_value ids fds e)
      | _ => None
      end
  end.

Definition ascii_lower (c : Z) : Z :=
  if (65 <=? c) && (c <=? 90) then c + 32 else c.

(** [float(s)]: white space at both ends, a sign, then [inf],
    [infinity] or [nan] in any case, or a decimal literal, which is
    rounded to the nearest binary64 value. *)
Definition parse_float (s : pystr) : option pyfloat :=
  let '(neg, body) := sign (strip_c (map to_ascii s)) in
  let l := map ascii_lower body in
  if str_eqb l (u "inf") || str_eqb l (u "infinity") then Some (Inf neg)
  else if str_eqb l (u "nan") then Some NaN
  else match float_body body with
       | Some q => Some (to_double neg q)
       | None => None
       end.

Definition py_float (s : pystr) : result pyfloat :=
  match parse_float s with
  | Some f => Ok f
  | None => Raise (ValueError "could not convert string to float")
  end.

(** [a + b] on floats. *)
Definition fadd (a b : pyfloat) : pyfloat :=
  match a, b with
  | NaN, _ | _, NaN => NaN
  | Inf x, Inf y => if Bool.eqb x y then Inf x else NaN
  | Inf x, _ | _, Inf x => Inf x
  | NegZero, x | x, NegZero => x
  | Finite p, Finite q => round_double (p + q)
  end.

(** The conversion of an [int] operand of a float operation
    ([PyLong_AsDouble]): the nearest binary64 value, and
    [OverflowError] where that is infinite. *)
Definition of_int (z : Z) : result pyfloat :=
  match round_double (inject_Z z) with
  | Inf _ => Raise (OtherException
                      "OverflowError: int too large to convert to float")
  | f => Ok f
  end.

(** The same float, up to the representation of the rational. *)
Definition feq (a b : pyfloat) : Prop :=
  match a, b with
  | Finite p, Finite q => (p == q)%Q
  | NegZero, NegZero => True
  | Inf x, Inf y => x = y
  | NaN, NaN => True
  | _, _ => False
  end.

Definition ofeq (a b : option pyfloat) : Prop :=
  match a, b with
  | Some x, Some y => feq x y
  | None, None => True
  | _, _ => False
  end.

End PyStr.


(* ===================================================================== *)
(** ** [backend/schedule.py] *)
(* ===================================================================== *)

Module Schedule.

(** *** [datetime] values *)

Definition datetime : Type := Z.

Definition is_leap (y : Z) : bool :=
  ((y mod 4 =? 0) && negb (y mod 100 =? 0)) || (y mod 400 =? 0).

Definition days_before_year (y : Z) : Z :=
  let p := y - 1 in p * 365 + p / 4 - p / 100 + p / 400.

Definition days_before_month (y m : Z) : Z :=
  nth (Z.to_nat m) [0; 0; 31; 59; 90; 120; 151; 181; 212; 243; 273; 304; 334] 0
  + (if (2 <? m) && is_leap y then 1 else 0).

Definition usec_per_minute : Z := 60 * 1000000.

(** [datetime(y, m, d, hh, mm, tzinfo=timezone.utc)] *)
Definition mk_datetime (y m d hh mm : Z) : datetime :=
  (((days_before_year y + days_before_month y m + d) * 24 + hh) * 60 + mm)
  * usec_per_minute.

(** [(a - b).total_seconds()] *)
Definition total_seconds (a b : datetime) : Q :=
  (inject_Z (a - b) / inject_Z 1000000)%Q.

(** *** The schedule tables *)

Record race_info : Type := mkRace {
  name : string;
  track : string;
  date : datetime;
  series : string;
  timing_url : string
}.

Definition WEC_SCHEDULE : list race_info :=
  [ mkRace "6 Hours of Qatar" "Losail International Circuit"
      (mk_datetime 2025 2 28 14 0) "WEC" "https://timing.71wytham.org.uk/";
    mkRace "1000 Miles of Sebring" "Sebring International Raceway"
      (mk_datetime 2025 3 14 17 0) "WEC" "https://timing.71wytham.org.uk/";
    mkRace "6 Hours of Imola" "Autodromo Enzo e Dino Ferrari"
      (mk_datetime 2025 4 20 12 0) "WEC" "https://timing.71wytham.org.uk/";
    mkRace "6 Hours of Spa-Francorchamps" "Circuit de Spa-Francorchamps"
      (mk_datetime 2025 5 10 13 0) "WEC" "https://timing.71wytham.org.uk/";
    mkRace "24 Hours of Le Mans" "Circuit de la Sarthe"
      (mk_datetime 2025 6 14 15 0) "WEC" "https://timing.71wytham.org.uk/" ].

Definition IMSA_SCHEDULE : list race_info :=
  [ mkRace "12 Hours of Sebring" "Sebring International Raceway"
      (mk_datetime 2025 3 15 15 40) "IMSA" "https://www.imsa.com/scoring/";
    mkRace "Grand Prix of Long Beach" "Long Beach Street Circuit"
      (mk_datetime 2025 4 13 20 10) "IMSA" "https://www.imsa.com/scoring/";
    mkRace "Laguna Seca" "WeatherTech Raceway Laguna Seca"
      (mk_datetime 2025 5 4 20 10) "IMSA" "https://www.imsa.com/scoring/" ].

Definition all_races : list race_info := WEC_SCHEDULE ++ IMSA_SCHEDULE.

(** [min(l, key=lambda x: x['date'])]: the first element of least date. *)
Fixpoint min_by_date (best : race_info) (l : list race_info) : race_info :=
  match l with
  | [] => best
  | r :: t => min_by_date (if date r <? date best then r else best) t
  end.

(** [[race for race in all_races if race['date'] > now]] *)
Definition upcoming_in (races : list race_info) (now : datetime)
  : list race_info :=
  filter (fun race => now <? date race) races.

Definition next_race_in (races : list race_info) (now : datetime)
  : option race_info :=
  match upcoming_in races now with
  | [] => None
  | r :: t => Some (min_by_date r t)
  end.

(** [get_next_race()], the clock reading made explicit. *)
Definition get_next_race (now : datetime) : option race_info :=
  next_race_in all_races now.

(** [upcoming.sort(key=lambda x: x['date'])]: Python's sort is stable, so
    the result is the one stable ordering by date; insertion from the
    right yields it. *)
Fixpoint insert_by_date (x : race_info) (l : list race_info)
  : list race_info :=
  match l with
  | [] => [x]
  | y :: t => if date y <? date x then y :: insert_by_date x t
              else x :: y :: t
  end.

Fixpoint sort_by_date (l : list race_info) : list race_info :=
  match l with
  | [] => []
  | x :: t => insert_by_date x (sort_by_date t)
  end.

(** [l[:limit]]: a negative limit counts from the end. *)
Definition slice_to {A} (l : list A) (limit : Z) : list A :=
  if limit <? 0 then firstn (Z.to_nat (Z.of_nat (List.length l) + limit)) l
  else firstn (Z.to_nat limit) l.

Definition upcoming_races_in (races : list race_info) (now : datetime)
    (limit : Z) : list race_info :=
  slice_to (sort_by_date (upcoming_in races now)) limit.

(** [get_upcoming_races(limit)] *)
Definition get_upcoming_races (now : datetime) (limit : Z)
  : list race_info :=
  upcoming_races_in all_races now limit.

(** [is_race_live(race, tolerance_hours)]: the window of the schedule
    module, in hours from the start; the monitor does not call it. *)
Definition is_race_live (now : datetime) (race : race_info)
    (tolerance_hours : Z) : bool :=
  let time_diff := (total_seconds now (date race) / inject_Z 3600)%Q in
  Qle_bool 0 time_diff && Qle_bool time_diff (inject_Z tolerance_hours).

(** A [timedelta] normalised as Python does: [days] may be negative,
    [seconds] lies in [0, 86400). *)
Definition usec_per_day : Z := 86400 * 1000000.

Definition delta_days (delta : Z) : Z := delta / usec_per_day.

Definition delta_seconds (delta : Z) : Z :=
  (delta mod usec_per_day) / 1000000.

(** [str(n)] for an integer. *)
Definition str_of_int (n : Z) : string :=
  DecimalString.NilZero.string_of_int (Z.to_int n).

(** The three numbers [get_time_until_race] computes. *)
Definition countdown_parts (now : datetime) (race : race_info)
  : Z * Z * Z :=
  let delta := date race - now in
  let days := delta_days delta in
  let hours := delta_seconds delta / 3600 in
  let minutes := (delta_seconds delta mod 3600) / 60 in
  (days, hours, minutes).

(** [get_time_until_race(race)] *)
Definition get_time_until_race (now : datetime) (race : race_info) : string :=
  let '(days, hours, minutes) := countdown_parts now race in
  if 0 <? days then str_of_int days ++ "d " ++ str_of_int hours ++ "h"
  else if 0 <? hours then str_of_int hours ++ "h " ++ str_of_int minutes ++ "m"
  else str_of_int minutes ++ "m".

End Schedule.

(* ===================================================================== *)
(** ** [backend/ingest.py] *)
(* ===================================================================== *)

Module Ingest.
Import PyStr.
Local Open Scope py_scope.
Local Open Scope list_scope.

(** *** The parsed page as the scraper sees it

    A BeautifulSoup element answers [select_one(selector)] with an
    exception, with nothing, or with a tag whose [.text] is given; and it
    carries its [class] attribute. *)
Record element : Type := mkElement {
  select_one : string -> result (option pystr);
  classes : list string
}.

(** The document: what [soup.select('.timing-row')] evaluates to. *)
Record html_doc : Type := mkDoc {
  select_rows : result (list element)
}.

(** The text of a response: what [BeautifulSoup(html, 'lxml')] makes of
    it, a document or an exception. *)
Record markup : Type := mkMarkup {
  soup : result html_doc
}.

(** What [session.get(url, timeout=10)] and [response.text()] lead to. *)
Inductive http_outcome : Type :=
  | HttpTimeout
  | HttpFailure (e : exn)
  | HttpResponse (status : Z) (html : markup).

(** *** [WECScraper] *)

Inductive session_state : Type := SessionOpen | SessionClosed.

Record WECScraper : Type := mkWEC {
  wec_url : string;
  session : option session_state
}.

Record car_data : Type := mkCar {
  car_number : option pystr;
  team_name : option pystr;
  car_class : option pystr;
  position : option Z;
  laps_completed : option Z;
  last_lap_time : option pyfloat;
  best_lap_time : option pyfloat;
  gap_to_leader : option pynum;
  in_pit : bool
}.

(** The dictionary a fetch returns: [{}] or the three-key snapshot. *)
Inductive data : Type :=
  | EmptyDict
  | Snapshot (series_tag : string) (timestamp : string) (cars : list car_data).

Definition _safe_extract (el : element) (selector : string) : option pystr :=
  try_except
    (found <- select_one el selector ;;
     Ok (match found with
         | Some text => Some (strip text)
         | None => None
         end))
    None.

(** Truth value of an optional string: [None] and [''] are false. *)
Definition truthy (text : option pystr) : bool :=
  match text with
  | Some s => negb (is_empty s)
  | None => false
  end.

Definition int_of_text (text : option pystr) : option Z :=
  try_except
    (match text with
     | Some s => if is_empty s then Ok None
                 else (z <- py_int s ;; Ok (Some z))
     | None => Ok None
     end)
    None.

Definition _safe_extract_int (el : element) (selector : string) : option Z :=
  int_of_text (_safe_extract el selector).

(** The body of [_safe_extract_float] after the text is extracted.
    [':' in None] raises [TypeError]. *)
Definition float_of_text (text : option pystr) : option pyfloat :=
  try_except
    (match text with
     | None => Raise (TypeError "argument of type 'NoneType' is not iterable")
     | Some t =>
         if contains (u ":") t then
           let parts := split (chr ":") t in
           p0 <- index parts 0 ;;
           minutes <- py_int p0 ;;
           p1 <- index parts 1 ;;
           seconds <- py_float p1 ;;
           m60 <- of_int (minutes * 60) ;;
           Ok (Some (fadd m60 seconds))
         else
           (f <- py_float t ;; Ok (Some f))
     end)
    None.

Definition _safe_extract_float (el : element) (selector : string)
  : option pyfloat :=
  float_of_text (_safe_extract el selector).

(** The body of [_safe_extract_gap] after the text is extracted: [0.0]
    from the guard, the [int] [laps * 100], or a [float]. *)
Definition gap_of_text (text : option pystr) : option pynum :=
  if negb (truthy text) || (match text with
                            | Some t => str_eqb t (u "Leader")
                            | None => false
                            end)
  then Some (PyFloat (Finite 0))
  else
    try_except
      (match text with
       | None => Raise (AttributeError "'NoneType' object has no attribute 'upper'")
       | Some t =>
           if contains (u "LAP") (upper t) then
             w <- index (split_ws t) 0 ;;
             laps <- py_int (remove_char (chr "+") w) ;;
             Ok (Some (PyInt (laps * 100)))
           else
             (f <- py_float (remove_char (chr "+") t) ;;
              Ok (Some (PyFloat f)))
       end)
      None.

Definition _safe_extract_gap (el : element) (selector : string)
  : option pynum :=
  gap_of_text (_safe_extract el selector).

Definition parse_row (row : element) : car_data :=
  {| car_number := _safe_extract row ".car-number";
     team_name := _safe_extract row ".team-name";
     car_class := _safe_extract row ".class";
     position := _safe_extract_int row ".position";
     laps_completed := _safe_extract_int row ".laps";
     last_lap_time := _safe_extract_float row ".last-lap";
     best_lap_time := _safe_extract_float row ".best-lap";
     gap_to_leader := _safe_extract_gap row ".gap";
     in_pit := existsb (String.eqb "pit") (classes row) |}.

(** [_parse_wec_html]: the document is built before the [try] block, so
    an exception of [BeautifulSoup] leaves the method; a failure of
    [soup.select] is logged and leaves the list empty; the rows are
    appended one by one. *)
Definition _parse_wec_html (html : markup) (timestamp : string)
  : result data :=
  document <- soup html ;;
  Ok (Snapshot "WEC" timestamp
        (try_except
           (timing_rows <- select_rows document ;;
            Ok (map parse_row timing_rows))
           [])).

Definition init_session (s : WECScraper) : WECScraper :=
  match session s with
  | None => {| wec_url := wec_url s; session := Some SessionOpen |}
  | Some _ => s
  end.

Definition wec_close (s : WECScraper) : WECScraper :=
  match session s with
  | Some _ => {| wec_url := wec_url s; session := Some SessionClosed |}
  | None => s
  end.

(** The [try] block of [fetch_live_data]: a request on a closed session
    raises inside it. *)
Definition wec_request (s : WECScraper) (net : http_outcome)
    (timestamp : string) : result data :=
  match session s with
  | Some SessionOpen =>
      match net with
      | HttpTimeout => Raise TimeoutError
      | HttpFailure e => Raise e
      | HttpResponse status html =>
          if negb (status =? 200) then Ok EmptyDict
          else _parse_wec_html html timestamp
      end
  | _ => Raise (OtherException "Session is closed")
  end.

(** [WECScraper.fetch_live_data]: the returned dictionary and the scraper
    afterwards. The result type has no exceptional case: every exception
    of the [try] block is turned into [{}]. *)
Definition wec_fetch_live_data (s : WECScraper) (net : http_outcome)
    (timestamp : string) : data * WECScraper :=
  let s' := init_session s in
  (try_except (wec_request s' net timestamp) EmptyDict, s').

(** *** [IMSAScraper]: only its resource handle is modelled. *)
Record IMSAScraper : Type := mkIMSA {
  imsa_url : string;
  driver : bool
}.

Definition imsa_close (s : IMSAScraper) : IMSAScraper :=
  {| imsa_url := imsa_url s; driver := false |}.

Definition imsa_init_driver_done (s : IMSAScraper) : IMSAScraper :=
  {| imsa_url := imsa_url s; driver := true |}.

(** An IMSA timing row: the seven keys of its dictionary. *)
Record imsa_car_data : Type := mkImsaCar {
  imsa_car_number : option pystr;
  imsa_team_name : option pystr;
  imsa_car_class : option pystr;
  imsa_position : option Z;
  imsa_laps_completed : option Z;
  imsa_last_lap_time : option pyfloat;
  imsa_best_lap_time : option pyfloat
}.

Inductive imsa_data : Type :=
  | ImsaEmptyDict
  | ImsaSnapshot (series_tag : string) (timestamp : string)
      (cars : list imsa_car_data).

Definition imsa_parse_row (row : element) : imsa_car_data :=
  {| imsa_car_number := _safe_extract row ".car-number";
     imsa_team_name := _safe_extract row ".team";
     imsa_car_class := _safe_extract row ".class";
     imsa_position := _safe_extract_int row ".pos";
     imsa_laps_completed := _safe_extract_int row ".laps";
     imsa_last_lap_time := _safe_extract_float row ".last";
     imsa_best_lap_time := _safe_extract_float row ".best" |}.

(** [_parse_imsa_html] *)
Definition _parse_imsa_html (html : html_doc) (timestamp : string)
  : imsa_data :=
  ImsaSnapshot "IMSA" timestamp
    (try_except
       (timing_rows <- select_rows html ;;
        Ok (map imsa_parse_row timing_rows))
       []).

(** What the browser does in one fetch: [init_driver] when there is no
    driver yet, then [driver.get] and the wait for the timing table. *)
Record imsa_outcome : Type := mkImsaOutcome {
  driver_creation : result unit;
  page : result html_doc
}.

(** [IMSAScraper.fetch_live_data]: [init_driver] runs before the [try]
    block, so its exception leaves the method; everything after it is
    turned into [{}]. *)
Definition imsa_fetch_live_data (s : IMSAScraper) (o : imsa_outcome)
    (timestamp : string) : result imsa_data * IMSAScraper :=
  match (if driver s then Ok tt else driver_creation o) with
  | Raise e => (Raise e, s)
  | Ok _ =>
      (Ok (try_except
             (html <- page o ;; Ok (_parse_imsa_html html timestamp))
             ImsaEmptyDict),
       imsa_init_driver_done s)
  end.

Inductive scraper_obj : Type :=
  | WEC (s : WECScraper)
  | IMSA (s : IMSAScraper).

(** *** [DataIngestionManager] *)

Record DataIngestionManager : Type := mkManager {
  series : string;
  scraper : option scraper_obj;
  is_running : bool
}.

Definition default_wec_url : string := "https://timing.71wytham.org.uk/".
Definition default_imsa_url : string := "https://www.imsa.com/scoring/".

(** [__init__(self, series="WEC")] *)
Definition init (series : string) : DataIngestionManager :=
  {| series := series;
     scraper :=
       if String.eqb series "WEC" then
         Some (WEC {| wec_url := default_wec_url; session := None |})
       else if String.eqb series "IMSA" then
         Some (IMSA {| imsa_url := default_imsa_url; driver := false |})
       else None;
     is_running := false |}.

(** A call of the class with keyword arguments: the only parameter of
    [__init__] besides [self] is [series]; any other keyword is a
    [TypeError]. *)
Definition construct (kwargs : list (string * string))
  : result DataIngestionManager :=
  match find (fun kv => negb (String.eqb (fst kv) "series")) kwargs with
  | Some (k, _) =>
      Raise (TypeError
               ("__init__() got an unexpected keyword argument '" ++ k ++ "'")%string)
  | None =>
      Ok (init (match find (fun kv => String.eqb (fst kv) "series") kwargs with
                | Some (_, s) => s
                | None => "WEC"
                end))
  end.

Inductive level : Type := INFO | ERROR | DEBUG.

Inductive event : Type :=
  | Fetch
  | Callback (d : data)
  | Sleep (seconds : Z)
  | Close
  | Log (lvl : level) (msg : string).

(** [data and data.get("cars")] *)
Definition has_cars (d : data) : bool :=
  match d with
  | EmptyDict => false
  | Snapshot _ _ cars => match cars with [] => false | _ => true end
  end.

(** The scraper after a call of its [fetch_live_data] with the given
    outcome: the WEC session is opened on first use; the IMSA driver is
    there unless [init_driver] itself raised, the one place outside the
    [try] block of [IMSAScraper.fetch_live_data]. *)
Definition scraper_after_fetch (sc : scraper_obj) (outcome : result data)
  : scraper_obj :=
  match sc with
  | WEC s => WEC (init_session s)
  | IMSA s =>
      match outcome with
      | Ok _ => IMSA {| imsa_url := imsa_url s; driver := true |}
      | Raise _ => sc
      end
  end.

Definition with_scraper (m : DataIngestionManager) (sc : option scraper_obj)
  : DataIngestionManager :=
  {| series := series m; scraper := sc; is_running := is_running m |}.

Definition with_running (m : DataIngestionManager) (b : bool)
  : DataIngestionManager :=
  {| series := series m; scraper := scraper m; is_running := b |}.

(** The [try] block of one iteration of the [while] loop. [outcome] is
    what [self.scraper.fetch_live_data()] does in this iteration and
    [cb_raises] tells whether the callback raises on a snapshot. *)
Definition loop_try (m : DataIngestionManager) (interval : Z)
    (outcome : result data) (cb_raises : data -> bool)
  : DataIngestionManager * list event * result unit :=
  match scraper m with
  | None =>
      (m, [], Raise (AttributeError
                       "'NoneType' object has no attribute 'fetch_live_data'"))
  | Some sc =>
      let m' := with_scraper m (Some (scraper_after_fetch sc outcome)) in
      match outcome with
      | Raise e => (m', [Fetch], Raise e)
      | Ok d =>
          if has_cars d then
            if cb_raises d then
              (m', [Fetch; Callback d], Raise (OtherException "callback"))
            else
              (m', [Fetch; Callback d; Log INFO "Ingested data";
                    Sleep interval], Ok tt)
          else (m', [Fetch; Sleep interval], Ok tt)
      end
  end.

(** One iteration: the [try] block, and on any exception the handler,
    which logs and sleeps. *)
Definition loop_body (m : DataIngestionManager) (interval : Z)
    (outcome : result data) (cb_raises : data -> bool)
  : DataIngestionManager * list event :=
  let '(m', evs, r) := loop_try m interval outcome cb_raises in
  match r with
  | Ok _ => (m', evs)
  | Raise _ => (m', evs ++ [Log ERROR "Error in ingestion loop"; Sleep interval])
  end.

(** [stop_ingestion]: the flag is cleared first, then [close] is called
    on the scraper, which fails when there is none. *)
Definition stop_ingestion (m : DataIngestionManager)
  : DataIngestionManager * list event * result unit :=
  let m1 := with_running m false in
  match scraper m1 with
  | None =>
      (m1, [], Raise (AttributeError
                        "'NoneType' object has no attribute 'close'"))
  | Some (WEC s) =>
      (with_scraper m1 (Some (WEC (wec_close s))),
       [Close; Log INFO "Stopped data ingestion"], Ok tt)
  | Some (IMSA s) =>
      (with_scraper m1 (Some (IMSA (imsa_close s))),
       [Close; Log INFO "Stopped data ingestion"], Ok tt)
  end.

(** *** A manager together with its fetch loops

    Every call of [start_ingestion] is a coroutine of its own; [loops]
    counts the coroutines that are inside their [while] loop, and [trace]
    records what they and [stop_ingestion] did, oldest first. *)
Record system : Type := mkSystem {
  manager : DataIngestionManager;
  loops : nat;
  trace : list event
}.

(** A call of [start_ingestion(callback)] runs up to its loop head. *)
Definition start (s : system) : system :=
  {| manager := with_running (manager s) true;
     loops := S (loops s);
     trace := trace s ++ [Log INFO "Starting data ingestion"] |}.

(** One coroutine evaluates [while self.is_running] and, if the flag is
    set, runs one iteration; otherwise it returns. Between two steps
    nothing else runs but what is said: a [stop] between steps is a call
    that arrives during the last sleep of an iteration; [stop_during]
    below is a call that arrives earlier in an iteration. *)
Definition step (interval : Z) (cb_raises : data -> bool) (s : system)
    (outcome : result data) : system :=
  match loops s with
  | O => s
  | S n =>
      if is_running (manager s) then
        let '(m', evs) := loop_body (manager s) interval outcome cb_raises in
        {| manager := m'; loops := loops s; trace := trace s ++ evs |}
      else {| manager := manager s; loops := n; trace := trace s |}
  end.

Definition run (interval : Z) (cb_raises : data -> bool) (s : system)
    (outcomes : list (result data)) : system :=
  fold_left (step interval cb_raises) outcomes s.

(** A call of [stop_ingestion], with the exception it may end in. *)
Definition stop (s : system) : system * result unit :=
  let '(m', evs, r) := stop_ingestion (manager s) in
  ({| manager := m'; loops := loops s; trace := trace s ++ evs |}, r).

(** The events at which the coroutine of a loop may be suspended, so
    that another coroutine runs: the fetch of a WEC manager, which is
    awaited, the callback and the sleep. *)
Definition suspends (m : DataIngestionManager) (e : event) : bool :=
  match e with
  | Fetch => String.eqb (series m) "WEC"
  | Callback _ => true
  | Sleep _ => true
  | _ => false
  end.

(** The events of an iteration up to its suspension number [k], counted
    from zero, and the events after it; an iteration with fewer
    suspensions is not divided. *)
Fixpoint suspend_at (m : DataIngestionManager) (k : nat) (evs : list event)
  : list event * list event :=
  match evs with
  | [] => ([], [])
  | e :: rest =>
      if suspends m e then
        match k with
        | O => ([e], rest)
        | S k' => let '(a, b) := suspend_at m k' rest in (e :: a, b)
        end
      else let '(a, b) := suspend_at m k rest in (e :: a, b)
  end.

(** A call of [stop_ingestion] that arrives while a coroutine is inside
    an iteration, suspended for the time number [k]: the flag is cleared
    and the scraper closed under the iteration, which goes on afterwards.
    The step that follows finds the flag cleared. Without an iteration in
    progress it is [stop]. *)
Definition stop_during (interval : Z) (cb_raises : data -> bool)
    (s : system) (outcome : result data) (k : nat) : system * result unit :=
  match loops s with
  | O => stop s
  | S _ =>
      if is_running (manager s) then
        let '(m1, evs) := loop_body (manager s) interval outcome cb_raises in
        let '(before, after) := suspend_at (manager s) k evs in
        let '(m2, stop_evs, r) := stop_ingestion m1 in
        ({| manager := m2; loops := loops s;
            trace := trace s ++ before ++ stop_evs ++ after |}, r)
      else stop s
  end.

(** What [self.scraper.fetch_live_data()] does in a WEC manager for a
    given answer of the network. *)
Definition wec_fetch_outcome (m : DataIngestionManager) (net : http_outcome)
    (timestamp : string) : result data :=
  match scraper m with
  | Some (WEC s) => Ok (fst (wec_fetch_live_data s net timestamp))
  | _ => Raise (AttributeError "no WEC scraper")
  end.

(** The loop of a WEC manager driven by the answers of the network. *)
Definition wec_run (interval : Z) (cb_raises : data -> bool)
    (timestamp : string) (s : system) (nets : list http_outcome) : system :=
  fold_left
    (fun s net =>
       step interval cb_raises s (wec_fetch_outcome (manager s) net timestamp))
    nets s.

(** The state of the HTTP session of a WEC manager, if it has one. *)
Definition wec_session (m : DataIngestionManager) : option session_state :=
  match scraper m with
  | Some (WEC s) => session s
  | _ => None
  end.

(** The iterations that end in the handler of the loop: the fetch raised,
    or the callback did. *)
Definition handled (cb_raises : data -> bool) (o : result data) : bool :=
  match o with
  | Raise _ => true
  | Ok d => has_cars d && cb_raises d
  end.

Definition callbacks (t : list event) : list data :=
  flat_map (fun e => match e with Callback d => [d] | _ => [] end) t.

Definition sleeps (t : list event) : list Z :=
  flat_map (fun e => match e with Sleep n => [n] | _ => [] end) t.

Definition fetches (t : list event) : nat :=
  List.length (filter (fun e => match e with Fetch => true | _ => false end) t).

Definition errors (t : list event) : nat :=
  List.length
    (filter (fun e => match e with Log ERROR _ => true | _ => false end) t).

(** A manager that has not been started, with no loop and no trace. *)
Definition fresh (m : DataIngestionManager) : system :=
  {| manager := m; loops := 0; trace := [] |}.

End Ingest.

(* ===================================================================== *)
(** ** The [races] table of [backend/database.py] *)
(* ===================================================================== *)

Module Database.
Import Schedule.
Local Open Scope list_scope.

Record Race : Type := mkRow {
  id : Z;
  race_series : string;
  race_name : string;
  race_track : string;
  start_time : datetime;
  end_time : option datetime;
  is_active : bool
}.

Definition table : Type := list Race.

(** [db.query(Race).update({"is_active": False})] *)
Definition deactivate (r : Race) : Race :=
  {| id := id r; race_series := race_series r; race_name := race_name r;
     race_track := race_track r; start_time := start_time r;
     end_time := end_time r; is_active := false |}.

Definition deactivate_all (t : table) : table := map deactivate t.

(** The key given to a new row: one more than the largest so far. *)
Definition next_id (t : table) : Z :=
  1 + fold_right (fun r acc => Z.max (id r) acc) 0 t.

(** [db.add(Race(..., is_active=True)); db.commit()] *)
Definition add_race (t : table) (info : race_info) : table :=
  t ++ [ {| id := next_id t; race_series := Schedule.series info;
            race_name := name info; race_track := track info;
            start_time := date info; end_time := None;
            is_active := true |} ].

(** [db.query(Race).filter(Race.is_active == True).first()] *)
Definition first_active (t : table) : option Race :=
  find is_active t.

(** [race.is_active = False; race.end_time = now; db.commit()] on the
    row returned by [first_active]. *)
Definition mark_ended (now : datetime) (r : Race) : Race :=
  {| id := id r; race_series := race_series r; race_name := race_name r;
     race_track := race_track r; start_time := start_time r;
     end_time := Some now; is_active := false |}.

Fixpoint end_first_active (now : datetime) (t : table) : table :=
  match t with
  | [] => []
  | r :: rest =>
      if is_active r then mark_ended now r :: rest
      else r :: end_first_active now rest
  end.

Definition active_count (t : table) : nat :=
  List.length (filter is_active t).

End Database.

(* ===================================================================== *)
(** ** [backend/export.py] *)
(* ===================================================================== *)

Module RaceExport.
Import Database.
Local Open Scope list_scope.

(** *** [_calculate_statistics]

    The entries of [race_data["laps"]] and [race_data["pit_stops"]], with
    the keys the statistics read. A lap time and a pit-lap flag may be
    [None]. *)
Record lap_data : Type := mkLap {
  lap_car_number : string;
  lap_number : Z;
  lap_time : option Q;
  is_pit_lap : option bool
}.

Record pit_data : Type := mkPit {
  pit_car_number : string;
  pit_lap_number : Z
}.

Record race_data : Type := mkRaceData {
  cars : list string;
  laps : list lap_data;
  pit_stops : list pit_data
}.

(** [lap["lap_time"] and not lap["is_pit_lap"]]: a time of [None] or of
    zero is false, and so is a flag of [None]. *)
Definition counts_as_timed (l : lap_data) : bool :=
  match lap_time l with
  | Some t => negb (Qeq_bool t 0)
  | None => false
  end
  && negb (match is_pit_lap l with Some b => b | None => false end).

Definition time_of (l : lap_data) : Q :=
  match lap_time l with Some t => t | None => 0 end.

Definition Qlt_bool (a b : Q) : bool := negb (Qle_bool b a).

(** [min(..., key=lambda x: x["lap_time"])]: the first entry of least
    key. *)
Fixpoint min_by_time (best : lap_data) (l : list lap_data) : lap_data :=
  match l with
  | [] => best
  | x :: t =>
      min_by_time (if Qlt_bool (time_of x) (time_of best) then x else best) t
  end.

Record fastest_lap : Type := mkFastest {
  fastest_car_number : string;
  fastest_lap_number : Z;
  fastest_time : Q
}.

Definition find_fastest (all_laps : list lap_data) : option fastest_lap :=
  match all_laps with
  | [] => None
  | _ =>
      match filter counts_as_timed all_laps with
      | [] => None
      | x :: t =>
          let f := min_by_time x t in
          Some (mkFastest (lap_car_number f) (lap_number f) (time_of f))
      end
  end.

(** [pit_counts[car] = pit_counts.get(car, 0) + 1] on a dictionary, which
    keeps the order in which its keys came in. *)
Fixpoint bump (car : string) (counts : list (string * Z))
  : list (string * Z) :=
  match counts with
  | [] => [(car, 1)]
  | (c, n) :: t => if String.eqb c car then (c, n + 1) :: t
                   else (c, n) :: bump car t
  end.

Definition pit_counts (stops : list pit_data) : list (string * Z) :=
  fold_left (fun acc p => bump (pit_car_number p) acc) stops [].

(** [max(pit_counts, key=pit_counts.get)]: the first key of greatest
    count. *)
Fixpoint max_by_count (best : string * Z) (l : list (string * Z))
  : string * Z :=
  match l with
  | [] => best
  | x :: t => max_by_count (if snd best <? snd x then x else best) t
  end.

Definition most_pit_stops (stops : list pit_data) : option (string * Z) :=
  match pit_counts stops with
  | [] => None
  | x :: t => Some (max_by_count x t)
  end.

Record statistics : Type := mkStats {
  total_cars : nat;
  total_laps : nat;
  total_pit_stops : nat;
  stat_fastest_lap : option fastest_lap;
  stat_most_pit_stops : option (string * Z)
}.

Definition _calculate_statistics (d : race_data) : statistics :=
  {| total_cars := List.length (cars d);
     total_laps := List.length (laps d);
     total_pit_stops := List.length (pit_stops d);
     stat_fastest_lap := find_fastest (laps d);
     stat_most_pit_stops := most_pit_stops (pit_stops d) |}.

(** *** [export_race_to_json] *)

(** The attributes of the mapped class [Car] of [database.py]: its
    columns and its relationships. *)
Definition Car_attributes : list string :=
  ["id"; "race_id"; "car_number"; "team_name"; "car_class"; "manufacturer";
   "current_position"; "current_position_in_class"; "laps_completed";
   "gap_to_leader"; "gap_to_class_leader"; "last_lap_time"; "best_lap_time";
   "in_pit"; "race"; "laps"; "stints"]%string.

(** [car.<attribute>] *)
Definition car_getattr (attribute : string) : result unit :=
  if existsb (String.eqb attribute) Car_attributes then Ok tt
  else Raise (AttributeError
                ("'Car' object has no attribute '" ++ attribute ++ "'")%string).

Local Open Scope py_scope.

(** The dictionary literal that opens the loop over the cars: its values
    are evaluated in the order written. *)
Definition build_car_data : result unit :=
  _ <- car_getattr "car_number" ;;
  _ <- car_getattr "team" ;;
  _ <- car_getattr "car_class" ;;
  _ <- car_getattr "manufacturer" ;;
  Ok tt.

Record Car : Type := mkCarRow {
  car_id : Z;
  car_race_id : Z;
  car_number : string
}.

(** [s.replace(x, y)] for one-character [x] and [y]. *)
Fixpoint replace_char (x y : ascii) (s : string) : string :=
  match s with
  | EmptyString => EmptyString
  | String c r => String (if Ascii.eqb c x then y else c) (replace_char x y r)
  end.

(** [race.name.replace(" ", "_").replace("/", "-")] *)
Definition race_name_safe (name : string) : string :=
  replace_char "/" "-" (replace_char " " "_" name).

Definition export_dir : string := "race_exports".

Definition file_name (name timestamp : string) : string :=
  (race_name_safe name ++ "_" ++ timestamp ++ ".json")%string.

Section ExportRace.

(** What follows the car dictionary in the body of the loop, and what
    writing the file does. *)
Variable rest_of_loop : list Car -> result race_data.
Variable write_file : string -> result unit.

Definition export_race_to_json (races : table) (car_rows : list Car)
    (race_id : Z) (timestamp : string) : result (string * statistics) :=
  match find (fun r => id r =? race_id) races with
  | None =>
      Raise (ValueError
               ("Race " ++ Schedule.str_of_int race_id ++ " not found")%string)
  | Some race =>
      d <- match filter (fun c => car_race_id c =? race_id) car_rows with
           | [] => Ok (mkRaceData [] [] [])
           | own => (_ <- build_car_data ;; rest_of_loop own)
           end ;;
      let stats := _calculate_statistics d in
      let filepath :=
        (export_dir ++ "/" ++ file_name (race_name race) timestamp)%string in
      _ <- write_file filepath ;;
      Ok (filepath, stats)
  end.

End ExportRace.

End RaceExport.

(* ===================================================================== *)
(** ** [backend/race_monitor.py] *)
(* ===================================================================== *)

Module Monitor.
Import Schedule Database.
Local Open Scope list_scope.

(** *** Liveness as [check_for_live_race] computes it *)

(** [(now - race_time).total_seconds() / 60], in minutes. *)
Definition time_diff (now race_time : datetime) : Q :=
  (total_seconds now race_time / inject_Z 60)%Q.

(** [-30 <= time_diff <= 720] *)
Definition is_live (now race_time : datetime) : bool :=
  Qle_bool (inject_Z (-30)) (time_diff now race_time)
  && Qle_bool (time_diff now race_time) (inject_Z 720).

(** *** The monitor object and the world around it

    The manager objects live in [heap] and are referred to by position,
    so that the monitor and the fetch loop it has spawned see the same
    [is_running] flag. [tasks] lists the managers whose [start_ingestion]
    coroutine has been handed to [asyncio.create_task]. *)
Definition loc : Type := nat.

Record RaceMonitor : Type := mkMonitor {
  ingestion_manager : option loc;
  current_race_name : option string;
  is_running : bool;
  check_interval : Z
}.

Inductive mevent : Type :=
  | MLog (lvl : Ingest.level) (msg : string)
  | MExport (race_id : Z)
  | MStopLoop (l : loc)
  | MSleep (seconds : Z).

Record world : Type := mkWorld {
  monitor : RaceMonitor;
  heap : list Ingest.DataIngestionManager;
  tasks : list loc;
  races : table;
  out : list mevent
}.

(** What the outside does during one poll: the clock readings of
    [get_next_race], of [check_for_live_race] and of [stop_ingestion],
    and whether [export_race_to_json] raises. *)
Record env : Type := mkEnv {
  now_sched : datetime;
  now_check : datetime;
  now_stop : datetime;
  export_raises : bool
}.

(** [RaceMonitor()] *)
Definition new_monitor : RaceMonitor :=
  {| ingestion_manager := None; current_race_name := None;
     is_running := false; check_interval := 300 |}.

Definition initial_world : world :=
  {| monitor := new_monitor; heap := []; tasks := []; races := []; out := [] |}.

(** *** State and exceptions *)

Definition M (A : Type) : Type := world -> result A * world.

Definition ret {A} (a : A) : M A := fun w => (Ok a, w).

Definition bind {A B} (c : M A) (k : A -> M B) : M B :=
  fun w => match c w with
           | (Ok a, w') => k a w'
           | (Raise e, w') => (Raise e, w')
           end.

Definition throw {A} (e : exn) : M A := fun w => (Raise e, w).

Definition lift {A} (r : result A) : M A := fun w => (r, w).

(** [try: body except Exception as e: handler] *)
Definition try_with {A} (body : M A) (handler : exn -> M A) : M A :=
  fun w => match body w with
           | (Ok a, w') => (Ok a, w')
           | (Raise e, w') => handler e w'
           end.

Declare Scope mon_scope.
Delimit Scope mon_scope with mon.
Notation "x <- c ;; k" := (bind c (fun x => k))
  (at level 61, c at next level, right associativity) : mon_scope.
Notation "c ;;; k" := (bind c (fun _ => k))
  (at level 61, right associativity) : mon_scope.
Local Open Scope mon_scope.

Definition get_monitor : M RaceMonitor := fun w => (Ok (monitor w), w).

Definition set_monitor (m : RaceMonitor) : M unit :=
  fun w => (Ok tt, {| monitor := m; heap := heap w; tasks := tasks w;
                      races := races w; out := out w |}).

Definition set_manager (l : option loc) : M unit :=
  m <- get_monitor ;;
  set_monitor {| ingestion_manager := l;
                 current_race_name := current_race_name m;
                 is_running := is_running m;
                 check_interval := check_interval m |}.

Definition set_race_name (n : option string) : M unit :=
  m <- get_monitor ;;
  set_monitor {| ingestion_manager := ingestion_manager m;
                 current_race_name := n;
                 is_running := is_running m;
                 check_interval := check_interval m |}.

Definition set_running (b : bool) : M unit :=
  m <- get_monitor ;;
  set_monitor {| ingestion_manager := ingestion_manager m;
                 current_race_name := current_race_name m;
                 is_running := b;
                 check_interval := check_interval m |}.

Definition emit (e : mevent) : M unit :=
  fun w => (Ok tt, {| monitor := monitor w; heap := heap w; tasks := tasks w;
                      races := races w; out := out w ++ [e] |}).

Definition log (lvl : Ingest.level) (msg : string) : M unit :=
  emit (MLog lvl msg).

Definition get_races : M table := fun w => (Ok (races w), w).

Definition set_races (t : table) : M unit :=
  fun w => (Ok tt, {| monitor := monitor w; heap := heap w; tasks := tasks w;
                      races := t; out := out w |}).

Fixpoint set_nth {A} (l : list A) (i : nat) (a : A) : list A :=
  match l, i with
  | [], _ => []
  | _ :: t, O => a :: t
  | h :: t, S j => h :: set_nth t j a
  end.

Definition set_heap (h : list Ingest.DataIngestionManager) : M unit :=
  fun w => (Ok tt, {| monitor := monitor w; heap := h; tasks := tasks w;
                      races := races w; out := out w |}).

(** A new manager object; its reference is returned. *)
Definition alloc (m : Ingest.DataIngestionManager) : M loc :=
  fun w => (Ok (List.length (heap w)),
            {| monitor := monitor w; heap := heap w ++ [m]; tasks := tasks w;
               races := races w; out := out w |}).

(** [asyncio.create_task(coroutine)] *)
Definition create_task (l : loc) : M unit :=
  fun w => (Ok tt, {| monitor := monitor w; heap := heap w;
                      tasks := tasks w ++ [l];
                      races := races w; out := out w |}).

(** [await self.ingestion_manager.stop_ingestion()] on the shared manager
    object: its mutation stays even when the call ends in an exception. *)
Definition manager_stop (l : loc) : M unit :=
  fun w =>
    match nth_error (heap w) l with
    | None => (Raise (OtherException "dangling reference"), w)
    | Some m =>
        let '(m', _, r) := Ingest.stop_ingestion m in
        (r, {| monitor := monitor w; heap := set_nth (heap w) l m';
               tasks := tasks w; races := races w;
               out := out w ++ [MStopLoop l] |})
    end.

(** [race_exporter.export_race_to_json(race.id, db)], from outside. *)
Definition export_race_to_json (e : env) (race_id : Z) : M string :=
  emit (MExport race_id) ;;;
  if export_raises e then throw (OtherException "export failed")
  else ret "race_exports/race.json"%string.

(** A call of [self.ingestion_manager.start_ingestion]: the coroutine
    function has one required parameter, [callback]. *)
Definition call_start_ingestion (l : loc) (args : list unit) : M loc :=
  match args with
  | [_] => ret l
  | [] => throw (TypeError
             "start_ingestion() missing 1 required positional argument: 'callback'")
  | _ => throw (TypeError "start_ingestion() takes 2 positional arguments")
  end.

(** The monitor after [self.ingestion_manager = None] and
    [self.current_race_name = None]. *)
Definition cleared (m : RaceMonitor) : RaceMonitor :=
  {| ingestion_manager := None; current_race_name := None;
     is_running := is_running m; check_interval := check_interval m |}.

(** *** [RaceMonitor.stop_ingestion] *)
Definition stop_ingestion (e : env) : M unit :=
  m <- get_monitor ;;
  match ingestion_manager m with
  | None => ret tt
  | Some l =>
      try_with
        (manager_stop l ;;;
         try_with
           (t <- get_races ;;
            match first_active t with
            | Some race =>
                set_races (end_first_active (now_stop e) t) ;;;
                filepath <- export_race_to_json e (id race) ;;
                log Ingest.INFO "Race data exported"
            | None => ret tt
            end)
           (fun _ => log Ingest.ERROR "Failed to export race data") ;;;
         set_manager None ;;;
         set_race_name None ;;;
         log Ingest.INFO "Data ingestion stopped")
        (fun _ => log Ingest.ERROR "Error stopping ingestion")
  end.

(** *** [RaceMonitor.start_ingestion] *)
Definition start_ingestion (e : env) (info : race_info) : M unit :=
  try_with
    (stop_ingestion e ;;;
     t <- get_races ;;
     set_races (add_race (deactivate_all t) info) ;;;
     log Ingest.INFO "Created race entry in database" ;;;
     mgr <- lift (Ingest.construct
                    [("series", Schedule.series info);
                     ("timing_url", timing_url info)]%string) ;;
     l <- alloc mgr ;;
     set_manager (Some l) ;;;
     coro <- call_start_ingestion l [] ;;
     create_task coro ;;;
     set_race_name (Some (name info)) ;;;
     log Ingest.INFO "Data ingestion started")
    (fun _ => log Ingest.ERROR "Failed to start ingestion").

(** [self.current_race_name != next_race['name']] *)
Definition name_differs (cur : option string) (n : string) : bool :=
  match cur with
  | Some c => negb (String.eqb c n)
  | None => true
  end.

(** *** [RaceMonitor.check_for_live_race], over a schedule table *)
Definition check_in (schedule : list race_info) (e : env) : M unit :=
  match next_race_in schedule (now_sched e) with
  | None =>
      log Ingest.INFO "No upcoming races in schedule" ;;;
      stop_ingestion e
  | Some next_race =>
      let race_time := date next_race in
      if is_live (now_check e) race_time then
        m <- get_monitor ;;
        match ingestion_manager m with
        | Some _ =>
            if name_differs (current_race_name m) (name next_race) then
              log Ingest.INFO "LIVE RACE DETECTED" ;;;
              start_ingestion e next_race
            else log Ingest.DEBUG "Race still live, scraping active"
        | None =>
            log Ingest.INFO "LIVE RACE DETECTED" ;;;
            start_ingestion e next_race
        end
      else
        m <- get_monitor ;;
        match ingestion_manager m with
        | Some _ =>
            log Ingest.INFO "Race ended, stopping scraping" ;;;
            stop_ingestion e
        | None => ret tt
        end ;;;
        if Qlt_le_dec (time_diff (now_check e) race_time) (inject_Z (-30))
        then log Ingest.INFO "Next race in some minutes"
        else ret tt
  end.

Definition check_for_live_race (e : env) : M unit :=
  check_in all_races e.

(** One turn of the [while] loop of [start_monitoring]. *)
Definition monitor_turn (e : env) : M unit :=
  m <- get_monitor ;;
  if is_running m then
    try_with
      (check_for_live_race e ;;;
       m' <- get_monitor ;;
       emit (MSleep (check_interval m')))
      (fun _ => log Ingest.ERROR "Error in race monitor" ;;; emit (MSleep 60))
  else ret tt.

(** [stop_monitoring] *)
Definition stop_monitoring (e : env) : M unit :=
  set_running false ;;;
  stop_ingestion e ;;;
  log Ingest.INFO "Race monitor stopped".

(** The world with the monitor's running flag cleared. *)
Definition halted (w : world) : world :=
  mkWorld
    {| ingestion_manager := ingestion_manager (monitor w);
       current_race_name := current_race_name (monitor w);
       is_running := false;
       check_interval := check_interval (monitor w) |}
    (heap w) (tasks w) (races w) (out w).

(** [get_status], the three fields of the status query. *)
Definition get_status (w : world) : bool * bool * option string :=
  (is_running (monitor w),
   match ingestion_manager (monitor w) with Some _ => true | None => false end,
   current_race_name (monitor w)).

(** The world after a sequence of polls. *)
Definition polls (es : list env) (w : world) : world :=
  fold_left (fun w e => snd (check_for_live_race e w)) es w.

(** The world with further events recorded. *)
Definition logged (w : world) (evs : list mevent) : world :=
  mkWorld (monitor w) (heap w) (tasks w) (races w) (out w ++ evs).

(** The race records handed to the exporter, oldest first. *)
Definition exports (t : list mevent) : list Z :=
  flat_map (fun ev => match ev with MExport i => [i] | _ => [] end) t.


End Monitor.

(* ===================================================================== *)
(** ** Notions of the specification *)
(* ===================================================================== *)

Module Spec.
Import PyStr Schedule Database.
Local Open Scope list_scope.

(** The liveness window, in minutes. *)
Definition pre_roll : Z := 30.
Definition max_duration : Z := 720.

(** A fetch that fails: it raises, or it hands back the empty result. *)
Definition failed (o : result Ingest.data) : bool :=
  match o with
  | Raise _ => true
  | Ok Ingest.EmptyDict => true
  | Ok _ => false
  end.

(** The snapshots of the successful fetches with a non-empty car list, in
    fetch order. *)
Definition deliverable (outcomes : list (result Ingest.data))
  : list Ingest.data :=
  flat_map (fun o => match o with
                     | Ok d => if Ingest.has_cars d then [d] else []
                     | Raise _ => []
                     end) outcomes.

(** The part of a trace that precedes the first call of the callback. *)
Fixpoint before_first_callback (t : list Ingest.event) : list Ingest.event :=
  match t with
  | [] => []
  | Ingest.Callback _ :: _ => []
  | e :: rest => e :: before_first_callback rest
  end.

(** *** Rendered numbers

    A decimal number is given by its digits, most significant first;
    [render] writes them down in ASCII. *)
Definition digit_char (d : Z) : Z := 48 + d.

Definition render (ds : list Z) : pystr := map digit_char ds.

Definition digits (ds : list Z) : Prop :=
  ds <> [] /\ Forall (fun d => 0 <= d <= 9) ds.

(** A number [int] accepts: at most [int_max_str_digits] digits. *)
Definition int_digits (ds : list Z) : Prop :=
  digits ds /\ Z.of_nat (List.length ds) <= int_max_str_digits.

(** Where a run of digits ends: at the end of the string, or before a
    character that is neither a digit nor an underscore. *)
Definition ends_run (rest : pystr) : Prop :=
  match rest with
  | [] => True
  | c :: _ => is_digit c = false /\ (c =? 95) = false
  end.

Fixpoint no_char (x : ascii) (s : string) : bool :=
  match s with
  | EmptyString => true
  | String c r => negb (Ascii.eqb c x) && no_char x r
  end.

(** The text has no white space of the given kind. *)
Definition clean (space : Z -> bool) (s : pystr) : bool :=
  forallb (fun c => negb (space c)) s.

(** The character [x] does not occur in the text. *)
Definition no_code (x : Z) (s : pystr) : bool :=
  forallb (fun c => negb (c =? x)) s.

(** The value of [i.f] for integer digits [i] and fraction digits [f]. *)
Definition decimal (ids fds : list Z) : Q :=
  (inject_Z (digits_value ids)
   + inject_Z (digits_value fds) / inject_Z (10 ^ Z.of_nat (List.length fds)))%Q.

(** The stand-in for one lap, in seconds. *)
Definition one_lap_proxy : Z := 100.

(** The token of the page for the car that has no gap. *)
Definition no_gap_token : pystr := u "Leader".

(** *** The patterns of the parsing rule, as recognisers *)

Definition is_number (s : pystr) : bool :=
  negb (is_empty s) && forallb is_digit s.

(** ["M:SS.mmm"] *)
Definition is_time_pattern (s : pystr) : bool :=
  match split (chr ":") s with
  | [m; sec] =>
      is_number m &&
      match split (chr ".") sec with
      | [ss; mmm] => is_number ss && is_number mmm
      | _ => false
      end
  | _ => false
  end.

(** A plain numeric string: whatever [float] accepts. *)
Definition is_plain_numeric (s : pystr) : bool :=
  match parse_float s with Some _ => true | None => false end.

(** ["+N LAP"] and ["+N LAPS"] *)
Definition is_lap_gap (s : pystr) : bool :=
  match s with
  | c :: r =>
      (c =? chr "+") &&
      match split (chr " ") r with
      | [n; unit] =>
          is_number n && (str_eqb unit (u "LAP") || str_eqb unit (u "LAPS"))
      | _ => false
      end
  | [] => false
  end.

Definition matches_a_pattern (s : pystr) : bool :=
  is_time_pattern s || is_plain_numeric s || is_lap_gap s
  || str_eqb s no_gap_token.

(** *** Conversions that fail

    The lap-time parser cannot convert the text: [float] rejects a text
    without colon; of a text with a colon, [int] rejects the part before
    the first colon, [float] rejects the part after it, or sixty times
    the minutes is too large for a float. *)
Definition lap_time_unparsable (t : pystr) : bool :=
  if contains (u ":") t then
    match split (chr ":") t with
    | a :: b :: _ =>
        match parse_int a, parse_float b with
        | Some m, Some _ => raises (of_int (m * 60))
        | _, _ => true
        end
    | _ => true
    end
  else match parse_float t with Some _ => false | None => true end.

(** The gap parser cannot convert the text: with [LAP] in its upper
    case, [int] rejects its first word without the plus signs; otherwise
    [float] rejects the text without the plus signs. *)
Definition gap_unparsable (t : pystr) : bool :=
  if contains (u "LAP") (upper t) then
    match split_ws t with
    | w :: _ =>
        match parse_int (remove_char (chr "+") w) with
        | Some _ => false
        | None => true
        end
    | [] => true
    end
  else match parse_float (remove_char (chr "+") t) with
       | Some _ => false
       | None => true
       end.

(** The guard of the gap parser applies: the text is missing, empty, or
    the token for no gap. *)
Definition gap_guarded (text : option pystr) : bool :=
  match text with
  | None => true
  | Some t => is_empty t || str_eqb t no_gap_token
  end.

(** A transport-level failure of a WEC fetch: the session is closed, the
    request times out or raises, or the status is not 200. *)
Definition transport_failure (s : Ingest.WECScraper) (net : Ingest.http_outcome)
  : bool :=
  match Ingest.session s with
  | Some Ingest.SessionClosed => true
  | _ =>
      match net with
      | Ingest.HttpTimeout => true
      | Ingest.HttpFailure _ => true
      | Ingest.HttpResponse status _ => negb (status =? 200)
      end
  end.

(** The response cannot be turned into a document at all. *)
Definition no_document (net : Ingest.http_outcome) : bool :=
  match net with
  | Ingest.HttpResponse _ html => raises (Ingest.soup html)
  | _ => false
  end.

(** The extraction of a field fails: [select_one] raises or finds nothing. *)
Definition extraction_fails (row : Ingest.element) (selector : string) : bool :=
  match Ingest.select_one row selector with
  | Ok (Some _) => false
  | _ => true
  end.

(** A row on which every [select_one] raises. *)
Definition broken_row : Ingest.element :=
  Ingest.mkElement (fun _ => Raise (OtherException "malformed")) [].

(** A row with a car number, a position that is not a number, a lap
    count between no-break spaces, and texts no conversion accepts for
    the last lap and the gap. *)
Definition partial_row : Ingest.element :=
  Ingest.mkElement
    (fun sel => if String.eqb sel ".car-number" then Ok (Some (u " 51 "))
                else if String.eqb sel ".position" then Ok (Some (u "P1"))
                else if String.eqb sel ".laps"
                     then Ok (Some ([160] ++ u "5" ++ [160]))
                else if String.eqb sel ".last-lap"
                     then Ok (Some (u "1:2x.5"))
                else if String.eqb sel ".gap" then Ok (Some (u "+1.5 LAPS"))
                else Ok None)
    ["timing-row"; "pit"]%string.



(** Ascending order of the scheduled start. *)
Definition by_date (a b : race_info) : Prop := date a <= date b.

(** The first event of least date in [a :: l], computed from the right. *)
Fixpoint first_min (a : race_info) (l : list race_info) : race_info :=
  match l with
  | [] => a
  | b :: t => if date (first_min b t) <? date a then first_min b t else a
  end.


Definition loop_stopped (w : Monitor.world) (l : Monitor.loc) : Prop :=
  exists m, nth_error (Monitor.heap w) l = Some m
            /\ Ingest.is_running m = false.






(** The number of pit stops of a car in a list of pit stops. *)
Definition count_for (car : string) (stops : list RaceExport.pit_data) : Z :=
  Z.of_nat
    (List.length
       (filter (fun p => String.eqb (RaceExport.pit_car_number p) car) stops)).

(** [counts.get(car, 0)] *)
Fixpoint lookup_count (car : string) (counts : list (string * Z)) : Z :=
  match counts with
  | [] => 0
  | (k, n) :: t => if String.eqb k car then n else lookup_count car t
  end.

(** The polls that find the next race live. *)
Definition finds_live_race (e : Monitor.env) : Prop :=
  exists r, get_next_race (Monitor.now_sched e) = Some r
            /\ Monitor.is_live (Monitor.now_check e) (date r) = true.

(** A poll in which every clock reading is [t] and the export succeeds. *)
Definition poll_at (t : datetime) : Monitor.env :=
  Monitor.mkEnv t t t false.

(** A quarter of an hour before the start of Le Mans. *)
Definition le_mans_pre_roll : datetime := mk_datetime 2025 6 14 14 45.


Definition le_mans : race_info :=
  mkRace "24 Hours of Le Mans" "Circuit de la Sarthe"
    (mk_datetime 2025 6 14 15 0) "WEC" "https://timing.71wytham.org.uk/".

(** A world in which the monitor holds a session for Le Mans: a running
    WEC manager, its fetch loop, and the active race record. *)
Definition le_mans_session : Monitor.world :=
  Monitor.mkWorld
    (Monitor.mkMonitor (Some 0%nat) (Some "24 Hours of Le Mans"%string) true 300)
    [Ingest.with_running (Ingest.init "WEC") true]
    [0%nat]
    [mkRow 1 "WEC" "24 Hours of Le Mans" "Circuit de la Sarthe"
       (mk_datetime 2025 6 14 15 0) None true]
    [].

(** A snapshot with one car, for the examples. *)
Definition sample_snapshot : Ingest.data :=
  Ingest.Snapshot "WEC" "2025-06-14T15:00:00"
    [Ingest.mkCar (Some (u "7")) None None None None None None None false].

End Spec.

(* ===================================================================== *)
(** ** Proof tools *)
(* ===================================================================== *)

(** Split a conjunction into its parts, leaving existentials alone. *)
Ltac splits := repeat match goal with |- _ /\ _ => split end.

(** Run the monitor's monad one layer down. *)
Ltac mstep :=
  unfold Monitor.stop_ingestion, Monitor.start_ingestion, Monitor.bind,
    Monitor.ret, Monitor.throw, Monitor.lift, Monitor.get_monitor,
    Monitor.try_with, Monitor.manager_stop, Monitor.log, Monitor.emit,
    Monitor.set_manager, Monitor.set_race_name, Monitor.set_running,
    Monitor.set_monitor, Monitor.get_races, Monitor.set_races,
    Monitor.export_race_to_json, Monitor.alloc, Monitor.create_task,
    Monitor.call_start_ingestion;
  simpl.

(* ===================================================================== *)
(** ** The liveness window *)
(* ===================================================================== *)

Section Liveness.
Import Schedule Monitor Spec.

Lemma time_diff_ge (now start k : Z) :
  Qle_bool (inject_Z k) (time_diff now start) = true <->
  k * usec_per_minute <= now - start.
Proof.
  rewrite Qle_bool_iff. unfold time_diff, total_seconds, usec_per_minute.
  unfold Qle, Qdiv, Qmult, Qinv, inject_Z; simpl. lia.
Qed.

Lemma time_diff_le (now start k : Z) :
  Qle_bool (time_diff now start) (inject_Z k) = true <->
  now - start <= k * usec_per_minute.
Proof.
  rewrite Qle_bool_iff. unfold time_diff, total_seconds, usec_per_minute.
  unfold Qle, Qdiv, Qmult, Qinv, inject_Z; simpl. lia.
Qed.

Lemma is_live_iff (now start : datetime) :
  is_live now start = true <->
  - pre_roll * usec_per_minute <= now - start <= max_duration * usec_per_minute.
Proof.
  unfold is_live. rewrite andb_true_iff, time_diff_ge, time_diff_le.
  unfold pre_roll, max_duration. lia.
Qed.

(** C3. For all instants [now] and [scheduled_start], the monitor's
    liveness test holds exactly when
    [-pre_roll <= now - scheduled_start <= max_duration], with a pre-roll
    of 30 minutes and a maximal duration of 720 minutes; both ends of the
    interval are live. *)
Theorem liveness_window_closed :
  (forall now scheduled_start : datetime,
      is_live now scheduled_start = true <->
      - pre_roll * usec_per_minute <= now - scheduled_start
        <= max_duration * usec_per_minute)
  /\ (forall scheduled_start : datetime,
        is_live (scheduled_start - pre_roll * usec_per_minute) scheduled_start
        = true)
  /\ (forall scheduled_start : datetime,
        is_live (scheduled_start + max_duration * usec_per_minute)
          scheduled_start = true)
  /\ pre_roll = 30 /\ max_duration = 720.
Proof.
  split; [exact is_live_iff|].
  repeat split; try reflexivity; intros s; apply is_live_iff;
    unfold pre_roll, max_duration, usec_per_minute; lia.
Qed.

(** The window of [schedule.is_race_live] is another one: it opens at the
    scheduled start, not before. *)
Lemma is_race_live_differs :
  let le_mans := mk_datetime 2025 6 14 15 0 in
  let r := mkRace "24 Hours of Le Mans" "Circuit de la Sarthe" le_mans
             "WEC" "https://timing.71wytham.org.uk/" in
  is_live (le_mans - 10 * usec_per_minute) le_mans = true
  /\ is_race_live (le_mans - 10 * usec_per_minute) r 12 = false.
Proof. split; vm_compute; reflexivity. Qed.

End Liveness.

(* ===================================================================== *)
(** ** The ingestion loop *)
(* ===================================================================== *)

Section IngestionLoop.
Import Ingest Spec.
Local Open Scope list_scope.

Variable interval : Z.
Variable cb_raises : data -> bool.

Lemma callbacks_app (a b : list event) :
  callbacks (a ++ b) = callbacks a ++ callbacks b.
Proof. unfold callbacks. apply flat_map_app. Qed.

Lemma sleeps_app (a b : list event) :
  sleeps (a ++ b) = sleeps a ++ sleeps b.
Proof. unfold sleeps. apply flat_map_app. Qed.

Lemma fetches_app (a b : list event) :
  fetches (a ++ b) = (fetches a + fetches b)%nat.
Proof. unfold fetches. rewrite filter_app, length_app. reflexivity. Qed.

Lemma errors_app (a b : list event) :
  errors (a ++ b) = (errors a + errors b)%nat.
Proof. unfold errors. rewrite filter_app, length_app. reflexivity. Qed.

(** What one iteration does, whatever the fetch does. *)
Lemma loop_body_keeps (m : DataIngestionManager) (o : result data) :
  let m' := fst (loop_body m interval o cb_raises) in
  is_running m' = is_running m
  /\ series m' = series m
  /\ (scraper m = None <-> scraper m' = None).
Proof.
  unfold loop_body, loop_try.
  destruct (scraper m) as [sc|] eqn:Hsc; simpl.
  - destruct o as [d|e]; simpl.
    + destruct (has_cars d); [destruct (cb_raises d)|]; simpl;
        repeat split; intros; discriminate.
    + repeat split; intros; discriminate.
  - rewrite Hsc. repeat split; intros; reflexivity.
Qed.

Lemma loop_body_sleeps (m : DataIngestionManager) (o : result data) :
  sleeps (snd (loop_body m interval o cb_raises)) = [interval].
Proof.
  unfold loop_body, loop_try.
  destruct (scraper m) as [sc|]; simpl; [|reflexivity].
  destruct o as [d|e]; simpl; [|reflexivity].
  destruct (has_cars d); [destruct (cb_raises d)|]; reflexivity.
Qed.

Lemma loop_body_bound (m : DataIngestionManager) (o : result data) :
  scraper m <> None ->
  let evs := snd (loop_body m interval o cb_raises) in
  callbacks evs = deliverable [o] /\ fetches evs = 1%nat.
Proof.
  intros Hsc. unfold loop_body, loop_try, deliverable.
  destruct (scraper m) as [sc|]; [|congruence]. simpl.
  destruct o as [d|e]; simpl; [|split; reflexivity].
  destruct (has_cars d); [destruct (cb_raises d)|]; split; reflexivity.
Qed.

Lemma loop_body_unbound (m : DataIngestionManager) (o : result data) :
  scraper m = None ->
  loop_body m interval o cb_raises
  = (m, [Log ERROR "Error in ingestion loop"; Sleep interval]).
Proof.
  intros Hsc. unfold loop_body, loop_try. rewrite Hsc. reflexivity.
Qed.

(** A loop that is running stays so along any sequence of fetch outcomes;
    the trace only grows. *)
Lemma run_running (outcomes : list (result data)) :
  forall s : system,
    loops s = 1%nat -> is_running (manager s) = true ->
    let s' := run interval cb_raises s outcomes in
    loops s' = 1%nat
    /\ is_running (manager s') = true
    /\ series (manager s') = series (manager s)
    /\ (scraper (manager s) = None <-> scraper (manager s') = None)
    /\ sleeps (trace s')
       = sleeps (trace s) ++ repeat interval (List.length outcomes).
Proof.
  induction outcomes as [|o os IH]; intros s Hl Hr; simpl.
  - rewrite app_nil_r. repeat split; auto.
  - set (s1 := step interval cb_raises s o).
    assert (H1 : loops s1 = 1%nat /\ is_running (manager s1) = true
                 /\ series (manager s1) = series (manager s)
                 /\ (scraper (manager s) = None <-> scraper (manager s1) = None)
                 /\ sleeps (trace s1) = sleeps (trace s) ++ [interval]).
    { unfold s1, step. rewrite Hl, Hr.
      pose proof (loop_body_keeps (manager s) o) as K.
      pose proof (loop_body_sleeps (manager s) o) as Sl.
      destruct (loop_body (manager s) interval o cb_raises) as [m' evs].
      simpl in *. destruct K as (K1 & K2 & K3).
      rewrite sleeps_app, Sl. repeat split; try tauto; congruence. }
    destruct H1 as (A & B & C & D & E).
    destruct (IH s1 A B) as (A' & B' & C' & D' & E').
    fold (run interval cb_raises s1 os).
    repeat split; try tauto; try congruence.
    rewrite E', E, <- app_assoc. reflexivity.
Qed.

Lemma run_bound (outcomes : list (result data)) :
  forall s : system,
    loops s = 1%nat -> is_running (manager s) = true ->
    scraper (manager s) <> None ->
    let s' := run interval cb_raises s outcomes in
    callbacks (trace s') = callbacks (trace s) ++ deliverable outcomes
    /\ fetches (trace s') = (fetches (trace s) + List.length outcomes)%nat.
Proof.
  induction outcomes as [|o os IH]; intros s Hl Hr Hsc; simpl.
  - rewrite app_nil_r, Nat.add_0_r. split; reflexivity.
  - pose proof (run_running [o] s Hl Hr) as R1. simpl in R1.
    destruct R1 as (A & B & _ & D & _).
    set (s1 := step interval cb_raises s o) in *.
    assert (Hsc1 : scraper (manager s1) <> None) by tauto.
    destruct (IH s1 A B Hsc1) as (Cb & Fe).
    fold (run interval cb_raises s1 os). rewrite Cb, Fe.
    assert (H1 : callbacks (trace s1) = callbacks (trace s) ++ deliverable [o]
                 /\ fetches (trace s1) = (fetches (trace s) + 1)%nat).
    { unfold s1, step. rewrite Hl, Hr.
      pose proof (loop_body_bound (manager s) o Hsc) as K.
      destruct (loop_body (manager s) interval o cb_raises) as [m' evs].
      simpl in *. rewrite callbacks_app, fetches_app.
      destruct K as [K1 K2]. rewrite K1, K2. split; reflexivity. }
    destruct H1 as [H1 H2]. rewrite H1, H2, <- app_assoc.
    split; [|lia]. f_equal. unfold deliverable. simpl.
    rewrite app_nil_r. reflexivity.
Qed.

Lemma run_unbound (outcomes : list (result data)) :
  forall s : system,
    loops s = 1%nat -> is_running (manager s) = true ->
    scraper (manager s) = None ->
    let s' := run interval cb_raises s outcomes in
    manager s' = manager s
    /\ callbacks (trace s') = callbacks (trace s)
    /\ fetches (trace s') = fetches (trace s)
    /\ errors (trace s') = (errors (trace s) + List.length outcomes)%nat.
Proof.
  induction outcomes as [|o os IH]; intros s Hl Hr Hsc; simpl.
  - rewrite Nat.add_0_r. repeat split; reflexivity.
  - set (s1 := step interval cb_raises s o).
    assert (H1 : s1 = {| manager := manager s; loops := 1;
                         trace := trace s ++ [Log ERROR "Error in ingestion loop";
                                              Sleep interval] |}).
    { unfold s1, step. rewrite Hl, Hr, (loop_body_unbound _ o Hsc).
      reflexivity. }
    fold (run interval cb_raises s1 os).
    assert (Hl1 : loops s1 = 1%nat) by (rewrite H1; reflexivity).
    assert (Hr1 : is_running (manager s1) = true) by (rewrite H1; exact Hr).
    assert (Hsc1 : scraper (manager s1) = None) by (rewrite H1; exact Hsc).
    destruct (IH s1 Hl1 Hr1 Hsc1) as (A & B & C & D).
    rewrite A, B, C, D, H1. simpl.
    rewrite callbacks_app, fetches_app, errors_app.
    change (callbacks [Log ERROR "Error in ingestion loop"; Sleep interval])
      with (@nil data).
    change (fetches [Log ERROR "Error in ingestion loop"; Sleep interval])
      with 0%nat.
    change (errors [Log ERROR "Error in ingestion loop"; Sleep interval])
      with 1%nat.
    rewrite app_nil_r. repeat split; try reflexivity; lia.
Qed.

End IngestionLoop.

(* ===================================================================== *)
(** ** Claims about the ingestion loop *)
(* ===================================================================== *)

Section LoopClaims.
Import Ingest Spec.
Local Open Scope list_scope.

Lemma run_from_start (interval : Z) (cb_raises : data -> bool)
    (m : DataIngestionManager) (outcomes : list (result data)) :
  scraper m <> None ->
  let s := run interval cb_raises (start (fresh m)) outcomes in
  loops s = 1%nat
  /\ is_running (manager s) = true
  /\ fetches (trace s) = List.length outcomes
  /\ sleeps (trace s) = repeat interval (List.length outcomes)
  /\ callbacks (trace s) = deliverable outcomes.
Proof.
  intros Hsc.
  destruct (run_running interval cb_raises outcomes (start (fresh m)))
    as (A & B & _ & _ & E); try reflexivity.
  destruct (run_bound interval cb_raises outcomes (start (fresh m)))
    as (Cb & Fe); try reflexivity; [exact Hsc|].
  repeat split; assumption.
Qed.

(** C2. For every sequence of fetch outcomes, a started ingestion loop
    with a bound source is still running afterwards (one loop, flag set):
    no fetch failure ends it. Every iteration, failed or not, ends in one
    sleep of the configured interval, and the callback receives exactly the
    snapshots of the successful fetches with a non-empty car list, in fetch
    order. In particular, when the first two fetches fail and the third
    yields cars, the callback runs exactly once, after the third fetch, and
    the loop is still running. *)
Theorem loop_survives_fetch_failures
    (interval : Z) (cb_raises : data -> bool) (m : DataIngestionManager) :
  scraper m <> None ->
  (forall outcomes : list (result data),
      let s := run interval cb_raises (start (fresh m)) outcomes in
      loops s = 1%nat
      /\ is_running (manager s) = true
      /\ fetches (trace s) = List.length outcomes
      /\ sleeps (trace s) = repeat interval (List.length outcomes)
      /\ callbacks (trace s) = deliverable outcomes)
  /\ (forall (o1 o2 : result data) (d : data),
        failed o1 = true -> failed o2 = true -> has_cars d = true ->
        let s := run interval cb_raises (start (fresh m)) [o1; o2; Ok d] in
        loops s = 1%nat
        /\ is_running (manager s) = true
        /\ callbacks (trace s) = [d]
        /\ fetches (before_first_callback (trace s)) = 3%nat).
Proof.
  intros Hsc.
  split; [intros outcomes; apply run_from_start; exact Hsc|].
  intros o1 o2 d F1 F2 Hd.
  destruct (run_from_start interval cb_raises m [o1; o2; Ok d] Hsc)
    as (A & B & _ & _ & Cb).
  repeat split; try assumption.
  - rewrite Cb. unfold deliverable. simpl. rewrite Hd.
    destruct o1 as [[|? ? ?]|?]; try discriminate;
      destruct o2 as [[|? ? ?]|?]; try discriminate; reflexivity.
  - destruct m as [ser [sc|] running]; [|simpl in Hsc; congruence].
    unfold run, step, fresh, start, loop_body, loop_try. simpl.
    destruct o1 as [[|? ? ?]|e1]; try discriminate;
      destruct o2 as [[|? ? ?]|e2]; try discriminate; simpl; rewrite Hd;
      destruct (cb_raises d); reflexivity.
Qed.

Lemma loop_survives_fetch_failures_witness :
  scraper (init "WEC") <> None
  /\ loops (run 1 (fun _ => false) (start (fresh (init "WEC")))
              [Raise TimeoutError; Ok EmptyDict; Ok sample_snapshot]) = 1%nat
  /\ is_running
       (manager (run 1 (fun _ => false) (start (fresh (init "WEC")))
                   [Raise TimeoutError; Ok EmptyDict; Ok sample_snapshot]))
     = true
  /\ callbacks
       (trace (run 1 (fun _ => false) (start (fresh (init "WEC")))
                 [Raise TimeoutError; Ok EmptyDict; Ok sample_snapshot]))
     = [sample_snapshot]
  /\ fetches
       (before_first_callback
          (trace (run 1 (fun _ => false) (start (fresh (init "WEC")))
                    [Raise TimeoutError; Ok EmptyDict; Ok sample_snapshot])))
     = 3%nat.
Proof.
  assert (H : scraper (init "WEC") <> None) by (vm_compute; discriminate).
  split; [exact H|].
  apply (proj2 (@loop_survives_fetch_failures 1 (fun _ => false) (init "WEC") H));
    reflexivity.
Defined.

Lemma stop_unbound (s : system) :
  scraper (manager s) = None ->
  exists msg, snd (stop s) = Raise (AttributeError msg).
Proof.
  intros H. unfold stop, stop_ingestion.
  destruct s as [[ser sc running] n t]. simpl in *. subst sc. simpl.
  eexists; reflexivity.
Qed.

(** C10. A manager built for a series other than WEC and IMSA has no
    scraper. Its loop catches the attribute error in every iteration (one
    error record per iteration, no fetch), never calls the callback and
    keeps running; [stop_ingestion] on it ends in an attribute error that
    nothing catches. *)
Theorem unknown_series_has_no_scraper (series : string) :
  series <> "WEC"%string -> series <> "IMSA"%string ->
  scraper (init series) = None
  /\ (forall (interval : Z) (cb_raises : data -> bool)
             (outcomes : list (result data)),
        let s := run interval cb_raises (start (fresh (init series))) outcomes in
        loops s = 1%nat
        /\ is_running (manager s) = true
        /\ callbacks (trace s) = []
        /\ fetches (trace s) = 0%nat
        /\ errors (trace s) = List.length outcomes
        /\ exists msg, snd (stop s) = Raise (AttributeError msg))
  /\ exists msg, snd (stop (fresh (init series))) = Raise (AttributeError msg).
Proof.
  intros Hw Hi.
  assert (Hsc : scraper (init series) = None).
  { unfold init. simpl.
    destruct (String.eqb_spec series "WEC"); [congruence|].
    destruct (String.eqb_spec series "IMSA"); [congruence|]. reflexivity. }
  split; [exact Hsc|]. split.
  - intros interval cb_raises outcomes.
    destruct (run_running interval cb_raises outcomes (start (fresh (init series))))
      as (A & B & _ & D & _); try reflexivity.
    destruct (run_unbound interval cb_raises outcomes (start (fresh (init series))))
      as (M & Cb & Fe & Er); try reflexivity; [exact Hsc|].
    repeat split; try assumption.
    apply stop_unbound. apply D. exact Hsc.
  - apply stop_unbound. exact Hsc.
Qed.

Lemma unknown_series_has_no_scraper_witness :
  scraper (init "FMSCI") = None
  /\ callbacks (trace (run 10 (fun _ => false) (start (fresh (init "FMSCI")))
                         [Ok EmptyDict; Raise TimeoutError])) = []
  /\ exists msg, snd (stop (fresh (init "FMSCI"))) = Raise (AttributeError msg).
Proof.
  destruct (@unknown_series_has_no_scraper "FMSCI")
    as (A & B & C); try discriminate.
  split; [exact A|]. split; [|exact C].
  exact (proj1 (proj2 (proj2 (B 10 (fun _ => false)
                                [Ok EmptyDict; Raise TimeoutError])))).
Defined.

(** C9 as stated fails: a second start of a running manager is not a
    no-op; it leaves two fetch loops where there was one. *)
Lemma second_start_adds_a_loop :
  is_running (manager (start (fresh (init "WEC")))) = true
  /\ loops (start (fresh (init "WEC"))) = 1%nat
  /\ loops (start (start (fresh (init "WEC")))) = 2%nat
  /\ start (start (fresh (init "WEC"))) <> start (fresh (init "WEC")).
Proof. repeat split; try reflexivity. discriminate. Qed.

Lemma stop_ingestion_bound (m : DataIngestionManager) :
  scraper m <> None ->
  let '(m1, evs, r) := stop_ingestion m in
  r = Ok tt /\ is_running m1 = false /\ series m1 = series m
  /\ scraper m1 <> None
  /\ stop_ingestion m1 = (m1, evs, Ok tt).
Proof.
  intros H. destruct m as [ser [[[u [ss|]]|[u dr]]|] running];
    try (simpl in H; congruence); unfold stop_ingestion; simpl;
    repeat split; try discriminate.
Qed.

(** C9, amended. [stop_ingestion] on a manager with a bound scraper
    returns normally, and a second call leaves the manager as the first
    call left it; on a manager that was never started it changes nothing.
    [start_ingestion] has no guard: every call sets the flag and enters a
    fetch loop of its own, also when the manager is already running. *)
Theorem stop_is_idempotent_start_is_not :
  (forall m : DataIngestionManager,
      scraper m <> None ->
      snd (stop_ingestion m) = Ok tt
      /\ snd (stop_ingestion (fst (fst (stop_ingestion m)))) = Ok tt
      /\ fst (fst (stop_ingestion (fst (fst (stop_ingestion m)))))
         = fst (fst (stop_ingestion m))
      /\ is_running (fst (fst (stop_ingestion m))) = false)
  /\ (forall series : string,
        scraper (init series) <> None ->
        fst (fst (stop_ingestion (init series))) = init series)
  /\ (forall s : system,
        loops (start s) = S (loops s)
        /\ is_running (manager (start s)) = true).
Proof.
  split; [|split].
  - intros m H. pose proof (stop_ingestion_bound m H) as K.
    destruct (stop_ingestion m) as [[m1 evs] r]. simpl.
    destruct K as (A & B & C & D & E). rewrite E. simpl. auto.
  - intros ser H. unfold init in *. simpl in *.
    destruct (String.eqb ser "WEC"); [reflexivity|].
    destruct (String.eqb ser "IMSA"); [reflexivity|]. congruence.
  - intros s. split; reflexivity.
Qed.

Lemma stop_is_idempotent_start_is_not_witness :
  scraper (init "IMSA") <> None
  /\ fst (fst (stop_ingestion (fst (fst (stop_ingestion (init "IMSA"))))))
     = fst (fst (stop_ingestion (init "IMSA")))
  /\ fst (fst (stop_ingestion (init "IMSA"))) = init "IMSA".
Proof.
  assert (H : scraper (init "IMSA") <> None) by (vm_compute; discriminate).
  split; [exact H|]. split.
  - exact (proj1 (proj2 (proj2
             (proj1 stop_is_idempotent_start_is_not (init "IMSA") H)))).
  - exact (proj1 (proj2 stop_is_idempotent_start_is_not) "IMSA"%string H).
Defined.

End LoopClaims.
(* ===================================================================== *)
(** ** Claims about a single fetch *)
(* ===================================================================== *)

Section Fetch.
Import PyStr Ingest Spec.
Local Open Scope list_scope.

Lemma safe_extract_fails (row : element) (selector : string) :
  extraction_fails row selector = true -> _safe_extract row selector = None.
Proof.
  unfold extraction_fails, _safe_extract.
  destruct (select_one row selector) as [[t|]|e]; simpl; congruence.
Qed.

Lemma safe_extract_text (row : element) (selector : string) (text : pystr) :
  select_one row selector = Ok (Some text) ->
  _safe_extract row selector = Some (strip text).
Proof. intros H. unfold _safe_extract. rewrite H. reflexivity. Qed.

Lemma parse_row_failed_fields (row : element) :
  (extraction_fails row ".car-number" = true ->
     car_number (parse_row row) = None)
  /\ (extraction_fails row ".team-name" = true ->
        team_name (parse_row row) = None)
  /\ (extraction_fails row ".class" = true ->
        car_class (parse_row row) = None)
  /\ (extraction_fails row ".position" = true ->
        position (parse_row row) = None)
  /\ (extraction_fails row ".laps" = true ->
        laps_completed (parse_row row) = None)
  /\ (extraction_fails row ".last-lap" = true ->
        last_lap_time (parse_row row) = None)
  /\ (extraction_fails row ".best-lap" = true ->
        best_lap_time (parse_row row) = None)
  /\ (extraction_fails row ".gap" = true ->
        gap_to_leader (parse_row row) = Some (PyFloat (Finite 0))).
Proof.
  unfold parse_row, _safe_extract_int, _safe_extract_float, _safe_extract_gap;
    simpl.
  repeat split; intros H; rewrite (safe_extract_fails _ _ H); reflexivity.
Qed.

(** *** When a conversion gives nothing *)

Lemma int_of_text_none_iff (t : pystr) :
  int_of_text (Some t) = None <-> parse_int t = None.
Proof.
  unfold int_of_text, py_int. destruct t as [|c r].
  - cbn [is_empty try_except]. split; reflexivity.
  - cbn [is_empty]. destruct (parse_int (c :: r)) as [z|];
      cbn [rbind try_except]; split; intros H; congruence.
Qed.

Lemma float_of_text_none_iff (t : pystr) :
  float_of_text (Some t) = None <-> lap_time_unparsable t = true.
Proof.
  unfold float_of_text, lap_time_unparsable, py_int, py_float, index.
  destruct (contains (u ":") t).
  - destruct (split (chr ":") t) as [|a [|b rest]];
      cbn [nth_error rbind try_except]; try (split; reflexivity).
    + destruct (parse_int a); cbn [rbind try_except]; split; reflexivity.
    + destruct (parse_int a) as [m|]; cbn [rbind try_except];
        [|split; reflexivity].
      destruct (parse_float b) as [f|]; cbn [rbind try_except];
        [|split; reflexivity].
      destruct (of_int (m * 60)) as [x|e]; cbn [rbind try_except raises];
        split; intros H; congruence.
  - destruct (parse_float t); cbn [rbind try_except]; split; intros H;
      congruence.
Qed.

Lemma gap_guard (text : option pystr) :
  gap_guarded text = true -> gap_of_text text = Some (PyFloat (Finite 0)).
Proof.
  unfold gap_guarded, gap_of_text, truthy, no_gap_token.
  destruct text as [t|]; [|reflexivity].
  intros H. apply orb_true_iff in H. destruct H as [H|H]; rewrite H.
  - reflexivity.
  - rewrite orb_true_r. reflexivity.
Qed.

Lemma gap_of_text_unguarded (t : pystr) :
  gap_guarded (Some t) = false ->
  gap_of_text (Some t)
  = if contains (u "LAP") (upper t) then
      match split_ws t with
      | w :: _ =>
          match parse_int (remove_char (chr "+") w) with
          | Some laps => Some (PyInt (laps * 100))
          | None => None
          end
      | [] => None
      end
    else match parse_float (remove_char (chr "+") t) with
         | Some f => Some (PyFloat f)
         | None => None
         end.
Proof.
  unfold gap_guarded, gap_of_text, truthy, no_gap_token. intros H.
  apply orb_false_iff in H. destruct H as [H1 H2]. rewrite H1, H2.
  cbn [negb orb]. unfold index, py_int, py_float.
  destruct (contains (u "LAP") (upper t)).
  - destruct (split_ws t) as [|w ws]; cbn [nth_error rbind try_except];
      [reflexivity|].
    destruct (parse_int (remove_char (chr "+") w)); reflexivity.
  - destruct (parse_float (remove_char (chr "+") t)); reflexivity.
Qed.

Lemma gap_of_text_none_iff (t : pystr) :
  gap_of_text (Some t) = None <->
  gap_guarded (Some t) = false /\ gap_unparsable t = true.
Proof.
  destruct (gap_guarded (Some t)) eqn:G.
  - rewrite (gap_guard _ G). split; [discriminate|intros [H _]; discriminate].
  - rewrite (gap_of_text_unguarded _ G). unfold gap_unparsable.
    destruct (contains (u "LAP") (upper t)).
    + destruct (split_ws t) as [|w ws]; [split; auto|].
      destruct (parse_int (remove_char (chr "+") w)); split;
        try discriminate; auto.
      intros [_ H]. discriminate.
    + destruct (parse_float (remove_char (chr "+") t)); split;
        try discriminate; auto.
      intros [_ H]. discriminate.
Qed.

Lemma parse_row_texts (row : element) (text : pystr) :
  (select_one row ".car-number" = Ok (Some text) ->
     car_number (parse_row row) = Some (strip text))
  /\ (select_one row ".team-name" = Ok (Some text) ->
        team_name (parse_row row) = Some (strip text))
  /\ (select_one row ".class" = Ok (Some text) ->
        car_class (parse_row row) = Some (strip text)).
Proof.
  unfold parse_row; cbn [car_number team_name car_class].
  repeat split; intros H; apply safe_extract_text; exact H.
Qed.

Lemma parse_row_unconvertible (row : element) (text : pystr) :
  (select_one row ".position" = Ok (Some text) ->
     (position (parse_row row) = None <-> parse_int (strip text) = None))
  /\ (select_one row ".laps" = Ok (Some text) ->
        (laps_completed (parse_row row) = None <->
         parse_int (strip text) = None))
  /\ (select_one row ".last-lap" = Ok (Some text) ->
        (last_lap_time (parse_row row) = None <->
         lap_time_unparsable (strip text) = true))
  /\ (select_one row ".best-lap" = Ok (Some text) ->
        (best_lap_time (parse_row row) = None <->
         lap_time_unparsable (strip text) = true))
  /\ (select_one row ".gap" = Ok (Some text) ->
        (gap_to_leader (parse_row row) = None <->
         gap_guarded (Some (strip text)) = false
         /\ gap_unparsable (strip text) = true)
        /\ (gap_guarded (Some (strip text)) = true ->
            gap_to_leader (parse_row row) = Some (PyFloat (Finite 0)))).
Proof.
  unfold parse_row, _safe_extract_int, _safe_extract_float, _safe_extract_gap;
    cbn [position laps_completed last_lap_time best_lap_time gap_to_leader].
  splits; intros H; rewrite (safe_extract_text _ _ H).
  - apply int_of_text_none_iff.
  - apply int_of_text_none_iff.
  - apply float_of_text_none_iff.
  - apply float_of_text_none_iff.
  - split; [apply gap_of_text_none_iff|apply gap_guard].
Qed.

Lemma fetch_empty_iff (s : WECScraper) (net : http_outcome) (ts : string) :
  fst (wec_fetch_live_data s net ts) = EmptyDict <->
  transport_failure s net = true \/ no_document net = true.
Proof.
  unfold wec_fetch_live_data, wec_request, transport_failure, no_document,
    init_session, _parse_wec_html.
  destruct s as [url [[|]|]]; cbn [session fst try_except];
    destruct net as [|e|status [[doc|e]]];
    cbn [session fst try_except soup rbind raises];
    try (split; [intros _; left; reflexivity|intros _; reflexivity]);
    destruct (status =? 200); cbn [negb try_except rbind];
    split; intros H; try reflexivity; try discriminate;
    try (left; reflexivity); try (right; reflexivity);
    destruct H as [H|H]; discriminate.
Qed.

Lemma fetch_closed_session (s : WECScraper) (net : http_outcome)
    (ts : string) :
  session s = Some SessionClosed ->
  fst (wec_fetch_live_data s net ts) = EmptyDict.
Proof.
  intros H. apply fetch_empty_iff. left. unfold transport_failure.
  rewrite H. reflexivity.
Qed.

Lemma fetch_page (s : WECScraper) (doc : html_doc) (ts : string) :
  session s <> Some SessionClosed ->
  fst (wec_fetch_live_data s (HttpResponse 200 (mkMarkup (Ok doc))) ts)
  = Snapshot "WEC" ts
      match select_rows doc with
      | Ok rows => map parse_row rows
      | Raise _ => []
      end.
Proof.
  intros H.
  unfold wec_fetch_live_data, wec_request, init_session, _parse_wec_html.
  destruct s as [url [[|]|]]; simpl in *; try congruence;
    destruct (select_rows doc); reflexivity.
Qed.

(** C7 as stated fails on the gap field: a row whose extractions all fail
    comes back with a gap of zero, not with an absent gap. *)
Lemma failed_gap_extraction_is_not_absent :
  extraction_fails broken_row ".gap" = true
  /\ fst (wec_fetch_live_data (mkWEC default_wec_url None)
            (HttpResponse 200 (mkMarkup (Ok (mkDoc (Ok [broken_row])))))
            "t")
     = Snapshot "WEC" "t"
         [mkCar None None None None None None None
            (Some (PyFloat (Finite 0))) false]
  /\ gap_to_leader (parse_row broken_row) <> None.
Proof. repeat split; try reflexivity. discriminate. Qed.

(** C7, amended. A WEC fetch has no exceptional outcome. It returns the
    empty result exactly on a transport-level failure (closed session,
    timeout, connection error, status other than 200) or when the response
    cannot be turned into a document at all. A document yields a snapshot
    with one car record per timing row, and with an empty car list when
    the rows cannot be selected or there are none. In a record, a field
    whose extraction fails is absent, except the gap to the leader, which
    is then zero; a text field that is found holds the trimmed text; a
    number field that is found is absent exactly when its conversion
    fails; the gap is zero for an empty text and for the no-gap token, and
    absent exactly for any other text whose conversion fails. *)
Theorem fetch_degrades_fields_not_calls :
  (forall (s : WECScraper) (net : http_outcome) (ts : string),
      fst (wec_fetch_live_data s net ts) = EmptyDict <->
      transport_failure s net = true \/ no_document net = true)
  /\ (forall (s : WECScraper) (doc : html_doc) (ts : string),
        session s <> Some SessionClosed ->
        exists cars,
          fst (wec_fetch_live_data s
                 (HttpResponse 200 (mkMarkup (Ok doc))) ts)
          = Snapshot "WEC" ts cars
          /\ (forall rows, select_rows doc = Ok rows ->
                cars = map parse_row rows
                /\ List.length cars = List.length rows)
          /\ (forall e, select_rows doc = Raise e -> cars = []))
  /\ (forall row : element,
        (extraction_fails row ".car-number" = true ->
           car_number (parse_row row) = None)
        /\ (extraction_fails row ".team-name" = true ->
              team_name (parse_row row) = None)
        /\ (extraction_fails row ".class" = true ->
              car_class (parse_row row) = None)
        /\ (extraction_fails row ".position" = true ->
              position (parse_row row) = None)
        /\ (extraction_fails row ".laps" = true ->
              laps_completed (parse_row row) = None)
        /\ (extraction_fails row ".last-lap" = true ->
              last_lap_time (parse_row row) = None)
        /\ (extraction_fails row ".best-lap" = true ->
              best_lap_time (parse_row row) = None)
        /\ (extraction_fails row ".gap" = true ->
              gap_to_leader (parse_row row) = Some (PyFloat (Finite 0))))
  /\ (forall (row : element) (text : pystr),
        (select_one row ".car-number" = Ok (Some text) ->
           car_number (parse_row row) = Some (strip text))
        /\ (select_one row ".team-name" = Ok (Some text) ->
              team_name (parse_row row) = Some (strip text))
        /\ (select_one row ".class" = Ok (Some text) ->
              car_class (parse_row row) = Some (strip text)))
  /\ (forall (row : element) (text : pystr),
        (select_one row ".position" = Ok (Some text) ->
           (position (parse_row row) = None <->
            parse_int (strip text) = None))
        /\ (select_one row ".laps" = Ok (Some text) ->
              (laps_completed (parse_row row) = None <->
               parse_int (strip text) = None))
        /\ (select_one row ".last-lap" = Ok (Some text) ->
              (last_lap_time (parse_row row) = None <->
               lap_time_unparsable (strip text) = true))
        /\ (select_one row ".best-lap" = Ok (Some text) ->
              (best_lap_time (parse_row row) = None <->
               lap_time_unparsable (strip text) = true))
        /\ (select_one row ".gap" = Ok (Some text) ->
              (gap_to_leader (parse_row row) = None <->
               gap_guarded (Some (strip text)) = false
               /\ gap_unparsable (strip text) = true)
              /\ (gap_guarded (Some (strip text)) = true ->
                  gap_to_leader (parse_row row)
                  = Some (PyFloat (Finite 0))))).
Proof.
  split; [exact fetch_empty_iff|]. split; [|split; [|split]].
  - intros s doc ts H. eexists.
    split; [apply fetch_page; assumption|].
    split.
    + intros rows R. rewrite R. split; [reflexivity|apply length_map].
    + intros e R. rewrite R. reflexivity.
  - exact parse_row_failed_fields.
  - exact parse_row_texts.
  - exact parse_row_unconvertible.
Qed.

Lemma fetch_degrades_fields_not_calls_witness :
  (select_one partial_row ".gap" = Ok (Some (u "+1.5 LAPS"))
   /\ gap_guarded (Some (strip (u "+1.5 LAPS"))) = false
   /\ gap_unparsable (strip (u "+1.5 LAPS")) = true
   /\ gap_to_leader (parse_row partial_row) = None)
  /\ (select_one partial_row ".last-lap" = Ok (Some (u "1:2x.5"))
      /\ lap_time_unparsable (strip (u "1:2x.5")) = true
      /\ last_lap_time (parse_row partial_row) = None)
  /\ (select_one partial_row ".position" = Ok (Some (u "P1"))
      /\ parse_int (strip (u "P1")) = None
      /\ position (parse_row partial_row) = None)
  /\ laps_completed (parse_row partial_row) = Some 5
  /\ car_number (parse_row partial_row) = Some (u "51")
  /\ in_pit (parse_row partial_row) = true.
Proof.
  assert (G : select_one partial_row ".gap" = Ok (Some (u "+1.5 LAPS")))
    by reflexivity.
  assert (G1 : gap_guarded (Some (strip (u "+1.5 LAPS"))) = false)
    by reflexivity.
  assert (G2 : gap_unparsable (strip (u "+1.5 LAPS")) = true)
    by (vm_compute; reflexivity).
  assert (L : select_one partial_row ".last-lap" = Ok (Some (u "1:2x.5")))
    by reflexivity.
  assert (L1 : lap_time_unparsable (strip (u "1:2x.5")) = true)
    by (vm_compute; reflexivity).
  assert (P : select_one partial_row ".position" = Ok (Some (u "P1")))
    by reflexivity.
  assert (P1 : parse_int (strip (u "P1")) = None)
    by (vm_compute; reflexivity).
  pose proof (proj2 (proj2 (proj2 (proj2 fetch_degrades_fields_not_calls))))
    as U.
  split; [|split; [|split]].
  - split; [exact G|]. split; [exact G1|]. split; [exact G2|].
    exact (proj2 (proj1 (proj2 (proj2 (proj2 (proj2
             (U partial_row (u "+1.5 LAPS"))))) G)) (conj G1 G2)).
  - split; [exact L|]. split; [exact L1|].
    exact (proj2 (proj1 (proj2 (proj2 (U partial_row (u "1:2x.5")))) L) L1).
  - split; [exact P|]. split; [exact P1|].
    exact (proj2 (proj1 (U partial_row (u "P1")) P) P1).
  - split; [vm_compute; reflexivity|]. split; vm_compute; reflexivity.
Defined.

End Fetch.

(* ===================================================================== *)
(** ** The monitor *)
(* ===================================================================== *)

Section MonitorFacts.
Import Schedule Database Monitor Spec.
Local Open Scope list_scope.

Lemma stop_unbound_session (e : env) (w : world) :
  ingestion_manager (monitor w) = None ->
  Monitor.stop_ingestion e w = (Ok tt, w).
Proof.
  intros H. unfold Monitor.stop_ingestion, bind, get_monitor. rewrite H.
  reflexivity.
Qed.

Lemma stop_dangling (e : env) (w : world) (l : loc) :
  ingestion_manager (monitor w) = Some l ->
  nth_error (heap w) l = None ->
  Monitor.stop_ingestion e w
  = (Ok tt, mkWorld (monitor w) (heap w) (tasks w) (races w)
              (out w ++ [MLog Ingest.ERROR "Error stopping ingestion"])).
Proof.
  intros H1 H2.
  mstep. rewrite H1; mstep. rewrite H2. reflexivity.
Qed.

Lemma stop_loop_fails (e : env) (w : world) (l : loc)
    (m m' : Ingest.DataIngestionManager) (evs : list Ingest.event) (x : exn) :
  ingestion_manager (monitor w) = Some l ->
  nth_error (heap w) l = Some m ->
  Ingest.stop_ingestion m = (m', evs, Raise x) ->
  Monitor.stop_ingestion e w
  = (Ok tt, mkWorld (monitor w) (set_nth (heap w) l m') (tasks w) (races w)
              (out w ++ [MStopLoop l;
                         MLog Ingest.ERROR "Error stopping ingestion"])).
Proof.
  intros H1 H2 H3.
  mstep. rewrite H1; mstep. rewrite H2, H3. mstep. rewrite <- app_assoc.
  reflexivity.
Qed.

Lemma stop_without_record (e : env) (w : world) (l : loc)
    (m m' : Ingest.DataIngestionManager) (evs : list Ingest.event) :
  ingestion_manager (monitor w) = Some l ->
  nth_error (heap w) l = Some m ->
  Ingest.stop_ingestion m = (m', evs, Ok tt) ->
  first_active (races w) = None ->
  Monitor.stop_ingestion e w
  = (Ok tt, mkWorld (cleared (monitor w)) (set_nth (heap w) l m') (tasks w)
              (races w)
              (out w ++ [MStopLoop l;
                         MLog Ingest.INFO "Data ingestion stopped"])).
Proof.
  intros H1 H2 H3 H4.
  mstep. rewrite H1; mstep. rewrite H2, H3. mstep. rewrite H4. mstep.
  rewrite <- app_assoc. reflexivity.
Qed.

Lemma stop_with_record (e : env) (w : world) (l : loc)
    (m m' : Ingest.DataIngestionManager) (evs : list Ingest.event)
    (race : Race) :
  ingestion_manager (monitor w) = Some l ->
  nth_error (heap w) l = Some m ->
  Ingest.stop_ingestion m = (m', evs, Ok tt) ->
  first_active (races w) = Some race ->
  Monitor.stop_ingestion e w
  = (Ok tt, mkWorld (cleared (monitor w)) (set_nth (heap w) l m') (tasks w)
              (end_first_active (now_stop e) (races w))
              (out w ++ [MStopLoop l; MExport (id race);
                         if export_raises e
                         then MLog Ingest.ERROR "Failed to export race data"
                         else MLog Ingest.INFO "Race data exported";
                         MLog Ingest.INFO "Data ingestion stopped"])).
Proof.
  intros H1 H2 H3 H4.
  mstep. rewrite H1; mstep. rewrite H2, H3. mstep. rewrite H4. mstep.
  destruct (export_raises e); mstep; repeat rewrite <- app_assoc; reflexivity.
Qed.

Lemma set_nth_length {A} (l : list A) (i : nat) (a : A) :
  List.length (set_nth l i a) = List.length l.
Proof.
  revert i; induction l as [|h t IH]; intros [|i]; simpl; auto.
Qed.


Lemma nth_error_set_nth_same {A} (l : list A) (i : nat) (a x : A) :
  nth_error l i = Some x -> nth_error (set_nth l i a) i = Some a.
Proof.
  revert i; induction l as [|h t IH]; intros [|i] H; simpl in *;
    try discriminate; auto.
Qed.

Lemma ingest_stop_clears_flag (m m' : Ingest.DataIngestionManager)
    (evs : list Ingest.event) (r : result unit) :
  Ingest.stop_ingestion m = (m', evs, r) -> Ingest.is_running m' = false.
Proof.
  unfold Ingest.stop_ingestion. simpl.
  destruct (Ingest.scraper m) as [[s|s]|]; intros H; inversion H; reflexivity.
Qed.

(** The monitor's [stop_ingestion] never lets an exception out. *)
Lemma stop_never_raises (e : env) (w : world) :
  fst (Monitor.stop_ingestion e w) = Ok tt.
Proof.
  destruct (ingestion_manager (monitor w)) as [l|] eqn:H1.
  - destruct (nth_error (heap w) l) as [m|] eqn:H2.
    + destruct (Ingest.stop_ingestion m) as [[m' evs] [[]|x]] eqn:H3.
      * destruct (first_active (races w)) as [race|] eqn:H4.
        -- rewrite (stop_with_record e w H1 H2 H3 H4). reflexivity.
        -- rewrite (stop_without_record e w H1 H2 H3 H4). reflexivity.
      * rewrite (stop_loop_fails e w H1 H2 H3). reflexivity.
    + rewrite (stop_dangling e w H1 H2). reflexivity.
  - rewrite (stop_unbound_session e w H1). reflexivity.
Qed.

(** What [start_ingestion] does: after the stop and the new race record,
    the construction of the manager raises, and the handler logs. *)
Lemma start_ingestion_eq (e : env) (info : race_info) (w : world) :
  Monitor.start_ingestion e info w
  = (Ok tt,
     mkWorld (monitor (snd (Monitor.stop_ingestion e w)))
       (heap (snd (Monitor.stop_ingestion e w)))
       (tasks (snd (Monitor.stop_ingestion e w)))
       (add_race (deactivate_all (races (snd (Monitor.stop_ingestion e w))))
          info)
       (out (snd (Monitor.stop_ingestion e w))
        ++ [MLog Ingest.INFO "Created race entry in database";
            MLog Ingest.ERROR "Failed to start ingestion"])).
Proof.
  pose proof (stop_never_raises e w) as H.
  unfold Monitor.start_ingestion, try_with, bind at 1.
  destruct (Monitor.stop_ingestion e w) as [r w1]. simpl in H. subst r.
  mstep. rewrite <- app_assoc. reflexivity.
Qed.

End MonitorFacts.

Section MonitorClaims.
Import Schedule Database Monitor Spec.
Local Open Scope list_scope.

Lemma last_of_two {A} (l : list A) (a b : A) :
  exists before, l ++ [a; b] = before ++ [b].
Proof. exists (l ++ [a]). rewrite <- app_assoc. reflexivity. Qed.

(** C1. The start action of the monitor does not succeed: the call that
    builds the manager passes a keyword the constructor does not take, so
    [start_ingestion] ends in its handler. It never hands a fetch loop to
    the scheduler, never allocates a manager and never binds the event;
    only the race record is created. At the poll a quarter of an hour
    before Le Mans, from the initial state, the monitor is left without
    session. *)
Theorem start_action_never_binds :
  (forall (e : env) (info : race_info) (w : world),
      let w' := snd (Monitor.start_ingestion e info w) in
      tasks w' = tasks w
      /\ List.length (heap w') = List.length (heap w)
      /\ (ingestion_manager (monitor w') = None
          \/ monitor w' = monitor w)
      /\ exists before,
          out w' = before ++ [MLog Ingest.ERROR "Failed to start ingestion"])
  /\ Ingest.construct [("series", "WEC"); ("timing_url", Ingest.default_wec_url)]%string
     = Raise (TypeError
                "__init__() got an unexpected keyword argument 'timing_url'")
  /\ check_for_live_race (poll_at le_mans_pre_roll) initial_world
     = (Ok tt,
        mkWorld new_monitor [] []
          [mkRow 1 "WEC" "24 Hours of Le Mans" "Circuit de la Sarthe"
             (mk_datetime 2025 6 14 15 0) None true]
          [MLog Ingest.INFO "LIVE RACE DETECTED";
           MLog Ingest.INFO "Created race entry in database";
           MLog Ingest.ERROR "Failed to start ingestion"])
  /\ get_status (snd (check_for_live_race (poll_at le_mans_pre_roll)
                        initial_world))
     = (false, false, None).
Proof.
  split; [|repeat split; vm_compute; reflexivity].
  intros e info w w'. subst w'. rewrite start_ingestion_eq. simpl.
  destruct (ingestion_manager (monitor w)) as [l|] eqn:H1.
  - destruct (nth_error (heap w) l) as [m|] eqn:H2.
    + destruct (Ingest.stop_ingestion m) as [[m' evs] [[]|x]] eqn:H3.
      * destruct (first_active (races w)) as [race|] eqn:H4.
        -- rewrite (stop_with_record e w H1 H2 H3 H4). simpl.
           rewrite set_nth_length. repeat split; auto.
           apply last_of_two.
        -- rewrite (stop_without_record e w H1 H2 H3 H4). simpl.
           rewrite set_nth_length. repeat split; auto.
           apply last_of_two.
      * rewrite (stop_loop_fails e w H1 H2 H3). simpl.
        rewrite set_nth_length. repeat split; auto.
        apply last_of_two.
    + rewrite (stop_dangling e w H1 H2). simpl. repeat split; auto.
      apply last_of_two.
  - rewrite (stop_unbound_session e w H1). simpl. repeat split; auto.
    apply last_of_two.
Qed.

End MonitorClaims.

Section SessionEnd.
Import Schedule Database Monitor Spec.
Local Open Scope list_scope.

Lemma end_first_active_spec (now : datetime) (t : table) (race : Race) :
  first_active t = Some race ->
  In (mark_ended now race) (end_first_active now t)
  /\ S (active_count (end_first_active now t)) = active_count t
  /\ is_active race = true.
Proof.
  unfold first_active, active_count.
  induction t as [|r rest IH]; simpl; [discriminate|].
  destruct (is_active r) eqn:Ha; intros H.
  - inversion H; subst. simpl. rewrite Ha. auto.
  - simpl. rewrite Ha. destruct (IH H) as (A & B & C). auto.
Qed.


Lemma active_count_add (t : table) (info : race_info) :
  active_count (add_race (deactivate_all t) info) = 1%nat.
Proof.
  unfold active_count, add_race. rewrite filter_app, length_app. simpl.
  replace (filter is_active (deactivate_all t)) with (@nil Race);
    [reflexivity|].
  induction t as [|r rest IH]; simpl; auto.
Qed.

(** C6. When the monitor stops ingestion while it holds a session (a
    manager with its scraper, and the session's race record as the active
    record), the call returns normally and, on return, the record is no
    longer active and carries the end timestamp; the exporter has been
    called once, with that record; a failing export is logged and changes
    none of this; the monitor keeps its running flag and holds no session
    any more, so that a further stop exports nothing. *)
Theorem stop_marks_session_ended
    (e : env) (w : world) (l : loc) (m : Ingest.DataIngestionManager)
    (race : Race) :
  ingestion_manager (monitor w) = Some l ->
  nth_error (heap w) l = Some m ->
  Ingest.scraper m <> None ->
  first_active (races w) = Some race ->
  fst (Monitor.stop_ingestion e w) = Ok tt
  /\ races (snd (Monitor.stop_ingestion e w))
     = end_first_active (now_stop e) (races w)
  /\ In (mark_ended (now_stop e) race) (races (snd (Monitor.stop_ingestion e w)))
  /\ is_active (mark_ended (now_stop e) race) = false
  /\ end_time (mark_ended (now_stop e) race) = Some (now_stop e)
  /\ S (active_count (races (snd (Monitor.stop_ingestion e w))))
     = active_count (races w)
  /\ (exists evs,
        out (snd (Monitor.stop_ingestion e w)) = out w ++ evs
        /\ exports evs = [id race]
        /\ (export_raises e = true ->
            In (MLog Ingest.ERROR "Failed to export race data") evs))
  /\ monitor (snd (Monitor.stop_ingestion e w)) = cleared (monitor w)
  /\ loop_stopped (snd (Monitor.stop_ingestion e w)) l
  /\ (forall e' : env,
        Monitor.stop_ingestion e' (snd (Monitor.stop_ingestion e w))
        = (Ok tt, snd (Monitor.stop_ingestion e w))).
Proof.
  intros H1 H2 H3 H4.
  pose proof (Ingest.stop_ingestion m) as dummy. clear dummy.
  destruct (Ingest.stop_ingestion m) as [[m' evs] r] eqn:Hs.
  assert (Hr : r = Ok tt).
  { pose proof (stop_ingestion_bound m H3) as K. rewrite Hs in K. tauto. }
  subst r.
  rewrite (stop_with_record e w H1 H2 Hs H4). simpl.
  destruct (end_first_active_spec (now_stop e) (races w) H4) as (A & B & C).
  splits; try assumption; try reflexivity.
  - eexists. split; [reflexivity|]. split.
    + destruct (export_raises e); reflexivity.
    + intros X. rewrite X. simpl. auto.
  - exists m'. split.
    + apply (nth_error_set_nth_same _ _ _ H2).
    + apply (ingest_stop_clears_flag _ Hs).
Qed.

Lemma stop_marks_session_ended_witness :
  first_active (races le_mans_session)
  = Some (mkRow 1 "WEC" "24 Hours of Le Mans" "Circuit de la Sarthe"
            (mk_datetime 2025 6 14 15 0) None true)
  /\ races (snd (Monitor.stop_ingestion
                   (mkEnv 0 0 (mk_datetime 2025 6 15 15 0) true)
                   le_mans_session))
     = end_first_active (mk_datetime 2025 6 15 15 0) (races le_mans_session)
  /\ monitor (snd (Monitor.stop_ingestion
                     (mkEnv 0 0 (mk_datetime 2025 6 15 15 0) true)
                     le_mans_session))
     = cleared (monitor le_mans_session).
Proof.
  assert (H4 : first_active (races le_mans_session)
               = Some (mkRow 1 "WEC" "24 Hours of Le Mans"
                         "Circuit de la Sarthe"
                         (mk_datetime 2025 6 14 15 0) None true))
    by reflexivity.
  split; [exact H4|].
  destruct (@stop_marks_session_ended
              (mkEnv 0 0 (mk_datetime 2025 6 15 15 0) true)
              le_mans_session 0%nat
              (Ingest.with_running (Ingest.init "WEC") true)
              _ eq_refl eq_refl ltac:(simpl; discriminate) H4)
    as (_ & A & _ & _ & _ & _ & _ & B & _).
  split; [exact A | exact B].
Defined.

End SessionEnd.

Section Lifecycle.
Import Schedule Database Monitor Spec.
Local Open Scope list_scope.

Lemma min_by_date_in (l : list race_info) :
  forall best, In (min_by_date best l) (best :: l).
Proof.
  induction l as [|r t IH]; intros best; simpl; [auto|].
  destruct (IH (if date r <? date best then r else best)) as [H|H].
  - destruct (date r <? date best); rewrite <- H; auto.
  - auto.
Qed.

Lemma next_race_in_schedule (schedule : list race_info) (now : datetime)
    (r : race_info) :
  next_race_in schedule now = Some r -> In r schedule /\ now < date r.
Proof.
  unfold next_race_in, upcoming_in.
  destruct (filter (fun race => now <? date race) schedule) as [|a t] eqn:E;
    [discriminate|].
  intros H; inversion H; subst.
  pose proof (min_by_date_in t a) as K. rewrite <- E in K.
  apply filter_In in K. destruct K as [K1 K2]. split; [exact K1|lia].
Qed.


Lemma name_differs_false (c n : string) :
  name_differs (Some c) n = false <-> c = n.
Proof.
  simpl. rewrite negb_false_iff. apply String.eqb_eq.
Qed.




Lemma min_by_date_le (l : list race_info) :
  forall best r, In r (best :: l) -> date (min_by_date best l) <= date r.
Proof.
  induction l as [|x t IH]; intros best r Hin.
  - destruct Hin as [H|[]]. subst. simpl. lia.
  - cbn [min_by_date].
    assert (Hb : date (min_by_date (if date x <? date best then x else best) t)
                 <= date (if date x <? date best then x else best))
      by (apply IH; left; reflexivity).
    destruct Hin as [H|[H|H]].
    + subst r. destruct (Z.ltb_spec (date x) (date best)); lia.
    + subst r. destruct (Z.ltb_spec (date x) (date best)); lia.
    + apply IH. right. exact H.
Qed.








(** The schedule stops reporting an event at its scheduled start: the
    poll at that very instant finds the event live by the window and
    stops its loop all the same. *)
Lemma session_stopped_at_scheduled_start :
  is_live (date le_mans) (date le_mans) = true
  /\ get_next_race (date le_mans) = None
  /\ loop_stopped
       (snd (check_for_live_race (poll_at (date le_mans)) le_mans_session))
       0%nat.
Proof.
  split; [vm_compute; reflexivity|]. split; [reflexivity|].
  eexists. split; vm_compute; reflexivity.
Qed.

End Lifecycle.

Section OneSession.
Import Schedule Database Monitor Spec.
Local Open Scope list_scope.













End OneSession.
(* ===================================================================== *)
(** ** The parsers of lap times and gaps *)
(* ===================================================================== *)

(** *** Rounding to a float *)

Section Floats.
Import PyStr Spec.
Local Open Scope Q_scope.

Lemma two_pow_pos (e : Z) : 0 < two_pow e.
Proof. unfold two_pow. apply Qpower_0_lt. reflexivity. Qed.

Lemma two_pow_plus (a b : Z) : two_pow (a + b) == two_pow a * two_pow b.
Proof. unfold two_pow. apply Qpower_plus. discriminate. Qed.

Lemma two_pow_le (a b : Z) : (a <= b)%Z -> two_pow a <= two_pow b.
Proof.
  intros H. unfold two_pow. apply Qpower_le_compat_l; [exact H|].
  discriminate.
Qed.

Lemma two_pow_lt_inv (a b : Z) : two_pow a < two_pow b -> (a < b)%Z.
Proof.
  intros H. unfold two_pow in H.
  apply (Qpower_lt_compat_l_inv (inject_Z 2)); [exact H|reflexivity].
Qed.

Lemma two_pow_Z (a : Z) : (0 <= a)%Z -> two_pow a == inject_Z (2 ^ a).
Proof. intros H. unfold two_pow. symmetry. apply Zpower_Qpower. exact H. Qed.

Lemma two_pow_half (e : Z) : two_pow (e - 1) == two_pow e * (1 # 2).
Proof.
  replace (e - 1)%Z with (e + -1)%Z by lia. rewrite two_pow_plus.
  reflexivity.
Qed.

(** [floor_log2] is the binary exponent of a positive rational. *)
Lemma floor_log2_spec (q : Q) :
  0 < q -> two_pow (floor_log2 q) <= q /\ q < two_pow (floor_log2 q + 1).
Proof.
  intros Hq. unfold floor_log2.
  set (n := Qnum q). set (d := Zpos (Qden q)).
  assert (Hn : (0 < n)%Z) by (unfold n; destruct q as [[|p|p] dd]; cbv in Hq; try discriminate; reflexivity).
  assert (Hd : (0 < d)%Z) by (unfold d; reflexivity).
  set (a := Z.log2 n). set (b := Z.log2 d).
  destruct (Z.log2_spec n Hn) as [A1 A2]. fold a in A1, A2.
  destruct (Z.log2_spec d Hd) as [B1 B2]. fold b in B1, B2.
  assert (Ha : (0 <= a)%Z) by apply Z.log2_nonneg.
  assert (Hb : (0 <= b)%Z) by apply Z.log2_nonneg.
  assert (Eq : q == inject_Z n / inject_Z d).
  { unfold n, d. destruct q as [qn qd]. cbn [Qnum Qden].
    unfold Qeq, Qdiv, Qmult, Qinv, inject_Z. cbn. lia. }
  assert (Pa : two_pow a == inject_Z (2 ^ a)) by (apply two_pow_Z; exact Ha).
  assert (Pb : two_pow b == inject_Z (2 ^ b)) by (apply two_pow_Z; exact Hb).
  assert (Pk : forall j : Z, two_pow (a - b + j) == two_pow a * two_pow j / two_pow b).
  { intros j. replace (a - b + j)%Z with (a + (j + - b))%Z by lia.
    rewrite !two_pow_plus. unfold two_pow at 3. rewrite Qpower_opp.
    fold (two_pow b). field. pose proof (two_pow_pos b). lra. }
  assert (P2a : 0 < inject_Z (2 ^ a)) by (rewrite <- Pa; apply two_pow_pos).
  assert (P2b : 0 < inject_Z (2 ^ b)) by (rewrite <- Pb; apply two_pow_pos).
  assert (Dn : 0 < inject_Z d) by (unfold Qlt, inject_Z; cbn; lia).
  assert (A1q : inject_Z (2 ^ a) <= inject_Z n) by (rewrite <- Zle_Qle; exact A1).
  assert (A2q : inject_Z n < 2 * inject_Z (2 ^ a)).
  { replace (2 * inject_Z (2 ^ a)) with (inject_Z 2 * inject_Z (2 ^ a)) by reflexivity.
    rewrite <- inject_Z_mult, <- Zlt_Qlt.
    replace (2 ^ Z.succ a)%Z with (2 * 2 ^ a)%Z in A2 by (rewrite Z.pow_succ_r; lia).
    exact A2. }
  assert (B1q : inject_Z (2 ^ b) <= inject_Z d) by (rewrite <- Zle_Qle; exact B1).
  assert (B2q : inject_Z d < 2 * inject_Z (2 ^ b)).
  { replace (2 * inject_Z (2 ^ b)) with (inject_Z 2 * inject_Z (2 ^ b)) by reflexivity.
    rewrite <- inject_Z_mult, <- Zlt_Qlt.
    replace (2 ^ Z.succ b)%Z with (2 * 2 ^ b)%Z in B2 by (rewrite Z.pow_succ_r; lia).
    exact B2. }
  destruct (Qle_bool (two_pow (a - b)) q) eqn:Hc.
  - apply Qle_bool_iff in Hc. split; [exact Hc|].
    rewrite (Pk 1%Z), Eq, Pa, Pb.
    change (two_pow 1) with 2.
    apply Qlt_shift_div_l; [exact P2b|].
    setoid_replace (inject_Z n / inject_Z d * inject_Z (2 ^ b))
      with ((inject_Z n * inject_Z (2 ^ b)) / inject_Z d) by (field; lra).
    apply Qlt_shift_div_r; [exact Dn|]. nra.
  - assert (Hlt : q < two_pow (a - b)).
    { apply Qnot_le_lt. intros H. apply Qle_bool_iff in H. congruence. }
    replace (a - b - 1 + 1)%Z with (a - b)%Z by lia. split; [|exact Hlt].
    replace (a - b - 1)%Z with (a - b + -1)%Z by lia.
    rewrite (Pk (-1)%Z), Eq, Pa, Pb.
    change (two_pow (-1)) with (1 # 2).
    apply Qle_shift_div_r; [exact P2b|].
    setoid_replace (inject_Z n / inject_Z d * inject_Z (2 ^ b))
      with ((inject_Z n * inject_Z (2 ^ b)) / inject_Z d) by (field; lra).
    apply Qle_shift_div_l; [exact Dn|]. nra.
Qed.

Lemma round_half_even_spec (x : Q) :
  Qabs (inject_Z (round_half_even x) - x) <= 1 # 2.
Proof.
  unfold round_half_even.
  pose proof (Qfloor_le x) as L. pose proof (Qlt_floor x) as U.
  rewrite inject_Z_plus in U. change (inject_Z 1) with 1 in U.
  set (f := Qfloor x) in *.
  apply Qabs_Qle_condition.
  destruct (Qcompare_spec (x - inject_Z f) (1 # 2)) as [E|E|E].
  - destruct (Z.even f); [|rewrite inject_Z_plus; change (inject_Z 1) with 1];
      split; lra.
  - split; lra.
  - rewrite inject_Z_plus. change (inject_Z 1) with 1. split; lra.
Qed.

Lemma round_half_even_nonneg (x : Q) : 0 <= x -> (0 <= round_half_even x)%Z.
Proof.
  intros H. unfold round_half_even.
  assert (F : (0 <= Qfloor x)%Z).
  { change 0%Z with (Qfloor 0). apply Qfloor_resp_le. exact H. }
  destruct (Qcompare (x - inject_Z (Qfloor x)) (1 # 2));
    [destruct (Z.even (Qfloor x))| |]; lia.
Qed.

(** Rounding a magnitude below [2^1023] gives a finite float no further
    from it than half a unit in the last place. *)
Lemma to_double_error (q : Q) :
  0 <= q -> q < two_pow 1023 ->
  exists v, to_double false q = Finite v
            /\ 0 <= v
            /\ Qabs (v - q) <= q * two_pow (-53) + two_pow (-1075).
Proof.
  intros H0 H1. unfold to_double.
  destruct (Qle_bool q 0) eqn:Hz.
  - apply Qle_bool_iff in Hz. exists 0. split; [reflexivity|].
    split; [lra|]. apply Qabs_Qle_condition.
    pose proof (two_pow_pos (-53)). pose proof (two_pow_pos (-1075)).
    split; nra.
  - assert (Hq : 0 < q).
    { apply Qnot_le_lt. intros H. apply Qle_bool_iff in H. congruence. }
    destruct (floor_log2_spec Hq) as [L U].
    set (fl := floor_log2 q) in *.
    assert (Hfl : (fl < 1023)%Z).
    { apply two_pow_lt_inv. lra. }
    set (e := Z.max (fl - 52) (-1074)).
    set (x := q / two_pow e).
    set (m := round_half_even x).
    pose proof (two_pow_pos e) as Pe.
    assert (Hx : 0 <= x).
    { unfold x. apply Qle_shift_div_l; [exact Pe|]. lra. }
    pose proof (round_half_even_nonneg Hx) as Hm. fold m in Hm.
    pose proof (round_half_even_spec x) as R. fold m in R.
    apply Qabs_Qle_condition in R. destruct R as [R1 R2].
    assert (Qx : q == x * two_pow e) by (unfold x; field; lra).
    set (v0 := inject_Z m * two_pow e).
    assert (Hm0 : 0 <= inject_Z m).
    { change 0 with (inject_Z 0). rewrite <- Zle_Qle. exact Hm. }
    assert (Hv0 : 0 <= v0) by (unfold v0; nra).
    assert (E1 : v0 - q <= two_pow e * (1 # 2)) by (unfold v0; rewrite Qx; nra).
    assert (E2 : - (two_pow e * (1 # 2)) <= v0 - q)
      by (unfold v0; rewrite Qx; nra).
    assert (B : two_pow e * (1 # 2) <= q * two_pow (-53) + two_pow (-1075)).
    { rewrite <- two_pow_half. unfold e.
      pose proof (two_pow_pos (-53)). pose proof (two_pow_pos (-1075)).
      destruct (Z.max_spec (fl - 52) (-1074)) as [[C1 C2]|[C1 C2]];
        rewrite C2.
      - change (-1074 - 1)%Z with (-1075)%Z. nra.
      - replace (fl - 52 - 1)%Z with (fl + -53)%Z by lia.
        rewrite two_pow_plus. nra. }
    assert (Small : two_pow e * (1 # 2) <= two_pow 1022).
    { rewrite <- two_pow_half. apply two_pow_le. unfold e. lia. }
    assert (NoOv : Qle_bool (two_pow 1024) (Qred v0) = false).
    { destruct (Qle_bool (two_pow 1024) (Qred v0)) eqn:O; [|reflexivity].
      apply Qle_bool_iff in O. rewrite Qred_correct in O.
      assert (two_pow 1024 == 2 * two_pow 1023) by reflexivity.
      assert (two_pow 1023 == 2 * two_pow 1022) by reflexivity.
      pose proof (two_pow_pos 1022). lra. }
    fold v0. rewrite NoOv.
    destruct (m =? 0)%Z eqn:M0.
    + apply Z.eqb_eq in M0. exists 0. split; [reflexivity|].
      split; [lra|]. apply Qabs_Qle_condition.
      assert (v0 == 0) by (unfold v0; rewrite M0; reflexivity).
      split; lra.
    + exists (Qred v0). split; [reflexivity|]. rewrite Qred_correct.
      split; [exact Hv0|]. apply Qabs_Qle_condition. split; lra.
Qed.

(** The float sum of an integer and a rounded magnitude is within four
    units of float precision of the exact sum. *)
Lemma int_plus_float_accuracy (z : Z) (sec : Q) :
  (0 <= z)%Z -> 0 <= sec -> inject_Z z + sec < two_pow 1022 ->
  exists a r,
    of_int z = Ok (Finite a)
    /\ fadd (Finite a) (to_double false sec) = Finite r
    /\ Qabs (r - (inject_Z z + sec))
       <= (inject_Z z + sec) * two_pow (-51) + two_pow (-1072).
Proof.
  intros Hz Hs Hx.
  assert (Z0 : 0 <= inject_Z z)
    by (change 0 with (inject_Z 0); rewrite <- Zle_Qle; exact Hz).
  set (eps := two_pow (-53)). set (dlt := two_pow (-1075)).
  assert (Eps : 0 < eps) by apply two_pow_pos.
  assert (Dlt : 0 < dlt) by apply two_pow_pos.
  assert (Eps4 : two_pow (-51) == 4 * eps) by reflexivity.
  assert (Dlt8 : two_pow (-1072) == 8 * dlt) by reflexivity.
  assert (EpsS : eps <= 1 # 4).
  { unfold eps. apply Qle_trans with (two_pow (-2)); [|discriminate].
    apply two_pow_le. lia. }
  assert (T23 : two_pow 1023 == 2 * two_pow 1022) by reflexivity.
  assert (DltS : dlt <= two_pow 1022 * (1 # 8)).
  { unfold dlt. apply Qle_trans with (two_pow 1019).
    - apply two_pow_le. lia.
    - assert (two_pow 1022 == 8 * two_pow 1019) by reflexivity.
      pose proof (two_pow_pos 1019). lra. }
  pose proof (two_pow_pos 1022) as T22.
  destruct (@to_double_error (inject_Z z) Z0 ltac:(lra))
    as (a & Ea & A0 & Aerr).
  destruct (@to_double_error sec Hs ltac:(lra)) as (b & Eb & B0 & Berr).
  fold eps dlt in Aerr, Berr.
  apply Qabs_Qle_condition in Aerr. destruct Aerr as [A1 A2].
  apply Qabs_Qle_condition in Berr. destruct Berr as [B1 B2].
  assert (X1 : inject_Z z * eps <= inject_Z z * (1 # 4)) by nra.
  assert (X2 : sec * eps <= sec * (1 # 4)) by nra.
  assert (Sum : a + b < two_pow 1023) by lra.
  destruct (@to_double_error (a + b) ltac:(lra) Sum) as (r & Er & R0 & Rerr).
  fold eps dlt in Rerr.
  apply Qabs_Qle_condition in Rerr. destruct Rerr as [R1 R2].
  exists a, r. split; [|split].
  - unfold of_int, round_double.
    assert (C : Qle_bool 0 (inject_Z z) = true) by (apply Qle_bool_iff; exact Z0).
    rewrite C, Ea. reflexivity.
  - rewrite Eb. cbn [fadd]. unfold round_double.
    assert (C : Qle_bool 0 (a + b) = true) by (apply Qle_bool_iff; lra).
    rewrite C. exact Er.
  - rewrite Eps4, Dlt8.
    assert (Y : (a + b) * eps
                <= (inject_Z z + sec) * eps + (inject_Z z + sec) * eps
                   + dlt) by nra.
    apply Qabs_Qle_condition. split; lra.
Qed.

End Floats.

Section Parsers.
Import PyStr Ingest Spec.
Local Open Scope list_scope.

(** *** Rendered digits *)

Lemma digit_char_facts (d : Z) :
  0 <= d <= 9 ->
  is_digit (digit_char d) = true
  /\ digit_val (digit_char d) = d
  /\ is_space (digit_char d) = false
  /\ c_space (digit_char d) = false
  /\ to_ascii (digit_char d) = digit_char d
  /\ ascii_lower (digit_char d) = digit_char d
  /\ upper_char (digit_char d) = [digit_char d]
  /\ (forall x, In x [43; 45; 46; 58; 95; 105; 110; 76] ->
                (digit_char d =? x) = false /\ (x =? digit_char d) = false).
Proof.
  intros H.
  assert (C : d = 0 \/ d = 1 \/ d = 2 \/ d = 3 \/ d = 4 \/ d = 5 \/ d = 6
              \/ d = 7 \/ d = 8 \/ d = 9) by lia.
  assert (K : forall x y, In x [43; 45; 46; 58; 95; 105; 110; 76] ->
                          48 <= y <= 57 ->
                          (y =? x) = false /\ (x =? y) = false).
  { intros x y Hx Hy. cbn [In] in Hx. split; apply Z.eqb_neq; lia. }
  repeat (destruct C as [C|C];
          [subst d; splits; try (vm_compute; reflexivity);
           intros x Hx; apply K; [exact Hx|vm_compute; split; discriminate]|]).
  subst d; splits; try (vm_compute; reflexivity).
  intros x Hx; apply K; [exact Hx|vm_compute; split; discriminate].
Qed.

Lemma digit_is_not (d x : Z) :
  0 <= d <= 9 -> In x [43; 45; 46; 58; 95; 105; 110; 76] ->
  (digit_char d =? x) = false.
Proof.
  intros H Hx. destruct (digit_char_facts H) as (_ & _ & _ & _ & _ & _ & _ & K).
  exact (proj1 (K x Hx)).
Qed.

Lemma render_app (a b : list Z) : render (a ++ b) = render a ++ render b.
Proof. apply map_app. Qed.

Lemma render_length (ds : list Z) : List.length (render ds) = List.length ds.
Proof. apply length_map. Qed.

Lemma digit_run_render (ds : list Z) (rest : pystr) :
  Forall (fun d => 0 <= d <= 9) ds -> ends_run rest ->
  digit_run (render ds ++ rest) = (ds, rest).
Proof.
  intros Hd He. induction Hd as [|d ds Hd Hds IH].
  - cbn [render map app]. destruct rest as [|c r]; [reflexivity|].
    destruct He as [A B]. cbn [digit_run]. rewrite A, B. reflexivity.
  - destruct (digit_char_facts Hd) as (A & B & _).
    change (render (d :: ds) ++ rest)
      with (digit_char d :: (render ds ++ rest)).
    cbn [digit_run]. rewrite A, IH, B. reflexivity.
Qed.

Lemma digitpart_render (ds : list Z) (rest : pystr) :
  digits ds -> ends_run rest ->
  digitpart (render ds ++ rest) = Some (ds, rest).
Proof.
  intros [Hne Hd] He.
  pose proof (digit_run_render rest Hd He) as R.
  destruct ds as [|d ds]; [congruence|].
  inversion Hd as [|x xs Hx Hxs]; subst.
  destruct (digit_char_facts Hx) as (A & _).
  unfold digitpart.
  change (render (d :: ds) ++ rest)
    with (digit_char d :: (render ds ++ rest)) in *.
  cbv beta iota. rewrite A, R. reflexivity.
Qed.

Lemma to_ascii_render (ds : list Z) :
  Forall (fun d => 0 <= d <= 9) ds -> map to_ascii (render ds) = render ds.
Proof.
  unfold render. induction 1 as [|d ds Hd _ IH]; [reflexivity|].
  destruct (digit_char_facts Hd) as (_ & _ & _ & _ & A & _).
  cbn [map]. rewrite A, IH. reflexivity.
Qed.

(** *** Stripping *)

Lemma rstrip_by_clean (space : Z -> bool) (s : pystr) :
  clean space s = true -> rstrip_by space s = s.
Proof.
  unfold clean. induction s as [|c r IH]; cbn [forallb rstrip_by];
    [reflexivity|].
  rewrite andb_true_iff, negb_true_iff. intros [A B].
  rewrite A, (IH B). reflexivity.
Qed.

Lemma strip_by_clean (space : Z -> bool) (s : pystr) :
  clean space s = true -> rstrip_by space (lstrip_by space s) = s.
Proof.
  intros H.
  assert (L : lstrip_by space s = s).
  { destruct s as [|c r]; [reflexivity|]. unfold clean in H.
    cbn [forallb lstrip_by] in *.
    apply andb_true_iff in H. destruct H as [A _].
    apply negb_true_iff in A. rewrite A. reflexivity. }
  rewrite L. apply rstrip_by_clean. exact H.
Qed.

Lemma clean_app (space : Z -> bool) (a b : pystr) :
  clean space (a ++ b) = clean space a && clean space b.
Proof. apply forallb_app. Qed.

Lemma clean_render (ds : list Z) :
  Forall (fun d => 0 <= d <= 9) ds ->
  clean is_space (render ds) = true /\ clean c_space (render ds) = true.
Proof.
  unfold clean, render.
  induction 1 as [|d ds Hd _ [IH1 IH2]]; [split; reflexivity|].
  destruct (digit_char_facts Hd) as (_ & _ & A & B & _).
  cbn [map forallb]. rewrite A, B, IH1, IH2. split; reflexivity.
Qed.

Lemma sign_render (ds : list Z) (rest : pystr) :
  digits ds -> sign (render ds ++ rest) = (false, render ds ++ rest).
Proof.
  intros [Hne Hd]. destruct ds as [|d ds]; [congruence|].
  inversion Hd as [|x xs Hx _]; subst.
  change (render (d :: ds) ++ rest)
    with (digit_char d :: (render ds ++ rest)).
  cbn [sign].
  rewrite (@digit_is_not d 45 Hx), (@digit_is_not d 43 Hx)
    by (cbn [In]; tauto).
  reflexivity.
Qed.

(** *** [int] and [float] on rendered numbers *)

Lemma parse_int_render (ds : list Z) :
  digits ds ->
  parse_int (render ds)
  = if int_max_str_digits <? Z.of_nat (List.length ds) then None
    else Some (digits_value ds).
Proof.
  intros H. unfold parse_int.
  rewrite (to_ascii_render (proj2 H)).
  unfold strip_c.
  rewrite (@strip_by_clean c_space _ (proj2 (clean_render (proj2 H)))).
  pose proof (@sign_render ds [] H) as S. rewrite app_nil_r in S.
  rewrite S.
  pose proof (@digitpart_render ds [] H I) as D.
  rewrite app_nil_r in D. rewrite D. reflexivity.
Qed.

Lemma parse_int_accepts (ds : list Z) :
  int_digits ds -> parse_int (render ds) = Some (digits_value ds).
Proof.
  intros [H L]. rewrite (parse_int_render H).
  destruct (Z.ltb_spec int_max_str_digits (Z.of_nat (List.length ds)));
    [lia|reflexivity].
Qed.

Lemma parse_int_too_long (ds : list Z) :
  digits ds -> int_max_str_digits < Z.of_nat (List.length ds) ->
  parse_int (render ds) = None.
Proof.
  intros H L. rewrite (parse_int_render H).
  destruct (Z.ltb_spec int_max_str_digits (Z.of_nat (List.length ds)));
    [reflexivity|lia].
Qed.

(** The body of a finite literal starting with a digit is not one of the
    words for the special values. *)
Lemma not_special (ds : list Z) (rest : pystr) :
  digits ds ->
  (str_eqb (map ascii_lower (render ds ++ rest)) (u "inf")
   || str_eqb (map ascii_lower (render ds ++ rest)) (u "infinity")) = false
  /\ str_eqb (map ascii_lower (render ds ++ rest)) (u "nan") = false.
Proof.
  intros [Hne Hd]. destruct ds as [|d ds]; [congruence|].
  inversion Hd as [|x xs Hx _]; subst.
  destruct (digit_char_facts Hx) as (_ & _ & _ & _ & _ & L & _).
  change (render (d :: ds) ++ rest)
    with (digit_char d :: (render ds ++ rest)).
  change (u "inf") with [105; 110; 102].
  change (u "infinity") with [105; 110; 102; 105; 110; 105; 116; 121].
  change (u "nan") with [110; 97; 110].
  cbn [map str_eqb]. rewrite L.
  rewrite (@digit_is_not d 105 Hx), (@digit_is_not d 110 Hx)
    by (cbn [In]; tauto).
  split; reflexivity.
Qed.

Lemma float_body_render (ids fds : list Z) :
  digits ids -> Forall (fun d => 0 <= d <= 9) fds ->
  float_body (render ids ++ u "." ++ render fds)
  = Some (decimal_value ids fds 0).
Proof.
  intros Hi Hf. unfold float_body.
  change (u ".") with [46].
  rewrite (@digitpart_render ids ([46] ++ render fds) Hi);
    [|cbn [app ends_run]; split; reflexivity].
  cbn [app]. change (46 =? 46) with true. cbv beta iota.
  destruct ids as [|i ids]; [destruct Hi; congruence|].
  destruct fds as [|f fds].
  - reflexivity.
  - assert (Hf' : digits (f :: fds)) by (split; [discriminate|exact Hf]).
    pose proof (@digitpart_render (f :: fds) [] Hf' I) as D.
    rewrite app_nil_r in D. rewrite D. reflexivity.
Qed.

Lemma float_body_render_int (ids : list Z) :
  digits ids -> float_body (render ids) = Some (decimal_value ids [] 0).
Proof.
  intros Hi. unfold float_body.
  pose proof (@digitpart_render ids [] Hi I) as D.
  rewrite app_nil_r in D. rewrite D.
  destruct ids as [|i ids]; [destruct Hi; congruence|]. reflexivity.
Qed.

Lemma to_ascii_point (fds : list Z) :
  Forall (fun d => 0 <= d <= 9) fds ->
  map to_ascii (u "." ++ render fds) = u "." ++ render fds.
Proof.
  intros H. rewrite map_app, (to_ascii_render H). reflexivity.
Qed.

Lemma parse_float_render (ids fds : list Z) :
  digits ids -> Forall (fun d => 0 <= d <= 9) fds ->
  parse_float (render ids ++ u "." ++ render fds)
  = Some (to_double false (decimal_value ids fds 0)).
Proof.
  intros Hi Hf. unfold parse_float.
  rewrite map_app, (to_ascii_render (proj2 Hi)), (to_ascii_point Hf).
  unfold strip_c. rewrite strip_by_clean.
  - rewrite (@sign_render ids _ Hi).
    destruct (@not_special ids (u "." ++ render fds) Hi) as [A B].
    rewrite A, B, (@float_body_render ids fds Hi Hf). reflexivity.
  - rewrite !clean_app, (proj2 (clean_render (proj2 Hi))),
      (proj2 (clean_render Hf)). reflexivity.
Qed.

Lemma parse_float_render_int (ids : list Z) :
  digits ids ->
  parse_float (render ids) = Some (to_double false (decimal_value ids [] 0)).
Proof.
  intros Hi. unfold parse_float.
  rewrite (to_ascii_render (proj2 Hi)).
  unfold strip_c.
  rewrite (@strip_by_clean c_space _ (proj2 (clean_render (proj2 Hi)))).
  pose proof (@sign_render ids [] Hi) as S. rewrite app_nil_r in S.
  rewrite S.
  pose proof (@not_special ids [] Hi) as N. rewrite app_nil_r in N.
  destruct N as [A B].
  rewrite A, B, (@float_body_render_int ids Hi). reflexivity.
Qed.

Lemma digits_value_from (ds : list Z) (acc : Z) :
  fold_left (fun a d => 10 * a + d) ds acc
  = acc * 10 ^ Z.of_nat (List.length ds) + digits_value ds.
Proof.
  unfold digits_value. revert acc.
  induction ds as [|d ds IH]; intros acc.
  - simpl. lia.
  - cbn [fold_left List.length]. rewrite IH, (IH (10 * 0 + d)).
    rewrite Nat2Z.inj_succ, Z.pow_succ_r by lia. ring.
Qed.

Lemma digits_value_app (a b : list Z) :
  digits_value (a ++ b)
  = digits_value a * 10 ^ Z.of_nat (List.length b) + digits_value b.
Proof.
  unfold digits_value at 1. rewrite fold_left_app.
  fold (digits_value a). apply digits_value_from.
Qed.

Lemma digits_value_bounds (ds : list Z) :
  Forall (fun d => 0 <= d <= 9) ds ->
  0 <= digits_value ds < 10 ^ Z.of_nat (List.length ds).
Proof.
  induction ds as [|d ds IH] using rev_ind; intros H.
  - cbn. lia.
  - apply Forall_app in H. destruct H as [H1 H2].
    inversion H2 as [|x xs Hx _]; subst.
    specialize (IH H1).
    rewrite digits_value_app, length_app. cbn [List.length digits_value fold_left].
    replace (Z.of_nat (List.length ds + 1)) with (Z.succ (Z.of_nat (List.length ds)))
      by lia.
    rewrite Z.pow_succ_r by lia. change (10 ^ Z.of_nat 1) with 10. lia.
Qed.

Lemma decimal_value_decimal (ids fds : list Z) :
  (decimal_value ids fds 0 == decimal ids fds)%Q.
Proof.
  unfold decimal_value, decimal.
  set (n := Z.of_nat (List.length fds)).
  assert (Hn : 0 <= n) by (unfold n; lia).
  rewrite digits_value_app. fold n.
  replace (0 - n) with (- n) by lia.
  rewrite Qpower_opp, <- (Zpower_Qpower 10 n Hn).
  rewrite inject_Z_plus, inject_Z_mult.
  assert (Hp : ~ (inject_Z (10 ^ n) == 0)%Q).
  { intros E. unfold Qeq in E. simpl in E.
    assert (0 < 10 ^ n) by (apply Z.pow_pos_nonneg; lia). lia. }
  field. exact Hp.
Qed.

(** *** Splitting and searching *)

Lemma contains_one (x : Z) (s : pystr) :
  contains [x] s = negb (no_code x s).
Proof.
  unfold no_code. induction s as [|c r IH]; [reflexivity|].
  cbn [contains prefix forallb]. rewrite IH, (Z.eqb_sym x c).
  destruct (c =? x); reflexivity.
Qed.

Lemma split_not_nil (x : Z) (s : pystr) : split x s <> [].
Proof.
  induction s as [|c r IH]; cbn [split]; [discriminate|].
  destruct (c =? x); [discriminate|].
  destruct (split x r); discriminate.
Qed.

Lemma split_no_sep (x : Z) (s : pystr) :
  no_code x s = true -> split x s = [s].
Proof.
  unfold no_code. induction s as [|c r IH]; cbn [forallb split];
    [reflexivity|].
  rewrite andb_true_iff, negb_true_iff. intros [A B].
  rewrite A, (IH B). reflexivity.
Qed.

Lemma split_at (x : Z) (a b : pystr) :
  no_code x a = true -> split x (a ++ x :: b) = a :: split x b.
Proof.
  unfold no_code. induction a as [|c r IH]; cbn [forallb app split].
  - intros _. rewrite Z.eqb_refl. reflexivity.
  - rewrite andb_true_iff, negb_true_iff. intros [A B].
    rewrite A, (IH B). reflexivity.
Qed.

Lemma split_two (x : Z) (s : pystr) :
  no_code x s = false -> exists a b rest, split x s = a :: b :: rest.
Proof.
  unfold no_code. induction s as [|c r IH]; cbn [forallb split];
    [discriminate|].
  destruct (c =? x) eqn:E; cbn [negb andb].
  - intros _. destruct (split x r) as [|h t] eqn:S.
    + exfalso. exact (split_not_nil _ _ S).
    + exists [], h, t. reflexivity.
  - intros H. destruct (IH H) as (a & b & rest & S). rewrite S.
    exists (c :: a), b, rest. reflexivity.
Qed.

Lemma no_code_app (x : Z) (a b : pystr) :
  no_code x (a ++ b) = no_code x a && no_code x b.
Proof. apply forallb_app. Qed.

Lemma no_code_render (x : Z) (ds : list Z) :
  In x [43; 45; 46; 58; 95; 105; 110; 76] ->
  Forall (fun d => 0 <= d <= 9) ds -> no_code x (render ds) = true.
Proof.
  intros Hx. unfold no_code, render.
  induction 1 as [|d ds Hd _ IH]; [reflexivity|].
  cbn [map forallb]. rewrite (digit_is_not Hd Hx), IH. reflexivity.
Qed.

Lemma remove_plus_render (ds : list Z) :
  Forall (fun d => 0 <= d <= 9) ds ->
  remove_char 43 (render ds) = render ds.
Proof.
  unfold render. induction 1 as [|d ds Hd _ IH]; [reflexivity|].
  cbn [map remove_char].
  rewrite (@digit_is_not d 43 Hd), IH by (cbn [In]; tauto). reflexivity.
Qed.

Lemma remove_char_app (x : Z) (a b : pystr) :
  remove_char x (a ++ b) = remove_char x a ++ remove_char x b.
Proof.
  induction a as [|c r IH]; [reflexivity|].
  cbn [app remove_char]. rewrite IH.
  destruct (c =? x); reflexivity.
Qed.

Lemma upper_app (a b : pystr) : upper (a ++ b) = upper a ++ upper b.
Proof. apply flat_map_app. Qed.

Lemma upper_render (ds : list Z) :
  Forall (fun d => 0 <= d <= 9) ds -> upper (render ds) = render ds.
Proof.
  unfold upper, render. induction 1 as [|d ds Hd _ IH]; [reflexivity|].
  destruct (digit_char_facts Hd) as (_ & _ & _ & _ & _ & _ & A & _).
  cbn [map flat_map]. rewrite A, IH. reflexivity.
Qed.

(** No rendered number has an ["L"] in it. *)
Lemma contains_lap_render (ds : list Z) (rest : pystr) :
  Forall (fun d => 0 <= d <= 9) ds ->
  contains (u "LAP") (render ds ++ rest) = contains (u "LAP") rest.
Proof.
  change (u "LAP") with [76; 65; 80]. unfold render.
  induction 1 as [|d ds Hd _ IH]; [reflexivity|].
  cbn [map app contains prefix]. rewrite IH.
  destruct (digit_char_facts Hd) as (_ & _ & _ & _ & _ & _ & _ & K).
  rewrite (proj2 (K 76 ltac:(cbn [In]; tauto))). reflexivity.
Qed.

Lemma words_from_render (ds : list Z) (rest : pystr) :
  Forall (fun d => 0 <= d <= 9) ds ->
  forall cur : pystr,
    words_from (Some cur) (render ds ++ 32 :: rest)
    = (cur ++ render ds) :: words_from None rest.
Proof.
  unfold render. induction 1 as [|d ds Hd _ IH]; intros cur.
  - cbn [map app words_from]. change (is_space 32) with true.
    cbv iota. rewrite app_nil_r. reflexivity.
  - destruct (digit_char_facts Hd) as (_ & _ & A & _).
    cbn [map app words_from]. rewrite A, IH, <- app_assoc. reflexivity.
Qed.

(** *** The lap-time parser *)

Lemma float_of_text_plain (s : pystr) :
  contains (u ":") s = false -> float_of_text (Some s) = parse_float s.
Proof.
  intros H. unfold float_of_text, py_float. rewrite H.
  destruct (parse_float s); reflexivity.
Qed.

Lemma float_of_text_parts (s a b : pystr) (rest : list pystr) :
  contains (u ":") s = true -> split (chr ":") s = a :: b :: rest ->
  float_of_text (Some s)
  = match parse_int a, parse_float b with
    | Some minutes, Some seconds =>
        match of_int (minutes * 60) with
        | Ok m60 => Some (fadd m60 seconds)
        | Raise _ => None
        end
    | _, _ => None
    end.
Proof.
  intros C H. unfold float_of_text. rewrite C, H.
  unfold index, py_int, py_float. cbn [nth_error rbind].
  destruct (parse_int a) as [m|]; [|reflexivity].
  destruct (parse_float b); cbn [rbind try_except]; [|reflexivity].
  destruct (of_int (m * 60)); reflexivity.
Qed.

Lemma float_of_text_colon (s : pystr) :
  contains (u ":") s = true ->
  exists a b rest,
    split (chr ":") s = a :: b :: rest
    /\ float_of_text (Some s)
       = match parse_int a, parse_float b with
         | Some minutes, Some seconds =>
             match of_int (minutes * 60) with
             | Ok m60 => Some (fadd m60 seconds)
             | Raise _ => None
             end
         | _, _ => None
         end.
Proof.
  intros C. pose proof C as C'.
  change (u ":") with [58] in C'. rewrite contains_one in C'.
  apply negb_true_iff in C'.
  destruct (split_two _ _ C') as (a & b & rest & S).
  exists a, b, rest. split; [exact S|].
  apply float_of_text_parts with (rest := rest); assumption.
Qed.

Lemma time_text_splits (M SS mmm : list Z) :
  Forall (fun d => 0 <= d <= 9) M -> Forall (fun d => 0 <= d <= 9) SS ->
  Forall (fun d => 0 <= d <= 9) mmm ->
  contains (u ":") (render M ++ u ":" ++ render SS ++ u "." ++ render mmm)
  = true
  /\ split (chr ":") (render M ++ u ":" ++ render SS ++ u "." ++ render mmm)
     = [render M; render SS ++ u "." ++ render mmm].
Proof.
  intros HM HS Hm.
  change (u ":") with [58]. change (u ".") with [46].
  change (chr ":") with 58.
  assert (N58 : In 58 [43; 45; 46; 58; 95; 105; 110; 76])
    by (cbn [In]; tauto).
  split.
  - rewrite contains_one, !no_code_app, (no_code_render N58 HM).
    reflexivity.
  - change (render M ++ [58] ++ render SS ++ [46] ++ render mmm)
      with (render M ++ 58 :: (render SS ++ [46] ++ render mmm)).
    rewrite split_at by exact (no_code_render N58 HM).
    rewrite split_no_sep; [reflexivity|].
    rewrite !no_code_app, (no_code_render N58 HS), (no_code_render N58 Hm).
    reflexivity.
Qed.

Lemma float_of_text_time (M SS mmm : list Z) :
  digits M -> digits SS -> Forall (fun d => 0 <= d <= 9) mmm ->
  float_of_text
    (Some (render M ++ u ":" ++ render SS ++ u "." ++ render mmm))
  = if int_max_str_digits <? Z.of_nat (List.length M) then None
    else match of_int (digits_value M * 60) with
         | Ok m60 =>
             Some (fadd m60 (to_double false (decimal_value SS mmm 0)))
         | Raise _ => None
         end.
Proof.
  intros HM HS Hm.
  destruct (time_text_splits (proj2 HM) (proj2 HS) Hm) as [C S].
  rewrite (@float_of_text_parts _ _ _ _ C S).
  rewrite (parse_int_render HM), (parse_float_render HS Hm).
  destruct (int_max_str_digits <? Z.of_nat (List.length M)); reflexivity.
Qed.

Lemma float_of_text_decimal (ids fds : list Z) :
  digits ids -> Forall (fun d => 0 <= d <= 9) fds ->
  float_of_text (Some (render ids ++ u "." ++ render fds))
  = Some (to_double false (decimal_value ids fds 0)).
Proof.
  intros Hi Hf. rewrite float_of_text_plain.
  - apply parse_float_render; assumption.
  - change (u ":") with [58]. change (u ".") with [46].
    assert (N58 : In 58 [43; 45; 46; 58; 95; 105; 110; 76])
      by (cbn [In]; tauto).
    rewrite contains_one, !no_code_app, (no_code_render N58 (proj2 Hi)),
      (no_code_render N58 Hf). reflexivity.
Qed.

Lemma decimal_nonneg (ids fds : list Z) :
  Forall (fun d => 0 <= d <= 9) ids -> Forall (fun d => 0 <= d <= 9) fds ->
  (0 <= decimal_value ids fds 0)%Q.
Proof.
  intros Hi Hf. unfold decimal_value.
  apply Qmult_le_0_compat.
  - change 0%Q with (inject_Z 0). rewrite <- Zle_Qle.
    apply digits_value_bounds. apply Forall_app. split; assumption.
  - apply Qlt_le_weak. apply Qpower_0_lt. reflexivity.
Qed.

(** The seconds of ["M:SS.mmm"], to within four units of float
    precision. *)
Lemma float_of_text_time_accuracy (M SS mmm : list Z) :
  int_digits M -> digits SS -> Forall (fun d => 0 <= d <= 9) mmm ->
  (inject_Z (digits_value M * 60) + decimal SS mmm < two_pow 1022)%Q ->
  exists r,
    float_of_text
      (Some (render M ++ u ":" ++ render SS ++ u "." ++ render mmm))
    = Some (Finite r)
    /\ (Qabs (r - (inject_Z (digits_value M * 60) + decimal SS mmm))
        <= (inject_Z (digits_value M * 60) + decimal SS mmm)
           * two_pow (-51) + two_pow (-1072))%Q.
Proof.
  intros [HM HL] HS Hm Hx.
  rewrite (float_of_text_time HM HS Hm).
  destruct (Z.ltb_spec int_max_str_digits (Z.of_nat (List.length M)));
    [lia|].
  rewrite <- (decimal_value_decimal SS mmm) in Hx.
  destruct (@int_plus_float_accuracy (digits_value M * 60)
              (decimal_value SS mmm 0)) as (a & r & Ea & Er & Err).
  - pose proof (digits_value_bounds (proj2 HM)). lia.
  - apply decimal_nonneg; [exact (proj2 HS)|exact Hm].
  - exact Hx.
  - exists r. rewrite Ea, Er. split; [reflexivity|].
    rewrite <- (decimal_value_decimal SS mmm). exact Err.
Qed.

(** A decimal number, to within half a unit of float precision. *)
Lemma decimal_accuracy (ids fds : list Z) :
  Forall (fun d => 0 <= d <= 9) ids -> Forall (fun d => 0 <= d <= 9) fds ->
  (decimal ids fds < two_pow 1023)%Q ->
  exists r,
    to_double false (decimal_value ids fds 0) = Finite r
    /\ (Qabs (r - decimal ids fds)
        <= decimal ids fds * two_pow (-53) + two_pow (-1075))%Q.
Proof.
  intros Hi Hf Hx. rewrite <- (decimal_value_decimal ids fds) in Hx.
  destruct (@to_double_error (decimal_value ids fds 0)
              (decimal_nonneg Hi Hf) Hx) as (r & Er & _ & Err).
  exists r. split; [exact Er|].
  rewrite <- (decimal_value_decimal ids fds). exact Err.
Qed.

(** *** The gap parser *)

Lemma gap_of_text_laps (N : list Z) (unit : pystr) :
  digits N ->
  contains (u "LAP") (upper (32 :: unit)) = true ->
  words_from None unit = [unit] ->
  gap_of_text (Some (u "+" ++ render N ++ 32 :: unit))
  = if int_max_str_digits <? Z.of_nat (List.length N) then None
    else Some (PyInt (digits_value N * one_lap_proxy)).
Proof.
  intros HN Hu Hw.
  change (u "+" ++ render N ++ 32 :: unit)
    with (43 :: (render N ++ 32 :: unit)).
  rewrite gap_of_text_unguarded by reflexivity.
  assert (C : contains (u "LAP") (upper (43 :: (render N ++ 32 :: unit)))
              = true).
  { change (upper (43 :: (render N ++ 32 :: unit)))
      with (43 :: upper (render N ++ 32 :: unit)).
    rewrite upper_app, (upper_render (proj2 HN)).
    change (contains (u "LAP") (43 :: (render N ++ upper (32 :: unit))))
      with (contains (u "LAP") (render N ++ upper (32 :: unit))).
    rewrite contains_lap_render by exact (proj2 HN). exact Hu. }
  assert (W : split_ws (43 :: (render N ++ 32 :: unit))
              = [43 :: render N; unit]).
  { unfold split_ws.
    change (words_from None (43 :: (render N ++ 32 :: unit)))
      with (words_from (Some [43]) (render N ++ 32 :: unit)).
    rewrite (@words_from_render N unit (proj2 HN)), Hw. reflexivity. }
  rewrite C, W.
  change (remove_char (chr "+") (43 :: render N))
    with (remove_char 43 (render N)).
  rewrite (remove_plus_render (proj2 HN)), (parse_int_render HN).
  destruct (int_max_str_digits <? Z.of_nat (List.length N)); reflexivity.
Qed.

Lemma gap_of_text_plus_decimal (ids fds : list Z) :
  digits ids -> Forall (fun d => 0 <= d <= 9) fds ->
  gap_of_text (Some (u "+" ++ render ids ++ u "." ++ render fds))
  = Some (PyFloat (to_double false (decimal_value ids fds 0))).
Proof.
  intros Hi Hf.
  change (u "+" ++ render ids ++ u "." ++ render fds)
    with (43 :: (render ids ++ 46 :: render fds)).
  rewrite gap_of_text_unguarded by reflexivity.
  assert (C : contains (u "LAP") (upper (43 :: (render ids ++ 46 :: render fds)))
              = false).
  { change (upper (43 :: (render ids ++ 46 :: render fds)))
      with (43 :: upper (render ids ++ 46 :: render fds)).
    rewrite upper_app, (upper_render (proj2 Hi)).
    change (upper (46 :: render fds)) with (46 :: upper (render fds)).
    rewrite (upper_render Hf).
    change (contains (u "LAP") (43 :: (render ids ++ 46 :: render fds)))
      with (contains (u "LAP") (render ids ++ 46 :: render fds)).
    rewrite contains_lap_render by exact (proj2 Hi).
    change (contains (u "LAP") (46 :: render fds))
      with (contains (u "LAP") (render fds)).
    rewrite <- (app_nil_r (render fds)).
    rewrite contains_lap_render by exact Hf. reflexivity. }
  rewrite C.
  change (remove_char (chr "+") (43 :: (render ids ++ 46 :: render fds)))
    with (remove_char 43 (render ids ++ 46 :: render fds)).
  rewrite remove_char_app, (remove_plus_render (proj2 Hi)).
  change (remove_char 43 (46 :: render fds))
    with (46 :: remove_char 43 (render fds)).
  rewrite (remove_plus_render Hf).
  change (render ids ++ 46 :: render fds)
    with (render ids ++ u "." ++ render fds).
  rewrite (parse_float_render Hi Hf). reflexivity.
Qed.

(** *** The string lemmas of the export file name *)

Lemma no_char_app (x : ascii) (a b : string) :
  no_char x (a ++ b)%string = no_char x a && no_char x b.
Proof.
  induction a as [|c r IH]; [reflexivity|].
  cbn [append no_char]. rewrite IH, andb_assoc. reflexivity.
Qed.

(** C8 as stated fails: the empty string matches none of the patterns,
    and the gap parser turns it into zero, not into an absent value. *)
Lemma empty_gap_is_zero_not_absent :
  matches_a_pattern [] = false
  /\ gap_of_text (Some []) = Some (PyFloat (Finite 0))
  /\ gap_of_text (Some []) <> None.
Proof. repeat split; try reflexivity. discriminate. Qed.

(** C8, amended. No input leads to an error. The lap-time parser turns
    ["M:SS.mmm"] into the float sum of [M*60] and the float nearest to
    [SS.mmm], which is [M*60 + SS.mmm] to within four units of float
    precision, and into nothing when [M] has more digits than [int] takes
    or [M*60] is too large for a float; it turns a decimal number into
    the float nearest to it, any text without colon into what [float]
    makes of it, and a text with a colon into that sum for the parts
    before and after the first colon, whatever follows a second colon. The gap parser turns ["+N LAP"] and ["+N LAPS"] into
    the integer [N] times the one-lap proxy of 100 (nothing when [N] has
    more digits than [int] takes), a missing or empty text and the token
    for no gap into zero, a text with [LAP] in its upper case into 100
    times what [int] makes of its first word without the plus signs, and
    any other text into what [float] makes of it without the plus signs.
    The result is absent exactly when a conversion the parser attempts
    fails, and for the lap-time parser when the text is missing. *)
Theorem numeric_parsers_convert_or_degrade :
  (forall M SS mmm : list Z,
      digits M -> digits SS -> Forall (fun d => 0 <= d <= 9) mmm ->
      float_of_text
        (Some (render M ++ u ":" ++ render SS ++ u "." ++ render mmm))
      = if int_max_str_digits <? Z.of_nat (List.length M) then None
        else match of_int (digits_value M * 60) with
             | Ok m60 =>
                 Some (fadd m60 (to_double false (decimal_value SS mmm 0)))
             | Raise _ => None
             end)
  /\ (forall M SS mmm : list Z,
        int_digits M -> digits SS -> Forall (fun d => 0 <= d <= 9) mmm ->
        (inject_Z (digits_value M * 60) + decimal SS mmm < two_pow 1022)%Q ->
        exists r,
          float_of_text
            (Some (render M ++ u ":" ++ render SS ++ u "." ++ render mmm))
          = Some (Finite r)
          /\ (Qabs (r - (inject_Z (digits_value M * 60) + decimal SS mmm))
              <= (inject_Z (digits_value M * 60) + decimal SS mmm)
                 * two_pow (-51) + two_pow (-1072))%Q)
  /\ (forall ids fds : list Z,
        digits ids -> Forall (fun d => 0 <= d <= 9) fds ->
        float_of_text (Some (render ids ++ u "." ++ render fds))
        = Some (to_double false (decimal_value ids fds 0))
        /\ (decimal_value ids fds 0 == decimal ids fds)%Q
        /\ ((decimal ids fds < two_pow 1023)%Q ->
            exists r,
              to_double false (decimal_value ids fds 0) = Finite r
              /\ (Qabs (r - decimal ids fds)
                  <= decimal ids fds * two_pow (-53) + two_pow (-1075))%Q))
  /\ (forall s : pystr,
        contains (u ":") s = false -> float_of_text (Some s) = parse_float s)
  /\ (forall s : pystr,
        contains (u ":") s = true ->
        exists a b rest,
          split (chr ":") s = a :: b :: rest
          /\ float_of_text (Some s)
             = match parse_int a, parse_float b with
               | Some minutes, Some seconds =>
                   match of_int (minutes * 60) with
                   | Ok m60 => Some (fadd m60 seconds)
                   | Raise _ => None
                   end
               | _, _ => None
               end)
  /\ (forall s : pystr,
        float_of_text (Some s) = None <-> lap_time_unparsable s = true)
  /\ float_of_text None = None
  /\ (forall N : list Z,
        digits N ->
        gap_of_text (Some (u "+" ++ render N ++ u " LAP"))
        = (if int_max_str_digits <? Z.of_nat (List.length N) then None
           else Some (PyInt (digits_value N * one_lap_proxy)))
        /\ gap_of_text (Some (u "+" ++ render N ++ u " LAPS"))
           = (if int_max_str_digits <? Z.of_nat (List.length N) then None
              else Some (PyInt (digits_value N * one_lap_proxy))))
  /\ (forall ids fds : list Z,
        digits ids -> Forall (fun d => 0 <= d <= 9) fds ->
        gap_of_text (Some (u "+" ++ render ids ++ u "." ++ render fds))
        = Some (PyFloat (to_double false (decimal_value ids fds 0))))
  /\ (forall s : pystr,
        gap_guarded (Some s) = false ->
        gap_of_text (Some s)
        = if contains (u "LAP") (upper s) then
            match split_ws s with
            | w :: _ =>
                match parse_int (remove_char (chr "+") w) with
                | Some laps => Some (PyInt (laps * 100))
                | None => None
                end
            | [] => None
            end
          else match parse_float (remove_char (chr "+") s) with
               | Some f => Some (PyFloat f)
               | None => None
               end)
  /\ (forall text : option pystr,
        gap_guarded text = true ->
        gap_of_text text = Some (PyFloat (Finite 0)))
  /\ (forall s : pystr,
        gap_of_text (Some s) = None <->
        gap_guarded (Some s) = false /\ gap_unparsable s = true)
  /\ gap_guarded None = true
  /\ gap_guarded (Some []) = true
  /\ gap_guarded (Some no_gap_token) = true
  /\ one_lap_proxy = 100.
Proof.
  splits; try reflexivity.
  - exact float_of_text_time.
  - exact float_of_text_time_accuracy.
  - intros ids fds Hi Hf.
    split; [apply float_of_text_decimal; assumption|].
    split; [apply decimal_value_decimal|].
    apply decimal_accuracy; [exact (proj2 Hi)|exact Hf].
  - exact float_of_text_plain.
  - exact float_of_text_colon.
  - exact float_of_text_none_iff.
  - intros N HN. split; apply gap_of_text_laps; auto; reflexivity.
  - exact gap_of_text_plus_decimal.
  - exact gap_of_text_unguarded.
  - exact gap_guard.
  - exact gap_of_text_none_iff.
Qed.

Lemma numeric_parsers_convert_or_degrade_witness :
  (digits [1] /\ digits [2; 3] /\ Forall (fun d => 0 <= d <= 9) [4; 5; 6]
   /\ float_of_text (Some (u "1:23.456"))
      = Some (Finite (5872693914091127 # 70368744177664)))
  /\ (digits [2]
      /\ gap_of_text (Some (u "+2 LAPS")) = Some (PyInt 200))
  /\ (gap_guarded (Some (u "+1.5 LAPS")) = false
      /\ gap_unparsable (u "+1.5 LAPS") = true
      /\ gap_of_text (Some (u "+1.5 LAPS")) = None)
  /\ (lap_time_unparsable (u "1:23:4x") = false
      /\ float_of_text (Some (u "1:23:4x")) <> None).
Proof.
  assert (D1 : digits [1]) by (split; [discriminate|repeat constructor; lia]).
  assert (D2 : digits [2; 3])
    by (split; [discriminate|repeat constructor; lia]).
  assert (D3 : Forall (fun d => 0 <= d <= 9) [4; 5; 6])
    by (repeat constructor; lia).
  assert (D4 : digits [2]) by (split; [discriminate|repeat constructor; lia]).
  assert (G1 : gap_guarded (Some (u "+1.5 LAPS")) = false) by reflexivity.
  assert (G2 : gap_unparsable (u "+1.5 LAPS") = true)
    by (vm_compute; reflexivity).
  assert (L1 : lap_time_unparsable (u "1:23:4x") = false)
    by (vm_compute; reflexivity).
  pose proof numeric_parsers_convert_or_degrade
    as (T1 & _ & _ & _ & _ & T5 & _ & T7 & _ & _ & _ & T11 & _).
  splits; try assumption.
  - refine (eq_trans (T1 [1] [2; 3] [4; 5; 6] D1 D2 D3) _).
    vm_compute. reflexivity.
  - refine (eq_trans (proj2 (T7 [2] D4)) _). vm_compute. reflexivity.
  - exact (proj2 (T11 (u "+1.5 LAPS")) (conj G1 G2)).
  - intros E. apply (proj1 (T5 (u "1:23:4x"))) in E. congruence.
Defined.

(** The rendered inputs of the example are the texts one expects; the
    float of the example is the one Python prints as [83.456]. *)
Lemma rendered_examples :
  render [1] ++ u ":" ++ render [2; 3] ++ u "." ++ render [4; 5; 6]
  = u "1:23.456"
  /\ u "+" ++ render [2] ++ u " LAPS" = u "+2 LAPS"
  /\ round_double (83456 # 1000)
     = Finite (5872693914091127 # 70368744177664).
Proof. splits; vm_compute; reflexivity. Qed.

(** A text with more than one colon is not of the form ["M:SS.mmm"], yet
    the lap-time parser reads its first two parts and drops the rest. *)
Lemma extra_colon_parts_are_dropped :
  matches_a_pattern (u "1:23:45.678") = false
  /\ float_of_text (Some (u "1:23:45.678")) = Some (Finite (inject_Z 83)).
Proof. split; vm_compute; reflexivity. Qed.

(** The limits of the conversions: [int] takes at most 4300 digits, a
    float has a largest value, and white space around a number may be any
    Unicode white space. *)
Lemma conversion_limits :
  parse_int (render (repeat 1 4300)) <> None
  /\ parse_int (render (repeat 1 4301)) = None
  /\ parse_float (u "1e400") = Some (Inf false)
  /\ parse_float (u "1e-400") = Some (Finite 0)
  /\ parse_float (u "-1e-400") = Some NegZero
  /\ float_of_text (Some (render (1 :: repeat 0 400) ++ u ":0")) = None
  /\ parse_int ([160] ++ u "5" ++ [160]) = Some 5
  /\ parse_int [1637] = Some 5
  /\ parse_int ([28] ++ u "5") = None
  /\ strip ([28] ++ u "5") = u "5".
Proof.
  splits; try (vm_compute; reflexivity).
  vm_compute. discriminate.
Qed.

End Parsers.

(* ===================================================================== *)
(** ** The schedule queries *)
(* ===================================================================== *)

Section ScheduleQueries.
Import Schedule Monitor Spec.
Local Open Scope list_scope.

(** X1. [get_next_race] returns the earliest event that lies strictly
    ahead: an event of the schedule, after [now], and no later than any
    other event after [now]; it returns nothing exactly when no event of
    the schedule lies after [now]. *)
Theorem next_race_is_earliest_upcoming
    (schedule : list race_info) (now : datetime) :
  match next_race_in schedule now with
  | Some r =>
      In r schedule /\ now < date r
      /\ forall r', In r' schedule -> now < date r' -> date r <= date r'
  | None => forall r', In r' schedule -> date r' <= now
  end.
Proof.
  unfold next_race_in, upcoming_in.
  destruct (filter (fun race => now <? date race) schedule) as [|a t] eqn:E.
  - intros r' Hin. destruct (Z.ltb_spec now (date r')) as [H|H]; [|exact H].
    assert (K : In r' (filter (fun race => now <? date race) schedule)).
    { apply filter_In. split; [exact Hin|]. apply Z.ltb_lt. exact H. }
    rewrite E in K. destruct K.
  - pose proof (min_by_date_in t a) as K. rewrite <- E in K.
    apply filter_In in K. destruct K as [K1 K2]. apply Z.ltb_lt in K2.
    split; [exact K1|]. split; [exact K2|].
    intros r' Hin Hr'. apply min_by_date_le. rewrite <- E.
    apply filter_In. split; [exact Hin|]. apply Z.ltb_lt. exact Hr'.
Qed.

Lemma next_race_is_earliest_upcoming_witness :
  In le_mans all_races /\ le_mans_pre_roll < date le_mans
  /\ forall r', In r' all_races -> le_mans_pre_roll < date r' ->
                date le_mans <= date r'.
Proof.
  exact (next_race_is_earliest_upcoming all_races le_mans_pre_roll).
Defined.

(** *** The sorted list of upcoming races *)

Lemma insert_by_date_perm (x : race_info) (l : list race_info) :
  Permutation (x :: l) (insert_by_date x l).
Proof.
  induction l as [|y t IH]; cbn [insert_by_date]; [apply Permutation_refl|].
  destruct (date y <? date x); [|apply Permutation_refl].
  apply perm_trans with (y :: x :: t); [apply perm_swap|].
  apply perm_skip. exact IH.
Qed.

Lemma sort_by_date_perm (l : list race_info) :
  Permutation l (sort_by_date l).
Proof.
  induction l as [|x t IH]; cbn [sort_by_date]; [apply perm_nil|].
  apply perm_trans with (x :: sort_by_date t);
    [apply perm_skip; exact IH | apply insert_by_date_perm].
Qed.

Lemma insert_by_date_sorted (x : race_info) (l : list race_info) :
  Sorted by_date l -> Sorted by_date (insert_by_date x l).
Proof.
  induction 1 as [|y t Hs IH Hhd]; cbn [insert_by_date].
  - repeat constructor.
  - destruct (Z.ltb_spec (date y) (date x)) as [H|H].
    + constructor; [exact IH|].
      destruct t as [|z t']; cbn [insert_by_date].
      * constructor. unfold by_date. lia.
      * inversion Hhd; subst.
        destruct (date z <? date x); constructor; unfold by_date in *; lia.
    + constructor; [constructor; assumption|].
      constructor. unfold by_date. lia.
Qed.

Lemma sort_by_date_sorted (l : list race_info) :
  Sorted by_date (sort_by_date l).
Proof.
  induction l as [|x t IH]; cbn [sort_by_date]; [constructor|].
  apply insert_by_date_sorted. exact IH.
Qed.

Lemma firstn_sorted (n : nat) (l : list race_info) :
  Sorted by_date l -> Sorted by_date (firstn n l).
Proof.
  revert l. induction n as [|n IH]; intros l Hs; [constructor|].
  destruct l as [|x t]; [constructor|]. cbn [firstn].
  inversion Hs as [|? ? Hs' Hhd]; subst. constructor; [apply IH; exact Hs'|].
  destruct t as [|y t']; [destruct n; constructor|].
  destruct n; cbn [firstn]; [constructor|].
  inversion Hhd; subst. constructor. assumption.
Qed.

Lemma slice_to_firstn {A} (l : list A) (limit : Z) :
  exists n, slice_to l limit = firstn n l
            /\ (0 <= limit -> n = Z.to_nat limit).
Proof.
  unfold slice_to. destruct (Z.ltb_spec limit 0).
  - eexists. split; [reflexivity|lia].
  - eexists. split; [reflexivity|reflexivity].
Qed.

Lemma in_firstn {A} (n : nat) (l : list A) (x : A) :
  In x (firstn n l) -> In x l.
Proof.
  revert l. induction n as [|n IH]; intros [|y t] H; cbn [firstn] in *;
    try contradiction.
  destruct H as [H|H]; [left; exact H | right; apply IH; exact H].
Qed.

(** X2. [get_upcoming_races(limit)] lists events of the schedule that lie
    strictly after [now], in ascending order of their date; with a limit
    that is not negative it has [min(limit, number of upcoming events)]
    entries. *)
Theorem upcoming_races_sorted_and_bounded
    (schedule : list race_info) (now : datetime) (limit : Z) :
  Sorted by_date (upcoming_races_in schedule now limit)
  /\ (forall r, In r (upcoming_races_in schedule now limit) ->
                In r schedule /\ now < date r)
  /\ (0 <= limit ->
      List.length (upcoming_races_in schedule now limit)
      = Nat.min (Z.to_nat limit) (List.length (upcoming_in schedule now))).
Proof.
  unfold upcoming_races_in.
  destruct (slice_to_firstn (sort_by_date (upcoming_in schedule now)) limit)
    as (n & E & Hn).
  rewrite E. split; [|split].
  - apply firstn_sorted. apply sort_by_date_sorted.
  - intros r Hin. apply in_firstn in Hin.
    apply (Permutation_in r (Permutation_sym (sort_by_date_perm _))) in Hin.
    unfold upcoming_in in Hin. apply filter_In in Hin.
    destruct Hin as [A B]. apply Z.ltb_lt in B. auto.
  - intros Hl. rewrite (Hn Hl), length_firstn.
    rewrite <- (Permutation_length (sort_by_date_perm _)). reflexivity.
Qed.

Lemma upcoming_races_sorted_and_bounded_witness :
  0 <= 3
  /\ List.length (upcoming_races_in all_races (mk_datetime 2025 3 14 18 0) 3)
     = Nat.min (Z.to_nat 3)
         (List.length (upcoming_in all_races (mk_datetime 2025 3 14 18 0))).
Proof.
  assert (H : 0 <= 3) by lia.
  split; [exact H|].
  exact (proj2 (proj2 (upcoming_races_sorted_and_bounded all_races
                         (mk_datetime 2025 3 14 18 0) 3)) H).
Defined.

Lemma first_min_le (l : list race_info) :
  forall a, date (first_min a l) <= date a.
Proof.
  induction l as [|b t IH]; intros a; cbn [first_min]; [lia|].
  destruct (Z.ltb_spec (date (first_min b t)) (date a)); lia.
Qed.

Lemma first_min_tail (t : list race_info) (a b : race_info) :
  date a <= date b ->
  first_min a (b :: t) = first_min a t.
Proof.
  intros Hab. cbn [first_min]. destruct t as [|c t'].
  - cbn [first_min]. destruct (Z.ltb_spec (date b) (date a)); [lia|reflexivity].
  - cbn [first_min].
    destruct (Z.ltb_spec (date (first_min c t')) (date b)) as [H1|H1];
      [reflexivity|].
    destruct (Z.ltb_spec (date b) (date a)) as [H2|H2]; [lia|].
    destruct (Z.ltb_spec (date (first_min c t')) (date a)) as [H3|H3];
      [lia|reflexivity].
Qed.

Lemma min_by_date_first_min (t : list race_info) :
  forall a, min_by_date a t = first_min a t.
Proof.
  induction t as [|b t IH]; intros a; [reflexivity|].
  cbn [min_by_date]. rewrite IH.
  destruct (Z.ltb_spec (date b) (date a)) as [H|H].
  - cbn [first_min]. pose proof (first_min_le t b).
    destruct (Z.ltb_spec (date (first_min b t)) (date a)); [reflexivity|lia].
  - symmetry. apply first_min_tail. exact H.
Qed.

Lemma sort_by_date_head (t : list race_info) :
  forall a, hd_error (sort_by_date (a :: t)) = Some (first_min a t).
Proof.
  induction t as [|b t IH]; intros a; [reflexivity|].
  change (sort_by_date (a :: b :: t))
    with (insert_by_date a (sort_by_date (b :: t))).
  specialize (IH b).
  destruct (sort_by_date (b :: t)) as [|h rest]; [discriminate|].
  cbn [hd_error] in IH. inversion IH as [Hh]. cbn [insert_by_date first_min].
  destruct (date (first_min b t) <? date a); reflexivity.
Qed.

(** X3. The first entry of [get_upcoming_races(limit)], for a limit of at
    least one, is the event [get_next_race()] returns, and the list is
    empty exactly when [get_next_race()] returns nothing. *)
Theorem upcoming_head_is_next_race
    (schedule : list race_info) (now : datetime) (limit : Z) :
  1 <= limit ->
  hd_error (upcoming_races_in schedule now limit)
  = next_race_in schedule now.
Proof.
  intros Hl. unfold upcoming_races_in, next_race_in, slice_to.
  destruct (Z.ltb_spec limit 0); [lia|].
  destruct (upcoming_in schedule now) as [|a t]; [destruct (Z.to_nat limit); reflexivity|].
  rewrite min_by_date_first_min, <- sort_by_date_head.
  destruct (Z.to_nat limit) as [|n] eqn:E; [lia|].
  destruct (sort_by_date (a :: t)); reflexivity.
Qed.

Lemma upcoming_head_is_next_race_witness :
  1 <= 5
  /\ hd_error (get_upcoming_races (mk_datetime 2025 3 14 18 0) 5)
     = get_next_race (mk_datetime 2025 3 14 18 0).
Proof.
  assert (H : 1 <= 5) by lia.
  split; [exact H|].
  exact (@upcoming_head_is_next_race all_races (mk_datetime 2025 3 14 18 0)
           5 H).
Defined.

(** X4. The event [get_next_race()] returns is never live by
    [is_race_live] read at the same instant, whatever the tolerance; read
    at a later instant it is live only if the start fell between the two
    readings. For the monitor's own window, the next event is live exactly
    when its start is at most thirty minutes ahead. *)
Theorem next_race_liveness
    (schedule : list race_info) (now : datetime) (r : race_info) :
  next_race_in schedule now = Some r ->
  (forall tolerance_hours, is_race_live now r tolerance_hours = false)
  /\ (forall later tolerance_hours,
        is_race_live later r tolerance_hours = true ->
        now < date r <= later)
  /\ (is_live now (date r) = true <->
      date r - now <= pre_roll * usec_per_minute).
Proof.
  intros Hn. destruct (next_race_in_schedule _ _ Hn) as [_ Hd].
  assert (G : forall t h, is_race_live t r h = true -> date r <= t).
  { intros t h H. unfold is_race_live in H. apply andb_true_iff in H.
    destruct H as [H _]. apply Qle_bool_iff in H.
    unfold total_seconds, Qle, Qdiv, Qmult, Qinv, inject_Z in H.
    simpl in H. lia. }
  split; [|split].
  - intros h. destruct (is_race_live now r h) eqn:E; [|reflexivity].
    apply G in E. lia.
  - intros later h H. apply G in H. lia.
  - rewrite is_live_iff. unfold pre_roll, max_duration, usec_per_minute. lia.
Qed.

Lemma next_race_liveness_witness :
  next_race_in all_races le_mans_pre_roll = Some le_mans
  /\ is_race_live le_mans_pre_roll le_mans 12 = false
  /\ is_live le_mans_pre_roll (date le_mans) = true.
Proof.
  assert (H : next_race_in all_races le_mans_pre_roll = Some le_mans)
    by reflexivity.
  destruct (@next_race_liveness all_races le_mans_pre_roll le_mans H)
    as (A & _ & C).
  split; [exact H|]. split; [exact (A 12)|].
  apply C. unfold pre_roll, usec_per_minute. vm_compute. discriminate.
Defined.

End ScheduleQueries.

Section Countdown.
Import Schedule Monitor Spec.
Local Open Scope list_scope.

(** X5. For a race that has not started, the days, hours and minutes of
    [get_time_until_race] are the decomposition of the remaining whole
    minutes (hours below 24, minutes below 60). For a race whose start has
    passed, the day count is negative, so the days are never printed and
    the text shows the hours and minutes of the wrapped difference. *)
Theorem countdown_decomposes (now : datetime) (race : race_info) :
  (now <= date race ->
   0 <= fst (fst (countdown_parts now race))
   /\ 0 <= snd (fst (countdown_parts now race)) < 24
   /\ 0 <= snd (countdown_parts now race) < 60
   /\ (fst (fst (countdown_parts now race)) * 24
       + snd (fst (countdown_parts now race))) * 60
      + snd (countdown_parts now race)
      = (date race - now) / usec_per_minute)
  /\ (date race < now ->
      fst (fst (countdown_parts now race)) < 0
      /\ 0 <= snd (fst (countdown_parts now race)) < 24
      /\ get_time_until_race now race
         = if 0 <? snd (fst (countdown_parts now race))
           then (str_of_int (snd (fst (countdown_parts now race))) ++ "h "
                 ++ str_of_int (snd (countdown_parts now race)) ++ "m")%string
           else (str_of_int (snd (countdown_parts now race)) ++ "m")%string).
Proof.
  unfold get_time_until_race, countdown_parts, delta_days, delta_seconds,
    usec_per_day, usec_per_minute.
  cbn [fst snd].
  set (delta := date race - now).
  split.
  - intros H. assert (0 <= delta) by (unfold delta; lia).
    repeat split; Z.div_mod_to_equations; lia.
  - intros H. assert (Hd : delta < 0) by (unfold delta; lia).
    assert (Hdays : delta / (86400 * 1000000) < 0)
      by (Z.div_mod_to_equations; lia).
    split; [exact Hdays|]. split; [Z.div_mod_to_equations; lia|].
    destruct (Z.ltb_spec 0 (delta / (86400 * 1000000))); [lia|reflexivity].
Qed.
Lemma countdown_decomposes_witness :
  le_mans_pre_roll <= date le_mans
  /\ countdown_parts le_mans_pre_roll le_mans = (0, 0, 15)
  /\ (fst (fst (countdown_parts le_mans_pre_roll le_mans)) * 24
      + snd (fst (countdown_parts le_mans_pre_roll le_mans))) * 60
     + snd (countdown_parts le_mans_pre_roll le_mans)
     = (date le_mans - le_mans_pre_roll) / usec_per_minute.
Proof.
  assert (H : le_mans_pre_roll <= date le_mans)
    by (vm_compute; discriminate).
  split; [exact H|]. split; [reflexivity|].
  exact (proj2 (proj2 (proj2 (proj1 (countdown_decomposes le_mans_pre_roll
                                       le_mans) H)))).
Defined.

End Countdown.

(* ===================================================================== *)
(** ** More on the ingestion loop and the scrapers *)
(* ===================================================================== *)

Section LoopMore.
Import PyStr Ingest Spec.
Local Open Scope list_scope.

Variable interval : Z.
Variable cb_raises : data -> bool.

Lemma ingest_stop_flag (m : DataIngestionManager) :
  is_running (fst (fst (stop_ingestion m))) = false.
Proof.
  unfold stop_ingestion. cbn [with_running scraper].
  destruct (scraper m) as [[s|s]|]; reflexivity.
Qed.

Lemma run_stopped (outcomes : list (result data)) :
  forall s : system,
    is_running (manager s) = false ->
    manager (run interval cb_raises s outcomes) = manager s
    /\ trace (run interval cb_raises s outcomes) = trace s
    /\ loops (run interval cb_raises s outcomes)
       = (loops s - List.length outcomes)%nat.
Proof.
  induction outcomes as [|o os IH]; intros s Hr.
  - cbn [run fold_left List.length]. repeat split. lia.
  - change (run interval cb_raises s (o :: os))
      with (run interval cb_raises (step interval cb_raises s o) os).
    assert (K : manager (step interval cb_raises s o) = manager s
                /\ trace (step interval cb_raises s o) = trace s
                /\ loops (step interval cb_raises s o) = pred (loops s)).
    { unfold step. destruct (loops s) as [|n] eqn:El.
      - repeat split. exact El.
      - rewrite Hr. repeat split. }
    destruct K as (K1 & K2 & K3).
    destruct (IH (step interval cb_raises s o)) as (A & B & C);
      [rewrite K1; exact Hr|].
    rewrite A, B, C, K1, K2, K3. repeat split. cbn [List.length]. lia.
Qed.

Lemma stop_flag_events (m : DataIngestionManager) :
  is_running (fst (fst (stop_ingestion m))) = false
  /\ fetches (snd (fst (stop_ingestion m))) = 0%nat
  /\ callbacks (snd (fst (stop_ingestion m))) = []
  /\ sleeps (snd (fst (stop_ingestion m))) = [].
Proof.
  unfold stop_ingestion. cbn [with_running scraper].
  destruct (scraper m) as [[s|s]|]; repeat split.
Qed.

(** Wherever an iteration is suspended, what is left of it has no fetch,
    at most one callback and at most one sleep. *)
Lemma rest_of_iteration (m : DataIngestionManager) (o : result data)
    (k : nat) :
  fst (suspend_at m k (snd (loop_body m interval o cb_raises)))
  ++ snd (suspend_at m k (snd (loop_body m interval o cb_raises)))
  = snd (loop_body m interval o cb_raises)
  /\ fetches (snd (suspend_at m k (snd (loop_body m interval o cb_raises))))
     = 0%nat
  /\ (List.length
        (callbacks
           (snd (suspend_at m k (snd (loop_body m interval o cb_raises)))))
      <= 1)%nat
  /\ (List.length
        (sleeps
           (snd (suspend_at m k (snd (loop_body m interval o cb_raises)))))
      <= 1)%nat.
Proof.
  unfold loop_body, loop_try.
  destruct (scraper m) as [sc|];
    [destruct o as [d|e];
     [destruct (has_cars d); [destruct (cb_raises d)|]|]|];
    cbn [snd app suspend_at suspends];
    destruct (String.eqb (series m) "WEC");
    destruct k as [|[|[|k]]];
    cbn [fst snd app fetches callbacks sleeps filter flat_map List.length];
    repeat split; lia.
Qed.

(** X6. A call of [stop_ingestion] that arrives while a fetch loop is
    inside an iteration clears the flag, whether it returns or raises;
    the loop then finishes that iteration, with no further fetch, at
    most one callback and at most one sleep after the call, and ends at
    its next test of the flag: no later turn fetches, calls back or
    sleeps, and every turn ends one loop. *)
Theorem loops_end_after_stop (s : system) (outcome : result data) (k : nat)
    (outcomes : list (result data)) :
  is_running (manager (fst (stop_during interval cb_raises s outcome k)))
  = false
  /\ (exists before stop_evs after,
        trace (fst (stop_during interval cb_raises s outcome k))
        = trace s ++ before ++ stop_evs ++ after
        /\ fetches after = 0%nat
        /\ (List.length (callbacks after) <= 1)%nat
        /\ (List.length (sleeps after) <= 1)%nat
        /\ fetches stop_evs = 0%nat
        /\ callbacks stop_evs = []
        /\ sleeps stop_evs = []
        /\ (loops s <> 0%nat -> is_running (manager s) = true ->
            before ++ after
            = snd (loop_body (manager s) interval outcome cb_raises)))
  /\ trace (run interval cb_raises
              (fst (stop_during interval cb_raises s outcome k)) outcomes)
     = trace (fst (stop_during interval cb_raises s outcome k))
  /\ manager (run interval cb_raises
                (fst (stop_during interval cb_raises s outcome k)) outcomes)
     = manager (fst (stop_during interval cb_raises s outcome k))
  /\ loops (run interval cb_raises
              (fst (stop_during interval cb_raises s outcome k)) outcomes)
     = (loops s - List.length outcomes)%nat.
Proof.
  assert (Plain :
            is_running (manager (fst (stop s))) = false
            /\ loops (fst (stop s)) = loops s
            /\ exists before stop_evs after,
                 trace (fst (stop s)) = trace s ++ before ++ stop_evs ++ after
                 /\ fetches after = 0%nat
                 /\ (List.length (callbacks after) <= 1)%nat
                 /\ (List.length (sleeps after) <= 1)%nat
                 /\ fetches stop_evs = 0%nat
                 /\ callbacks stop_evs = []
                 /\ sleeps stop_evs = []
                 /\ before = [] /\ after = []).
  { unfold stop.
    destruct (stop_flag_events (manager s)) as (A & B & C & D).
    destruct (stop_ingestion (manager s)) as [[m' evs] r].
    cbn [fst snd manager loops trace] in *.
    split; [exact A|]. split; [reflexivity|].
    exists [], evs, []. rewrite app_nil_r.
    repeat split; auto. }
  assert (K : is_running
                (manager (fst (stop_during interval cb_raises s outcome k)))
              = false
              /\ loops (fst (stop_during interval cb_raises s outcome k))
                 = loops s
              /\ exists before stop_evs after,
                   trace (fst (stop_during interval cb_raises s outcome k))
                   = trace s ++ before ++ stop_evs ++ after
                   /\ fetches after = 0%nat
                   /\ (List.length (callbacks after) <= 1)%nat
                   /\ (List.length (sleeps after) <= 1)%nat
                   /\ fetches stop_evs = 0%nat
                   /\ callbacks stop_evs = []
                   /\ sleeps stop_evs = []
                   /\ (loops s <> 0%nat -> is_running (manager s) = true ->
                       before ++ after
                       = snd (loop_body (manager s) interval outcome
                                cb_raises))).
  { unfold stop_during. destruct (loops s) as [|n] eqn:El.
    - destruct Plain as (A & B & before & stop_evs & after & T & P).
      split; [exact A|]. split; [exact B|].
      exists before, stop_evs, after. split; [exact T|].
      repeat (split; [tauto|]). intros X. congruence.
    - destruct (is_running (manager s)) eqn:Er.
      + pose proof (rest_of_iteration (manager s) outcome k)
          as (R1 & R2 & R3 & R4).
        destruct (loop_body (manager s) interval outcome cb_raises)
          as [m1 evs].
        cbn [snd] in *.
        destruct (suspend_at (manager s) k evs) as [before after].
        cbn [fst snd] in *.
        destruct (stop_flag_events m1) as (A & B & C & D).
        destruct (stop_ingestion m1) as [[m2 stop_evs] r].
        cbn [fst snd manager loops trace] in *.
        split; [exact A|]. split; [reflexivity|].
        exists before, stop_evs, after.
        repeat (split; [assumption || reflexivity|]). intros _ _. exact R1.
      + destruct Plain as (A & B & before & stop_evs & after & T & P).
        split; [exact A|]. split; [exact B|].
        exists before, stop_evs, after. split; [exact T|].
        repeat (split; [tauto|]). intros _ X. congruence. }
  destruct K as (F & L & E).
  destruct (run_stopped outcomes _ F) as (A & B & C).
  rewrite L in C. auto.
Qed.

Lemma loop_body_errors (m : DataIngestionManager) (o : result data) :
  scraper m <> None ->
  errors (snd (loop_body m interval o cb_raises))
  = if handled cb_raises o then 1%nat else 0%nat.
Proof.
  intros Hsc. unfold loop_body, loop_try, handled.
  destruct (scraper m) as [sc|]; [|congruence].
  destruct o as [d|e]; [|reflexivity].
  destruct (has_cars d); [destruct (cb_raises d)|]; reflexivity.
Qed.

Lemma run_errors (outcomes : list (result data)) :
  forall s : system,
    loops s = 1%nat -> is_running (manager s) = true ->
    scraper (manager s) <> None ->
    errors (trace (run interval cb_raises s outcomes))
    = (errors (trace s)
       + List.length (filter (handled cb_raises) outcomes))%nat.
Proof.
  induction outcomes as [|o os IH]; intros s Hl Hr Hsc.
  - cbn [run fold_left filter List.length]. lia.
  - pose proof (run_running interval cb_raises [o] s Hl Hr) as R1.
    cbn [run fold_left] in R1. destruct R1 as (A & B & _ & D & _).
    change (run interval cb_raises s (o :: os))
      with (run interval cb_raises (step interval cb_raises s o) os).
    rewrite IH; try assumption; [|tauto].
    assert (E : errors (trace (step interval cb_raises s o))
                = (errors (trace s)
                   + if handled cb_raises o then 1 else 0)%nat).
    { unfold step. rewrite Hl, Hr.
      pose proof (loop_body_errors (manager s) o Hsc) as K.
      destruct (loop_body (manager s) interval o cb_raises) as [m' evs].
      cbn [trace snd] in *. rewrite errors_app, K. reflexivity. }
    rewrite E. cbn [filter].
    destruct (handled cb_raises o); cbn [List.length]; lia.
Qed.

End LoopMore.

Section LoopMoreClaims.
Import PyStr Ingest Spec.
Local Open Scope list_scope.

Lemma loops_end_after_stop_witness :
  trace (fst (stop_during 10 (fun _ => false) (start (fresh (init "WEC")))
                (Ok sample_snapshot) 0))
  = [Log INFO "Starting data ingestion"; Fetch;
     Close; Log INFO "Stopped data ingestion";
     Callback sample_snapshot; Log INFO "Ingested data"; Sleep 10]
  /\ loops (run 10 (fun _ => false)
              (fst (stop_during 10 (fun _ => false)
                      (start (fresh (init "WEC"))) (Ok sample_snapshot) 0))
              [Ok sample_snapshot])
     = 0%nat.
Proof.
  split; [reflexivity|].
  exact (proj2 (proj2 (proj2 (proj2
           (loops_end_after_stop 10 (fun _ => false)
              (start (fresh (init "WEC"))) (Ok sample_snapshot) 0
              [Ok sample_snapshot]))))).
Defined.

(** X7. An exception of the callback does not leave the loop either: for
    a started manager with a bound scraper, the number of error records is
    the number of iterations in which the fetch or the callback raised,
    whatever the sequence of outcomes; the loop is still running
    afterwards. *)
Theorem handler_contains_all_exceptions
    (interval : Z) (cb_raises : data -> bool) (m : DataIngestionManager)
    (outcomes : list (result data)) :
  scraper m <> None ->
  errors (trace (run interval cb_raises (start (fresh m)) outcomes))
  = List.length (filter (handled cb_raises) outcomes)
  /\ loops (run interval cb_raises (start (fresh m)) outcomes) = 1%nat
  /\ is_running (manager (run interval cb_raises (start (fresh m)) outcomes))
     = true.
Proof.
  intros Hsc.
  pose proof (@run_errors interval cb_raises outcomes (start (fresh m))
                eq_refl eq_refl Hsc) as E.
  destruct (@run_from_start interval cb_raises m outcomes Hsc)
    as (A & B & _).
  split; [exact E|]. split; assumption.
Qed.

Lemma handler_contains_all_exceptions_witness :
  scraper (init "WEC") <> None
  /\ errors (trace (run 10 (fun _ => true) (start (fresh (init "WEC")))
                      [Ok sample_snapshot; Raise TimeoutError; Ok EmptyDict]))
     = 2%nat.
Proof.
  assert (H : scraper (init "WEC") <> None) by (vm_compute; discriminate).
  split; [exact H|].
  exact (proj1 (@handler_contains_all_exceptions 10 (fun _ => true)
                  (init "WEC")
                  [Ok sample_snapshot; Raise TimeoutError; Ok EmptyDict] H)).
Defined.

End LoopMoreClaims.

Section WecRestart.
Import PyStr Ingest Spec.
Local Open Scope list_scope.

Variable interval : Z.
Variable cb_raises : data -> bool.
Variable ts : string.

(** One turn of a running WEC loop: the session is open afterwards unless
    it was closed before, and a closed session delivers nothing. *)
Lemma wec_step (s : system) (net : http_outcome) (w : WECScraper) (n : nat) :
  loops s = S n -> is_running (manager s) = true ->
  scraper (manager s) = Some (WEC w) ->
  let s' := step interval cb_raises s
              (wec_fetch_outcome (manager s) net ts) in
  loops s' = S n
  /\ is_running (manager s') = true
  /\ (exists w', scraper (manager s') = Some (WEC w')
                 /\ session w'
                    = Some (match session w with
                            | Some st => st
                            | None => SessionOpen
                            end))
  /\ (session w = Some SessionClosed ->
      callbacks (trace s') = callbacks (trace s)).
Proof.
  intros Hl Hr Hsc. unfold step, wec_fetch_outcome. rewrite Hl, Hr, Hsc.
  unfold loop_body, loop_try. rewrite Hsc.
  cbn [scraper_after_fetch].
  set (d := fst (wec_fetch_live_data w net ts)).
  assert (Hclosed : session w = Some SessionClosed -> d = EmptyDict).
  { intros Hc. unfold d. apply fetch_closed_session. exact Hc. }
  assert (Hsess : session (init_session w)
                  = Some (match session w with
                          | Some st => st
                          | None => SessionOpen
                          end)).
  { unfold init_session. destruct (session w) as [st|] eqn:E;
      [exact E|reflexivity]. }
  destruct (has_cars d) eqn:Hc; [destruct (cb_raises d)|];
    cbn [loops manager trace with_scraper is_running scraper];
    (split; [reflexivity|]); (split; [exact Hr|]);
    (split; [eexists; split; [reflexivity|exact Hsess]|]);
    intros Hcl; rewrite (Hclosed Hcl) in Hc; try discriminate.
  rewrite callbacks_app. cbn [callbacks flat_map app].
  rewrite app_nil_r. reflexivity.
Qed.

Lemma wec_run_keeps (st : session_state) (nets : list http_outcome) :
  forall (s : system) (w : WECScraper) (n : nat),
    loops s = S n -> is_running (manager s) = true ->
    scraper (manager s) = Some (WEC w) -> session w = Some st ->
    let s' := wec_run interval cb_raises ts s nets in
    loops s' = S n
    /\ is_running (manager s') = true
    /\ (exists w', scraper (manager s') = Some (WEC w')
                   /\ session w' = Some st)
    /\ (st = SessionClosed -> callbacks (trace s') = callbacks (trace s)).
Proof.
  induction nets as [|net rest IH]; intros s w n Hl Hr Hsc Hs.
  - cbn [wec_run fold_left]. repeat split; eauto.
  - change (wec_run interval cb_raises ts s (net :: rest))
      with (wec_run interval cb_raises ts
              (step interval cb_raises s
                 (wec_fetch_outcome (manager s) net ts)) rest).
    destruct (@wec_step s net w n Hl Hr Hsc) as (A & B & (w' & C1 & C2) & D).
    rewrite Hs in C2, D.
    destruct (IH _ w' n A B C1 C2) as (A' & B' & C' & D').
    repeat split; try assumption.
    intros E. rewrite (D' E). apply D. subst st. reflexivity.
Qed.

(** X8. A WEC manager whose session has been used cannot be restarted:
    [close] leaves the closed session in place and [init_session] only
    creates a session when there is none, so after start, at least one
    fetch, stop and a second start, every fetch comes back empty and the
    callback is never called again, whatever the network answers. *)
Theorem wec_restart_delivers_nothing
    (net : http_outcome) (nets1 nets2 : list http_outcome) :
  snd (stop (wec_run interval cb_raises ts (start (fresh (init "WEC")))
               (net :: nets1))) = Ok tt
  /\ wec_session
       (manager (fst (stop (wec_run interval cb_raises ts
                              (start (fresh (init "WEC"))) (net :: nets1)))))
     = Some SessionClosed
  /\ is_running
       (manager
          (wec_run interval cb_raises ts
             (start (fst (stop (wec_run interval cb_raises ts
                                  (start (fresh (init "WEC")))
                                  (net :: nets1)))))
             nets2)) = true
  /\ callbacks
       (trace
          (wec_run interval cb_raises ts
             (start (fst (stop (wec_run interval cb_raises ts
                                  (start (fresh (init "WEC")))
                                  (net :: nets1)))))
             nets2))
     = callbacks
         (trace (wec_run interval cb_raises ts (start (fresh (init "WEC")))
                   (net :: nets1))).
Proof.
  set (s0 := start (fresh (init "WEC"))).
  change (wec_run interval cb_raises ts s0 (net :: nets1))
    with (wec_run interval cb_raises ts
            (step interval cb_raises s0
               (wec_fetch_outcome (manager s0) net ts)) nets1).
  destruct (@wec_step s0 net (mkWEC default_wec_url None) 0%nat
              eq_refl eq_refl eq_refl) as (A & B & (w1 & C1 & C2) & _).
  cbn [session] in C2.
  destruct (@wec_run_keeps SessionOpen nets1 _ w1 0%nat A B C1 C2)
    as (A' & B' & (w2 & C1' & C2') & _).
  set (s1 := wec_run interval cb_raises ts
               (step interval cb_raises s0
                  (wec_fetch_outcome (manager s0) net ts)) nets1) in *.
  assert (St : stop s1
               = ({| manager := with_scraper (with_running (manager s1) false)
                                  (Some (WEC (wec_close w2)));
                     loops := loops s1;
                     trace := trace s1 ++ [Close; Log INFO "Stopped data ingestion"] |},
                  Ok tt)).
  { unfold stop, stop_ingestion. cbn [with_running scraper]. rewrite C1'.
    reflexivity. }
  rewrite St. cbn [fst snd].
  assert (Hc : session (wec_close w2) = Some SessionClosed).
  { unfold wec_close. rewrite C2'. reflexivity. }
  split; [reflexivity|]. split; [exact Hc|].
  set (s2 := start _).
  assert (L2 : loops s2 = 2%nat) by (unfold s2, start; cbn [loops]; rewrite A'; reflexivity).
  destruct (@wec_run_keeps SessionClosed nets2 s2 (wec_close w2) 1%nat
              L2 eq_refl eq_refl Hc) as (_ & B2 & _ & D2).
  split; [exact B2|]. rewrite (D2 eq_refl).
  unfold s2, start. cbn [trace]. rewrite !callbacks_app.
  cbn [callbacks flat_map app]. rewrite !app_nil_r. reflexivity.
Qed.

End WecRestart.

Section ImsaAndFields.
Import PyStr Ingest Spec.
Local Open Scope list_scope.

(** X9. An IMSA fetch lets an exception out exactly when there is no
    driver yet and its creation fails; the scraper is then unchanged. In
    every other case the driver exists afterwards and the call returns:
    the empty result exactly when loading the page or waiting for the
    table fails, and otherwise a snapshot tagged IMSA with one record per
    timing row, or none when the rows cannot be selected. *)
Theorem imsa_fetch_outcomes (s : IMSAScraper) (o : imsa_outcome) (ts : string) :
  (raises (fst (imsa_fetch_live_data s o ts)) = true <->
   driver s = false /\ raises (driver_creation o) = true)
  /\ (raises (fst (imsa_fetch_live_data s o ts)) = true ->
      snd (imsa_fetch_live_data s o ts) = s)
  /\ (raises (fst (imsa_fetch_live_data s o ts)) = false ->
      driver (snd (imsa_fetch_live_data s o ts)) = true
      /\ (fst (imsa_fetch_live_data s o ts) = Ok ImsaEmptyDict <->
          raises (page o) = true)
      /\ (forall html rows,
            page o = Ok html -> select_rows html = Ok rows ->
            fst (imsa_fetch_live_data s o ts)
            = Ok (ImsaSnapshot "IMSA" ts (map imsa_parse_row rows)))
      /\ (forall html e,
            page o = Ok html -> select_rows html = Raise e ->
            fst (imsa_fetch_live_data s o ts)
            = Ok (ImsaSnapshot "IMSA" ts []))).
Proof.
  unfold imsa_fetch_live_data.
  destruct s as [u [|]]; destruct o as [[[]|e] pg]; cbn [driver driver_creation page raises fst snd];
    (split; [split; [intros H; try discriminate; auto | intros [H1 H2]; try discriminate; auto]|]);
    (split; [intros H; try discriminate; auto|]);
    intros H; try discriminate;
    (split; [reflexivity|]);
    (split; [destruct pg as [html|e']; cbn [rbind try_except raises _parse_imsa_html];
             split; intros K; try discriminate; reflexivity|]);
    (split; intros html rows Hp Hs; subst pg; cbn [rbind try_except];
       unfold _parse_imsa_html; rewrite Hs; reflexivity).
Qed.

Lemma imsa_fetch_outcomes_witness :
  raises (fst (imsa_fetch_live_data
                 (mkIMSA "https://www.imsa.com/scoring/" false)
                 (mkImsaOutcome (Raise (OtherException "no browser"))
                                (Raise TimeoutError))
                 "2025-01-25T13:40:00")) = true
  /\ snd (imsa_fetch_live_data
            (mkIMSA "https://www.imsa.com/scoring/" false)
            (mkImsaOutcome (Raise (OtherException "no browser"))
                           (Raise TimeoutError))
            "2025-01-25T13:40:00")
     = mkIMSA "https://www.imsa.com/scoring/" false.
Proof.
  assert (H : raises (fst (imsa_fetch_live_data
                 (mkIMSA "https://www.imsa.com/scoring/" false)
                 (mkImsaOutcome (Raise (OtherException "no browser"))
                                (Raise TimeoutError))
                 "2025-01-25T13:40:00")) = true) by reflexivity.
  split; [exact H|].
  exact (proj1 (proj2 (imsa_fetch_outcomes
                         (mkIMSA "https://www.imsa.com/scoring/" false)
                         (mkImsaOutcome (Raise (OtherException "no browser"))
                                        (Raise TimeoutError))
                         "2025-01-25T13:40:00")) H).
Defined.

Lemma render_not_empty (ds : list Z) :
  digits ds -> is_empty (render ds) = false.
Proof. intros [H _]. destruct ds; [congruence|reflexivity]. Qed.

Lemma parse_int_negative (ds : list Z) :
  digits ds ->
  parse_int (u "-" ++ render ds)
  = if int_max_str_digits <? Z.of_nat (List.length ds) then None
    else Some (- digits_value ds).
Proof.
  intros H. unfold parse_int.
  change (u "-" ++ render ds) with (45 :: render ds).
  change (map to_ascii (45 :: render ds))
    with (45 :: map to_ascii (render ds)).
  rewrite (to_ascii_render (proj2 H)).
  unfold strip_c. rewrite strip_by_clean.
  - change (sign (45 :: render ds)) with (true, render ds).
    cbv beta iota.
    pose proof (@digitpart_render ds [] H I) as D.
    rewrite app_nil_r in D. rewrite D. reflexivity.
  - change (clean c_space (45 :: render ds))
      with (clean c_space (render ds)).
    exact (proj2 (clean_render (proj2 H))).
Qed.

Lemma int_of_text_is_int (s : pystr) : int_of_text (Some s) = parse_int s.
Proof.
  unfold int_of_text, py_int. destruct s as [|c r]; [reflexivity|].
  cbn [is_empty]. destruct (parse_int (c :: r)); reflexivity.
Qed.

(** X10. The integer fields (position, laps) hold what [int] makes of
    the text: a text of at most 4300 digits converts to its value, also
    with a minus sign in front; a text of more digits, a missing or empty
    text and any other text [int] rejects give an absent value, never
    zero and never an error. *)
Theorem int_field_conversion :
  (forall ds : list Z,
      digits ds ->
      int_of_text (Some (render ds))
      = (if int_max_str_digits <? Z.of_nat (List.length ds) then None
         else Some (digits_value ds))
      /\ int_of_text (Some (u "-" ++ render ds))
         = (if int_max_str_digits <? Z.of_nat (List.length ds) then None
            else Some (- digits_value ds)))
  /\ int_of_text None = None
  /\ int_of_text (Some []) = None
  /\ (forall s : pystr, int_of_text (Some s) = parse_int s)
  /\ (forall (el : element) (selector : string) (text : pystr),
        select_one el selector = Ok (Some text) ->
        _safe_extract_int el selector = parse_int (strip text)).
Proof.
  splits; try reflexivity.
  - intros ds H. rewrite !int_of_text_is_int. split.
    + apply parse_int_render. exact H.
    + apply parse_int_negative. exact H.
  - exact int_of_text_is_int.
  - intros el selector text H. unfold _safe_extract_int, _safe_extract.
    rewrite H. cbn [rbind try_except]. apply int_of_text_is_int.
Qed.

Lemma int_field_conversion_witness :
  digits [4; 2]
  /\ int_of_text (Some (u "42")) = Some 42
  /\ select_one partial_row ".laps" = Ok (Some ([160] ++ u "5" ++ [160]))
  /\ _safe_extract_int partial_row ".laps" = Some 5.
Proof.
  assert (D : digits [4; 2])
    by (split; [discriminate|repeat constructor; lia]).
  assert (S : select_one partial_row ".laps"
              = Ok (Some ([160] ++ u "5" ++ [160]))) by reflexivity.
  pose proof int_field_conversion as (T1 & _ & _ & _ & T5).
  splits; try assumption.
  - refine (eq_trans (proj1 (T1 [4; 2] D)) _). vm_compute. reflexivity.
  - refine (eq_trans (T5 partial_row ".laps"%string _ S) _).
    vm_compute. reflexivity.
Defined.

Lemma rstrip_idempotent (space : Z -> bool) (s : pystr) :
  rstrip_by space (rstrip_by space s) = rstrip_by space s.
Proof.
  induction s as [|c r IH]; [reflexivity|].
  cbn [rstrip_by].
  destruct (space c && is_empty (rstrip_by space r)) eqn:E; [reflexivity|].
  cbn [rstrip_by]. rewrite IH, E. reflexivity.
Qed.

Lemma lstrip_head (space : Z -> bool) (s : pystr) :
  match lstrip_by space s with
  | [] => True
  | c :: _ => space c = false
  end.
Proof.
  induction s as [|c r IH]; [exact I|].
  cbn [lstrip_by]. destruct (space c) eqn:E; [exact IH|exact E].
Qed.

Lemma lstrip_rstrip_head (space : Z -> bool) (s : pystr) :
  match s with
  | [] => True
  | c :: _ => space c = false
  end ->
  lstrip_by space (rstrip_by space s) = rstrip_by space s.
Proof.
  destruct s as [|c r]; [reflexivity|]. intros H.
  cbn [rstrip_by]. rewrite H. cbn [andb lstrip_by]. rewrite H. reflexivity.
Qed.

Lemma strip_idempotent (s : pystr) : strip (strip s) = strip s.
Proof.
  unfold strip.
  rewrite (lstrip_rstrip_head is_space _ (lstrip_head is_space s)).
  apply rstrip_idempotent.
Qed.

(** X11. A text [_safe_extract] returns is trimmed: stripping it again
    changes nothing; and it returns nothing exactly when [select_one]
    raises or finds no element. *)
Theorem extracted_text_is_trimmed (el : element) (selector : string) :
  (forall t, _safe_extract el selector = Some t -> strip t = t)
  /\ (_safe_extract el selector = None <->
      extraction_fails el selector = true).
Proof.
  unfold _safe_extract, extraction_fails.
  destruct (select_one el selector) as [[text|]|e];
    cbn [rbind try_except]; split;
    try (intros t H; inversion H; apply strip_idempotent);
    try (intros t H; discriminate);
    split; intros H; try discriminate; reflexivity.
Qed.

Lemma extracted_text_is_trimmed_witness :
  _safe_extract partial_row ".car-number" = Some (u "51")
  /\ strip (u "51") = u "51".
Proof.
  assert (H : _safe_extract partial_row ".car-number" = Some (u "51"))
    by reflexivity.
  split; [exact H|].
  exact (proj1 (extracted_text_is_trimmed partial_row ".car-number")
           (u "51") H).
Defined.

End ImsaAndFields.

(* ===================================================================== *)
(** ** More on the monitor *)
(* ===================================================================== *)

Section MonitorMore.
Import Schedule Database Monitor Spec.
Local Open Scope list_scope.

(** What a poll does when the monitor holds no session. *)
Lemma check_in_unbound (schedule : list race_info) (e : env) (w : world) :
  ingestion_manager (monitor w) = None ->
  check_in schedule e w
  = (Ok tt,
     match next_race_in schedule (now_sched e) with
     | None => logged w [MLog Ingest.INFO "No upcoming races in schedule"]
     | Some r =>
         if is_live (now_check e) (date r) then
           mkWorld (monitor w) (heap w) (tasks w)
             (add_race (deactivate_all (races w)) r)
             (out w ++ [MLog Ingest.INFO "LIVE RACE DETECTED";
                        MLog Ingest.INFO "Created race entry in database";
                        MLog Ingest.ERROR "Failed to start ingestion"])
         else if Qlt_le_dec (time_diff (now_check e) (date r)) (inject_Z (-30))
              then logged w [MLog Ingest.INFO "Next race in some minutes"]
              else w
     end).
Proof.
  intros H. unfold check_in.
  destruct (next_race_in schedule (now_sched e)) as [r|].
  - destruct (is_live (now_check e) (date r)).
    + unfold bind, get_monitor, log, emit. cbv beta iota. rewrite H.
      rewrite start_ingestion_eq.
      rewrite stop_unbound_session by exact H.
      cbn [snd monitor heap tasks races out].
      rewrite <- app_assoc. reflexivity.
    + unfold bind, get_monitor, log, emit, ret. cbv beta iota. rewrite H.
      destruct (Qlt_le_dec _ _); [reflexivity|]. destruct w; reflexivity.
  - unfold bind, log, emit. cbv beta iota.
    rewrite stop_unbound_session by exact H. reflexivity.
Qed.

Lemma check_in_unbound_core (schedule : list race_info) (e : env) (w : world) :
  ingestion_manager (monitor w) = None ->
  fst (check_in schedule e w) = Ok tt
  /\ monitor (snd (check_in schedule e w)) = monitor w
  /\ heap (snd (check_in schedule e w)) = heap w
  /\ tasks (snd (check_in schedule e w)) = tasks w
  /\ exports (out (snd (check_in schedule e w))) = exports (out w)
  /\ races (snd (check_in schedule e w))
     = match next_race_in schedule (now_sched e) with
       | Some r => if is_live (now_check e) (date r)
                   then add_race (deactivate_all (races w)) r
                   else races w
       | None => races w
       end.
Proof.
  intros H. rewrite (check_in_unbound schedule e w H). cbn [fst snd].
  destruct (next_race_in schedule (now_sched e)) as [r|].
  - destruct (is_live (now_check e) (date r)).
    + cbn [monitor heap tasks races out]. splits; try reflexivity.
      unfold exports. rewrite flat_map_app. cbn [flat_map app].
      apply app_nil_r.
    + destruct (Qlt_le_dec _ _); cbn [logged monitor heap tasks races out];
        splits; try reflexivity.
      unfold exports. rewrite flat_map_app. cbn [flat_map app].
      apply app_nil_r.
  - cbn [logged monitor heap tasks races out]. splits; try reflexivity.
    unfold exports. rewrite flat_map_app. cbn [flat_map app].
    apply app_nil_r.
Qed.

(** X12. A monitor that holds no session never comes to hold one: after
    any sequence of polls the monitor object is unchanged, no manager and
    no fetch loop has been added, nothing has been exported, and the
    status query still reports no scraping. This covers the monitor as it
    is built. *)
Theorem monitor_never_holds_a_session (es : list env) (w : world) :
  ingestion_manager (monitor w) = None ->
  monitor (polls es w) = monitor w
  /\ heap (polls es w) = heap w
  /\ tasks (polls es w) = tasks w
  /\ exports (out (polls es w)) = exports (out w)
  /\ snd (fst (get_status (polls es w))) = false.
Proof.
  revert w. induction es as [|e rest IH]; intros w H.
  - cbn [polls fold_left]. splits; try reflexivity.
    unfold get_status. cbn [fst snd]. rewrite H. reflexivity.
  - change (polls (e :: rest) w)
      with (polls rest (snd (check_for_live_race e w))).
    destruct (check_in_unbound_core all_races e w H) as (_ & A & B & C & D & _).
    unfold check_for_live_race.
    destruct (IH (snd (check_in all_races e w))) as (A' & B' & C' & D' & E');
      [rewrite A; exact H|].
    rewrite A', B', C', D', A, B, C, D. splits; try reflexivity. exact E'.
Qed.

Lemma monitor_never_holds_a_session_witness :
  ingestion_manager (monitor initial_world) = None
  /\ monitor (polls [poll_at le_mans_pre_roll; poll_at (date le_mans)]
                initial_world) = new_monitor
  /\ tasks (polls [poll_at le_mans_pre_roll; poll_at (date le_mans)]
              initial_world) = [].
Proof.
  assert (H : ingestion_manager (monitor initial_world) = None)
    by reflexivity.
  destruct (@monitor_never_holds_a_session
              [poll_at le_mans_pre_roll; poll_at (date le_mans)]
              initial_world H) as (A & _ & C & _).
  split; [exact H|]. split; [exact A | exact C].
Defined.

(** X13. While no session is held, every poll that finds the next race
    live adds one more race record and leaves it the only active one: a
    sequence of such polls adds as many race records as there are polls. *)
Theorem live_polls_pile_up_records (es : list env) (w : world) :
  ingestion_manager (monitor w) = None ->
  Forall finds_live_race es ->
  List.length (races (polls es w))
  = (List.length (races w) + List.length es)%nat
  /\ (es <> [] -> active_count (races (polls es w)) = 1%nat).
Proof.
  intros H HF. revert w H.
  induction HF as [|e rest He HF IH]; intros w H.
  - cbn [polls fold_left List.length]. split; [lia|congruence].
  - change (polls (e :: rest) w)
      with (polls rest (snd (check_for_live_race e w))).
    destruct (check_in_unbound_core all_races e w H)
      as (_ & A & _ & _ & _ & R).
    destruct He as (r & Hr & Hl). unfold get_next_race in Hr.
    rewrite Hr, Hl in R. unfold check_for_live_race.
    destruct (IH (snd (check_in all_races e w))) as [L Ac];
      [rewrite A; exact H|].
    rewrite L, R. unfold add_race. rewrite length_app.
    unfold deactivate_all. rewrite length_map. cbn [List.length].
    split; [lia|]. intros _.
    destruct rest as [|e' rest'].
    + cbn [polls fold_left]. rewrite R. apply active_count_add.
    + apply Ac. discriminate.
Qed.

Lemma pre_roll_poll_finds_live_race :
  finds_live_race (poll_at le_mans_pre_roll).
Proof.
  exists le_mans. split; [reflexivity|]. vm_compute. reflexivity.
Qed.

Lemma live_polls_pile_up_records_witness :
  ingestion_manager (monitor initial_world) = None
  /\ Forall finds_live_race [poll_at le_mans_pre_roll; poll_at le_mans_pre_roll]
  /\ List.length
       (races (polls [poll_at le_mans_pre_roll; poll_at le_mans_pre_roll]
                 initial_world)) = 2%nat.
Proof.
  assert (H : ingestion_manager (monitor initial_world) = None)
    by reflexivity.
  assert (F : Forall finds_live_race
                [poll_at le_mans_pre_roll; poll_at le_mans_pre_roll])
    by (repeat constructor; exact pre_roll_poll_finds_live_race).
  split; [exact H|]. split; [exact F|].
  exact (proj1 (@live_polls_pile_up_records
                  [poll_at le_mans_pre_roll; poll_at le_mans_pre_roll]
                  initial_world H F)).
Defined.

End MonitorMore.

Section MonitorLoop.
Import Schedule Database Monitor Spec.
Local Open Scope list_scope.

Lemma stop_settings (e : env) (w : world) :
  is_running (monitor (snd (Monitor.stop_ingestion e w)))
  = is_running (monitor w)
  /\ check_interval (monitor (snd (Monitor.stop_ingestion e w)))
     = check_interval (monitor w).
Proof.
  destruct (ingestion_manager (monitor w)) as [l|] eqn:H1.
  - destruct (nth_error (heap w) l) as [m|] eqn:H2.
    + destruct (Ingest.stop_ingestion m) as [[m' evs] [[]|x]] eqn:H3.
      * destruct (first_active (races w)) as [race|] eqn:H4.
        -- rewrite (stop_with_record e w H1 H2 H3 H4). split; reflexivity.
        -- rewrite (stop_without_record e w H1 H2 H3 H4). split; reflexivity.
      * rewrite (stop_loop_fails e w H1 H2 H3). split; reflexivity.
    + rewrite (stop_dangling e w H1 H2). split; reflexivity.
  - rewrite (stop_unbound_session e w H1). split; reflexivity.
Qed.

Lemma start_settings (e : env) (info : race_info) (w : world) :
  fst (Monitor.start_ingestion e info w) = Ok tt
  /\ is_running (monitor (snd (Monitor.start_ingestion e info w)))
     = is_running (monitor w)
  /\ check_interval (monitor (snd (Monitor.start_ingestion e info w)))
     = check_interval (monitor w).
Proof.
  rewrite start_ingestion_eq. cbn [fst snd monitor].
  split; [reflexivity|]. apply stop_settings.
Qed.

Lemma check_in_settings (schedule : list race_info) (e : env) (w : world) :
  fst (check_in schedule e w) = Ok tt
  /\ is_running (monitor (snd (check_in schedule e w)))
     = is_running (monitor w)
  /\ check_interval (monitor (snd (check_in schedule e w)))
     = check_interval (monitor w).
Proof.
  unfold check_in.
  destruct (next_race_in schedule (now_sched e)) as [r|].
  - destruct (is_live (now_check e) (date r)).
    + unfold bind, get_monitor, log, emit. cbv beta iota.
      destruct (ingestion_manager (monitor w)) as [l|].
      * destruct (name_differs (current_race_name (monitor w)) (name r)).
        -- apply (@start_settings e r (logged w _)).
        -- repeat split.
      * apply (@start_settings e r (logged w _)).
    + unfold bind, get_monitor, log, emit, ret. cbv beta iota.
      destruct (ingestion_manager (monitor w)) as [l|].
      * pose proof (stop_never_raises e
          (logged w [MLog Ingest.INFO "Race ended, stopping scraping"])) as K.
        pose proof (stop_settings e
          (logged w [MLog Ingest.INFO "Race ended, stopping scraping"])) as P.
        unfold logged in *.
        destruct (Monitor.stop_ingestion e _) as [res w1].
        cbn [fst snd monitor] in K, P. subst res.
        destruct (Qlt_le_dec _ _); cbn [fst snd monitor]; split; auto.
      * destruct (Qlt_le_dec _ _); repeat split.
  - unfold bind, log, emit. cbv beta iota.
    split; [apply stop_never_raises|].
    apply (stop_settings e (logged w _)).
Qed.

(** X14. A poll never raises and never touches the monitor's running flag
    or its interval. A turn of a running monitor is therefore always the
    poll followed by the sleep of the normal interval; the handler with
    its one-minute wait is never entered. A monitor that is not running
    does nothing. *)
Theorem monitor_turn_cadence (e : env) (w : world) :
  fst (check_for_live_race e w) = Ok tt
  /\ is_running (monitor (snd (check_for_live_race e w)))
     = is_running (monitor w)
  /\ check_interval (monitor (snd (check_for_live_race e w)))
     = check_interval (monitor w)
  /\ (is_running (monitor w) = true ->
      monitor_turn e w
      = (Ok tt,
         logged (snd (check_for_live_race e w))
           [MSleep (check_interval (monitor w))]))
  /\ (is_running (monitor w) = false -> monitor_turn e w = (Ok tt, w)).
Proof.
  destruct (check_in_settings all_races e w) as (A & B & C).
  unfold check_for_live_race in *. splits; try assumption.
  - intros Hr. unfold monitor_turn, bind at 1, get_monitor at 1.
    rewrite Hr. unfold try_with, bind, check_for_live_race, get_monitor, emit.
    destruct (check_in all_races e w) as [res w1].
    cbn [fst snd] in *. subst res. rewrite C. reflexivity.
  - intros Hr. unfold monitor_turn, bind, get_monitor. rewrite Hr. reflexivity.
Qed.

Lemma monitor_turn_cadence_witness :
  is_running (monitor le_mans_session) = true
  /\ monitor_turn (poll_at le_mans_pre_roll) le_mans_session
     = (Ok tt,
        logged (snd (check_for_live_race (poll_at le_mans_pre_roll)
                       le_mans_session))
          [MSleep (check_interval (monitor le_mans_session))])
  /\ check_interval (monitor le_mans_session) = 300.
Proof.
  assert (H : is_running (monitor le_mans_session) = true) by reflexivity.
  split; [exact H|]. split; [|reflexivity].
  exact (proj1 (proj2 (proj2 (proj2
           (monitor_turn_cadence (poll_at le_mans_pre_roll) le_mans_session))))
           H).
Defined.

(** X15. [stop_monitoring] returns normally and leaves the monitor not
    running. When it is called while a session is held (a manager with its
    scraper, the session's record being the active one), then on return
    the fetch loop's flag is cleared, the record is ended with the time of
    the stop, the exporter has been called once with that record, and the
    monitor holds no session. *)
Theorem stop_monitoring_shuts_down
    (e : env) (w : world) :
  fst (stop_monitoring e w) = Ok tt
  /\ is_running (monitor (snd (stop_monitoring e w))) = false
  /\ (forall (l : loc) (m : Ingest.DataIngestionManager) (race : Race),
        ingestion_manager (monitor w) = Some l ->
        nth_error (heap w) l = Some m ->
        Ingest.scraper m <> None ->
        first_active (races w) = Some race ->
        ingestion_manager (monitor (snd (stop_monitoring e w))) = None
        /\ current_race_name (monitor (snd (stop_monitoring e w))) = None
        /\ races (snd (stop_monitoring e w))
           = end_first_active (now_stop e) (races w)
        /\ loop_stopped (snd (stop_monitoring e w)) l
        /\ exists evs,
            out (snd (stop_monitoring e w)) = out w ++ evs
            /\ exports evs = [id race]).
Proof.
  assert (E : stop_monitoring e w
              = (Ok tt,
                 logged (snd (Monitor.stop_ingestion e (halted w)))
                   [MLog Ingest.INFO "Race monitor stopped"])).
  { unfold stop_monitoring, bind at 1, set_running, bind at 1, get_monitor,
      set_monitor. cbv beta iota. fold (halted w).
    unfold bind. pose proof (stop_never_raises e (halted w)) as K.
    destruct (Monitor.stop_ingestion e (halted w)) as [res w1].
    cbn [fst] in K. subst res. reflexivity. }
  rewrite E. cbn [fst snd]. split; [reflexivity|]. split.
  - cbn [logged monitor]. rewrite (proj1 (stop_settings e (halted w))).
    reflexivity.
  - intros l m race H1 H2 H3 H4.
    destruct (Ingest.stop_ingestion m) as [[m' evs] r] eqn:Hs.
    assert (Hr : r = Ok tt).
    { pose proof (stop_ingestion_bound m H3) as K. rewrite Hs in K. tauto. }
    subst r.
    rewrite (@stop_with_record e (halted w) l m m' evs race H1 H2 Hs H4).
    cbn [snd logged monitor races out heap halted cleared
         ingestion_manager current_race_name].
    splits; try reflexivity.
    + exists m'. cbn [heap]. split.
      * apply (nth_error_set_nth_same _ _ _ H2).
      * apply (ingest_stop_clears_flag _ Hs).
    + eexists. rewrite <- app_assoc. split; [reflexivity|].
      destruct (export_raises e); reflexivity.
Qed.

Lemma stop_monitoring_shuts_down_witness :
  first_active (races le_mans_session)
  = Some (mkRow 1 "WEC" "24 Hours of Le Mans" "Circuit de la Sarthe"
            (mk_datetime 2025 6 14 15 0) None true)
  /\ ingestion_manager
       (monitor (snd (stop_monitoring (poll_at (date le_mans))
                        le_mans_session))) = None
  /\ races (snd (stop_monitoring (poll_at (date le_mans)) le_mans_session))
     = end_first_active (date le_mans) (races le_mans_session).
Proof.
  assert (H4 : first_active (races le_mans_session)
               = Some (mkRow 1 "WEC" "24 Hours of Le Mans"
                         "Circuit de la Sarthe"
                         (mk_datetime 2025 6 14 15 0) None true))
    by reflexivity.
  split; [exact H4|].
  destruct (proj2 (proj2 (stop_monitoring_shuts_down (poll_at (date le_mans))
                            le_mans_session))
              0%nat (Ingest.with_running (Ingest.init "WEC") true) _
              eq_refl eq_refl ltac:(simpl; discriminate) H4)
    as (A & _ & C & _).
  split; [exact A | exact C].
Defined.

End MonitorLoop.

(* ===================================================================== *)
(** ** The export of a finished race *)
(* ===================================================================== *)

Section ExportFacts.
Import PyStr Database RaceExport Spec.
Local Open Scope list_scope.

Lemma replace_char_removes (x y : ascii) (s : string) :
  Ascii.eqb y x = false -> no_char x (replace_char x y s) = true.
Proof.
  intros H. induction s as [|c r IH]; [reflexivity|].
  cbn [replace_char no_char]. rewrite IH.
  destruct (Ascii.eqb c x) eqn:E; [rewrite H|rewrite E]; reflexivity.
Qed.

Lemma replace_char_keeps (x y z : ascii) (s : string) :
  Ascii.eqb y z = false -> no_char z s = true ->
  no_char z (replace_char x y s) = true.
Proof.
  intros H. induction s as [|c r IH]; [reflexivity|].
  cbn [replace_char no_char]. rewrite andb_true_iff. intros [A B].
  rewrite (IH B). destruct (Ascii.eqb c x); [rewrite H|rewrite A]; reflexivity.
Qed.

Lemma replace_char_length (x y : ascii) (s : string) :
  String.length (replace_char x y s) = String.length s.
Proof.
  induction s as [|c r IH]; [reflexivity|].
  cbn [replace_char String.length]. rewrite IH. reflexivity.
Qed.

(** X16. The race name that goes into the name of the export file has no
    blank and no slash left, whatever the race is called, and is as long
    as the name; so the file name adds no directory level of its own as
    long as the timestamp has no slash. *)
Theorem export_file_name_is_flat (name timestamp : string) :
  no_char " " (race_name_safe name) = true
  /\ no_char "/" (race_name_safe name) = true
  /\ String.length (race_name_safe name) = String.length name
  /\ (no_char "/" timestamp = true ->
      no_char "/" (file_name name timestamp) = true).
Proof.
  unfold race_name_safe, file_name. splits.
  - apply replace_char_keeps; [reflexivity|].
    apply replace_char_removes. reflexivity.
  - apply replace_char_removes. reflexivity.
  - rewrite !replace_char_length. reflexivity.
  - intros H. rewrite !no_char_app. unfold race_name_safe.
    rewrite (replace_char_removes "/" "-" _ eq_refl), H. reflexivity.
Qed.

Lemma export_file_name_is_flat_witness :
  no_char "/" "20250615_150000" = true
  /\ no_char "/" (file_name "6 Hours of Spa/Francorchamps" "20250615_150000")
     = true
  /\ file_name "6 Hours of Spa/Francorchamps" "20250615_150000"
     = "6_Hours_of_Spa-Francorchamps_20250615_150000.json"%string.
Proof.
  assert (H : no_char "/" "20250615_150000" = true) by reflexivity.
  split; [exact H|]. split; [|reflexivity].
  exact (proj2 (proj2 (proj2 (export_file_name_is_flat
                                "6 Hours of Spa/Francorchamps"
                                "20250615_150000"))) H).
Defined.

(** X17. [export_race_to_json] fails for every race that has a car: the
    dictionary built for a car reads [car.team], which the class [Car]
    does not have, so the call ends in that attribute error before any lap
    is read and before any file is written. For an unknown race it raises
    a value error. For a race without cars it writes one file under the
    export directory and its statistics are all zero or absent. *)
Theorem export_fails_on_any_car
    (rest_of_loop : list Car -> result race_data)
    (write_file : string -> result unit)
    (races : table) (car_rows : list Car) (race_id : Z) (timestamp : string) :
  (find (fun r => id r =? race_id) races = None ->
   export_race_to_json rest_of_loop write_file races car_rows race_id timestamp
   = Raise (ValueError
              ("Race " ++ Schedule.str_of_int race_id ++ " not found")%string))
  /\ (forall race c,
        find (fun r => id r =? race_id) races = Some race ->
        In c car_rows -> car_race_id c = race_id ->
        export_race_to_json rest_of_loop write_file races car_rows race_id
          timestamp
        = Raise (AttributeError "'Car' object has no attribute 'team'"))
  /\ (forall race,
        find (fun r => id r =? race_id) races = Some race ->
        (forall c, In c car_rows -> car_race_id c <> race_id) ->
        write_file (export_dir ++ "/" ++ file_name (race_name race) timestamp)%string
        = Ok tt ->
        export_race_to_json rest_of_loop write_file races car_rows race_id
          timestamp
        = Ok ((export_dir ++ "/" ++ file_name (race_name race) timestamp)%string,
              mkStats 0 0 0 None None)).
Proof.
  unfold export_race_to_json. splits.
  - intros H. rewrite H. reflexivity.
  - intros race c H Hin Hc. rewrite H.
    destruct (filter (fun c0 => car_race_id c0 =? race_id) car_rows)
      as [|x t] eqn:E; [|reflexivity].
    assert (K : In c (filter (fun c0 => car_race_id c0 =? race_id) car_rows)).
    { apply filter_In. split; [exact Hin|]. apply Z.eqb_eq. exact Hc. }
    rewrite E in K. destruct K.
  - intros race H Hno Hw. rewrite H.
    destruct (filter (fun c0 => car_race_id c0 =? race_id) car_rows)
      as [|x t] eqn:E.
    + cbn [rbind]. rewrite Hw. reflexivity.
    + assert (K : In x (filter (fun c0 => car_race_id c0 =? race_id) car_rows))
        by (rewrite E; left; reflexivity).
      apply filter_In in K. destruct K as [K1 K2]. apply Z.eqb_eq in K2.
      exfalso. exact (Hno x K1 K2).
Qed.

Lemma export_fails_on_any_car_witness :
  find (fun r => id r =? 1) (Monitor.races le_mans_session)
  = Some (mkRow 1 "WEC" "24 Hours of Le Mans" "Circuit de la Sarthe"
            (Schedule.mk_datetime 2025 6 14 15 0) None true)
  /\ In (mkCarRow 10 1 "7") [mkCarRow 10 1 "7"]
  /\ export_race_to_json (fun _ => Ok (mkRaceData [] [] []))
       (fun _ => Ok tt) (Monitor.races le_mans_session) [mkCarRow 10 1 "7"] 1
       "20250615_150000"
     = Raise (AttributeError "'Car' object has no attribute 'team'").
Proof.
  assert (H : find (fun r => id r =? 1) (Monitor.races le_mans_session)
              = Some (mkRow 1 "WEC" "24 Hours of Le Mans"
                        "Circuit de la Sarthe"
                        (Schedule.mk_datetime 2025 6 14 15 0) None true))
    by reflexivity.
  assert (Hin : In (mkCarRow 10 1 "7") [mkCarRow 10 1 "7"])
    by (left; reflexivity).
  split; [exact H|]. split; [exact Hin|].
  exact (proj1 (proj2 (export_fails_on_any_car
                         (fun _ => Ok (mkRaceData [] [] [])) (fun _ => Ok tt)
                         (Monitor.races le_mans_session) [mkCarRow 10 1 "7"] 1
                         "20250615_150000"))
           _ (mkCarRow 10 1 "7") H Hin eq_refl).
Defined.

(** *** The statistics *)

Lemma Qlt_bool_iff (a b : Q) : Qlt_bool a b = true <-> (a < b)%Q.
Proof.
  unfold Qlt_bool. rewrite negb_true_iff. split.
  - intros H. apply Qnot_le_lt. intros K. apply Qle_bool_iff in K. congruence.
  - intros H. destruct (Qle_bool b a) eqn:E; [|reflexivity].
    apply Qle_bool_iff in E. exfalso. exact (Qlt_not_le _ _ H E).
Qed.

Lemma min_by_time_spec (l : list lap_data) :
  forall best,
    In (min_by_time best l) (best :: l)
    /\ forall x, In x (best :: l) ->
                 (time_of (min_by_time best l) <= time_of x)%Q.
Proof.
  induction l as [|y t IH]; intros best.
  - cbn [min_by_time]. split; [left; reflexivity|].
    intros x [H|[]]. subst. apply Qle_refl.
  - cbn [min_by_time].
    set (sel := if Qlt_bool (time_of y) (time_of best) then y else best).
    assert (S1 : (time_of sel <= time_of best)%Q
                 /\ (time_of sel <= time_of y)%Q /\ (sel = y \/ sel = best)).
    { unfold sel. destruct (Qlt_bool (time_of y) (time_of best)) eqn:E.
      - apply Qlt_bool_iff in E. splits; [apply Qlt_le_weak; exact E
                                         |apply Qle_refl|left; reflexivity].
      - splits; [apply Qle_refl| |right; reflexivity].
        destruct (Qlt_le_dec (time_of y) (time_of best)) as [K|K];
          [|exact K].
        apply Qlt_bool_iff in K. congruence. }
    destruct S1 as (Sb & Sy & Ssel).
    destruct (IH sel) as [Hin Hle]. split.
    + destruct Hin as [H|H].
      * rewrite <- H. destruct Ssel as [K|K]; rewrite K;
          [right; left; reflexivity | left; reflexivity].
      * right; right; exact H.
    + assert (Hs : (time_of (min_by_time sel t) <= time_of sel)%Q)
        by (apply Hle; left; reflexivity).
      intros x [H|[H|H]].
      * subst x. apply (Qle_trans _ _ _ Hs Sb).
      * subst x. apply (Qle_trans _ _ _ Hs Sy).
      * apply Hle. right. exact H.
Qed.

(** X18. The fastest lap of the statistics is a lap of the list that has
    a time other than zero and is not a pit lap, and no such lap is
    faster; there is none exactly when no lap of the list is of that
    kind. *)
Theorem fastest_lap_is_least (all_laps : list lap_data) :
  (find_fastest all_laps = None <->
   forall l, In l all_laps -> counts_as_timed l = false)
  /\ (forall f,
        find_fastest all_laps = Some f ->
        (exists l,
            In l all_laps /\ counts_as_timed l = true
            /\ lap_time l = Some (fastest_time f)
            /\ fastest_car_number f = lap_car_number l
            /\ fastest_lap_number f = lap_number l)
        /\ ~ (fastest_time f == 0)%Q
        /\ forall l', In l' all_laps -> counts_as_timed l' = true ->
                      (fastest_time f <= time_of l')%Q).
Proof.
  unfold find_fastest.
  destruct (filter counts_as_timed all_laps) as [|x t] eqn:E.
  - split.
    + split.
      * intros _ l Hin. destruct (counts_as_timed l) eqn:C; [|reflexivity].
        assert (K : In l (filter counts_as_timed all_laps))
          by (apply filter_In; auto).
        rewrite E in K. destruct K.
      * intros _. destruct all_laps; reflexivity.
    + intros f H. destruct all_laps; discriminate.
  - assert (Hx : In x (filter counts_as_timed all_laps))
      by (rewrite E; left; reflexivity).
    destruct all_laps as [|a rest]; [destruct Hx|].
    split.
    + split; [discriminate|].
      intros H. apply filter_In in Hx. destruct Hx as [K1 K2].
      rewrite (H x K1) in K2. discriminate.
    + intros f H. inversion H as [Hf]. clear H. cbn [fastest_time
        fastest_car_number fastest_lap_number].
      destruct (min_by_time_spec t x) as [Hin Hle].
      rewrite <- E in Hin. apply filter_In in Hin. destruct Hin as [M1 M2].
      set (m := min_by_time x t) in *.
      assert (Ht : exists q, lap_time m = Some q /\ ~ (q == 0)%Q).
      { unfold counts_as_timed in M2. apply andb_true_iff in M2.
        destruct M2 as [M2 _]. destruct (lap_time m) as [q|]; [|discriminate].
        exists q. split; [reflexivity|]. intros Z0.
        apply Qeq_bool_iff in Z0. rewrite Z0 in M2. discriminate. }
      destruct Ht as (q & Hq & Hnz).
      assert (Tm : time_of m = q) by (unfold time_of; rewrite Hq; reflexivity).
      rewrite Tm. splits.
      * exists m. splits; auto.
      * exact Hnz.
      * intros l' Hl' Cl'. rewrite <- Tm. apply Hle. rewrite <- E.
        apply filter_In. auto.
Qed.

Lemma bump_lookup (car c : string) (counts : list (string * Z)) :
  lookup_count c (bump car counts)
  = lookup_count c counts + (if String.eqb car c then 1 else 0).
Proof.
  induction counts as [|[k n] t IH].
  - cbn [bump lookup_count]. destruct (String.eqb car c); lia.
  - cbn [bump]. destruct (String.eqb_spec k car) as [E|E].
    + subst k. cbn [lookup_count]. destruct (String.eqb car c); lia.
    + cbn [lookup_count]. rewrite IH.
      destruct (String.eqb_spec k c) as [F|F]; [|reflexivity].
      subst k. destruct (String.eqb_spec car c); [congruence|lia].
Qed.

Lemma bump_keys (car : string) (counts : list (string * Z)) :
  NoDup (map fst counts) ->
  NoDup (map fst (bump car counts))
  /\ forall k, In k (map fst (bump car counts)) ->
               k = car \/ In k (map fst counts).
Proof.
  induction counts as [|[k n] t IH]; intros ND.
  - cbn [bump map fst]. split.
    + constructor; [intros []|constructor].
    + intros k0 [H|[]]. left. symmetry. exact H.
  - inversion ND as [|x xs Hn ND']; subst. cbn [bump].
    destruct (String.eqb_spec k car) as [E|E].
    + cbn [map fst]. split; [exact ND|]. intros k0 H. right. exact H.
    + destruct (IH ND') as [A B]. cbn [map fst]. split.
      * constructor; [|exact A]. intros H. apply B in H.
        destruct H as [H|H]; [congruence|]. exact (Hn H).
      * intros k0 [H|H]; [right; left; exact H|].
        apply B in H. destruct H as [H|H]; [left; exact H|right; right; exact H].
Qed.

Lemma pit_counts_from (stops : list pit_data) :
  forall acc,
    NoDup (map fst acc) ->
    NoDup (map fst (fold_left (fun a p => bump (pit_car_number p) a) stops acc))
    /\ forall c,
         lookup_count c
           (fold_left (fun a p => bump (pit_car_number p) a) stops acc)
         = lookup_count c acc + count_for c stops.
Proof.
  induction stops as [|p t IH]; intros acc ND.
  - cbn [fold_left]. split; [exact ND|]. intros c. unfold count_for.
    cbn [filter List.length]. lia.
  - cbn [fold_left].
    destruct (IH (bump (pit_car_number p) acc)
                (proj1 (bump_keys (pit_car_number p) acc ND))) as [A B].
    split; [exact A|]. intros c. rewrite B, bump_lookup.
    unfold count_for. cbn [filter].
    destruct (String.eqb (pit_car_number p) c); cbn [List.length]; lia.
Qed.

Lemma lookup_of_entry (counts : list (string * Z)) (c : string) (n : Z) :
  NoDup (map fst counts) -> In (c, n) counts -> lookup_count c counts = n.
Proof.
  induction counts as [|[k m] t IH]; intros ND Hin; [destruct Hin|].
  inversion ND as [|x xs Hn ND']; subst. cbn [lookup_count].
  destruct Hin as [H|H].
  - inversion H; subst. rewrite String.eqb_refl. reflexivity.
  - destruct (String.eqb_spec k c) as [E|E]; [|apply IH; assumption].
    subst k. exfalso. apply Hn. change c with (fst (c, n)).
    apply in_map. exact H.
Qed.

Lemma entry_of_lookup (counts : list (string * Z)) (c : string) :
  lookup_count c counts <> 0 -> In (c, lookup_count c counts) counts.
Proof.
  induction counts as [|[k m] t IH]; cbn [lookup_count]; [congruence|].
  destruct (String.eqb_spec k c) as [E|E]; intros H.
  - subst k. left. reflexivity.
  - right. apply IH. exact H.
Qed.

Lemma max_by_count_spec (l : list (string * Z)) :
  forall best,
    In (max_by_count best l) (best :: l)
    /\ forall x, In x (best :: l) -> snd x <= snd (max_by_count best l).
Proof.
  induction l as [|y t IH]; intros best.
  - cbn [max_by_count]. split; [left; reflexivity|].
    intros x [H|[]]. subst. lia.
  - cbn [max_by_count].
    destruct (IH (if snd best <? snd y then y else best)) as [Hin Hle].
    assert (Hs : snd (if snd best <? snd y then y else best)
                 <= snd (max_by_count (if snd best <? snd y then y else best) t))
      by (apply Hle; left; reflexivity).
    split.
    + destruct Hin as [H|H]; [|right; right; exact H].
      rewrite <- H. destruct (snd best <? snd y);
        [right; left; reflexivity | left; reflexivity].
    + intros x [H|[H|H]].
      * subst x. destruct (Z.ltb_spec (snd best) (snd y)); lia.
      * subst x. destruct (Z.ltb_spec (snd best) (snd y)); lia.
      * apply Hle. right. exact H.
Qed.

(** X19. The car the statistics name for the most pit stops is named with
    its own number of pit stops, which is at least one, and no car of the
    list has more; no car is named exactly when the list of pit stops is
    empty. *)
Theorem most_pit_stops_is_greatest (stops : list pit_data) :
  (most_pit_stops stops = None <-> stops = [])
  /\ (forall car n,
        most_pit_stops stops = Some (car, n) ->
        n = count_for car stops
        /\ 1 <= n
        /\ forall other, count_for other stops <= n).
Proof.
  unfold most_pit_stops, pit_counts.
  destruct (pit_counts_from stops [] (NoDup_nil _)) as [ND L].
  assert (L' : forall c,
             lookup_count c
               (fold_left (fun a p => bump (pit_car_number p) a) stops [])
             = count_for c stops)
    by (intros c; rewrite L; cbn [lookup_count]; lia).
  clear L. rename L' into L.
  set (counts := fold_left (fun a p => bump (pit_car_number p) a) stops [])
    in *.
  assert (First : forall p t, stops = p :: t ->
                              1 <= count_for (pit_car_number p) stops).
  { intros p t E. subst stops. unfold count_for. cbn [filter].
    rewrite String.eqb_refl. cbn [List.length]. lia. }
  split.
  - split.
    + intros H. destruct stops as [|p t]; [reflexivity|].
      pose proof (First p t eq_refl) as K. rewrite <- L in K.
      destruct counts; [cbn [lookup_count] in K; lia|discriminate].
    + intros E. subst stops. reflexivity.
  - intros car n H. destruct counts as [|x t] eqn:Ec; [discriminate|].
    inversion H as [Hm]. clear H.
    destruct (max_by_count_spec t x) as [Hin Hle]. rewrite Hm in Hin, Hle.
    assert (Hn : n = count_for car stops).
    { rewrite <- L. symmetry. apply lookup_of_entry; assumption. }
    assert (Hge : forall other, count_for other stops <> 0 ->
                                count_for other stops <= n).
    { intros other Hnz. rewrite <- L in Hnz.
      pose proof (entry_of_lookup (x :: t) other Hnz) as K.
      apply Hle in K. cbn [snd] in K. rewrite L in K. exact K. }
    assert (H1 : 1 <= n).
    { destruct stops as [|p rest].
      - subst counts. cbn [fold_left] in Ec. discriminate.
      - pose proof (First p rest eq_refl) as K.
        assert (count_for (pit_car_number p) (p :: rest) <= n)
          by (apply Hge; lia).
        lia. }
    splits; [exact Hn|exact H1|].
    intros other. destruct (Z.eq_dec (count_for other stops) 0) as [Z0|Z0];
      [lia|apply Hge; exact Z0].
Qed.

Lemma most_pit_stops_is_greatest_witness :
  most_pit_stops [mkPit "7" 1; mkPit "8" 2; mkPit "8" 3; mkPit "7" 9]
  = Some ("7"%string, 2)
  /\ count_for "8" [mkPit "7" 1; mkPit "8" 2; mkPit "8" 3; mkPit "7" 9] <= 2.
Proof.
  assert (H : most_pit_stops
                [mkPit "7" 1; mkPit "8" 2; mkPit "8" 3; mkPit "7" 9]
              = Some ("7"%string, 2)) by reflexivity.
  split; [exact H|].
  exact (proj2 (proj2 (proj2 (most_pit_stops_is_greatest
                                [mkPit "7" 1; mkPit "8" 2; mkPit "8" 3;
                                 mkPit "7" 9]) "7"%string 2 H))
           "8"%string).
Defined.

Lemma fastest_lap_is_least_witness :
  find_fastest [mkLap "7" 1 (Some (90 # 1)) None;
                mkLap "8" 1 (Some 0%Q) (Some false);
                mkLap "8" 2 (Some (85 # 1)) (Some true);
                mkLap "51" 3 (Some (88 # 1)) (Some false)]
  = Some (mkFastest "51" 3 (88 # 1))
  /\ ~ (fastest_time (mkFastest "51" 3 (88 # 1)) == 0)%Q.
Proof.
  assert (H : find_fastest [mkLap "7" 1 (Some (90 # 1)) None;
                            mkLap "8" 1 (Some 0%Q) (Some false);
                            mkLap "8" 2 (Some (85 # 1)) (Some true);
                            mkLap "51" 3 (Some (88 # 1)) (Some false)]
              = Some (mkFastest "51" 3 (88 # 1))) by reflexivity.
  split; [exact H|].
  exact (proj1 (proj2 (proj2 (fastest_lap_is_least _) _ H))).
Defined.

End ExportFacts.
